(** * iSensor FX3 firmware: the control-endpoint dispatcher

    A shallow embedding of [FX3_Firmware/main.c] (the vendor-request
    dispatcher [AdiControlEndpointHandler], the shutdown routine [AdiAppStop],
    the fatal handler [AdiAppErrorHandler] and the two buffer fillers
    [AdiGetBuildDate] and [AdiGetBoardPinInfo]) together with the bit-bang
    SPI configuration record of [FX3_Firmware/SpiFunctions.h].  Further down:
    the watchdog ([AdiConfigureWatchdog], [WatchDogTimerCb]), the GPIO
    interrupt handler, board detection, start-up ([AdiAppStart]) and the USB
    event handler.

    The firmware talks to two worlds it does not define itself: the Cypress
    SDK ([CyU3P...] functions) and the firmware modules that sit next to
    [main.c] ([Adi...] functions declared in headers only).  Both are kept
    abstract: every call is answered by an environment, and every call is
    recorded, in program order, together with the firmware globals as they
    were when the call was made. *)

From Stdlib Require Import ZArith Lia List String.
From stdpp Require Import base functions list.

Local Open Scope Z_scope.

(** ** C integer types *)

Definition u8 (z : Z) : Z := z mod 2 ^ 8.
Definition u16 (z : Z) : Z := z mod 2 ^ 16.
Definition u32 (z : Z) : Z := z mod 2 ^ 32.

(** [CyBool_t] is an [int]; [CyTrue] is 1 and [CyFalse] is 0. *)
Definition CyBool_t := Z.
Definition CyTrue : CyBool_t := 1.
Definition CyFalse : CyBool_t := 0.

(** [CyU3PReturnStatus_t] is a [uint32_t]; success is 0. *)
Definition CyU3PReturnStatus_t := Z.
Definition CY_U3P_SUCCESS : CyU3PReturnStatus_t := 0.

(** ** USB setup-packet layout (SDK constants used by the decoder) *)

Module Usb.

Definition CY_U3P_USB_REQUEST_TYPE_MASK : Z := 0x000000FF.
Definition CY_U3P_USB_REQUEST_MASK : Z := 0x0000FF00.
Definition CY_U3P_USB_VALUE_MASK : Z := 0xFFFF0000.
Definition CY_U3P_USB_INDEX_MASK : Z := 0x0000FFFF.
Definition CY_U3P_USB_LENGTH_MASK : Z := 0xFFFF0000.
Definition CY_U3P_USB_REQUEST_POS : Z := 8.
Definition CY_U3P_USB_VALUE_POS : Z := 16.
Definition CY_U3P_USB_INDEX_POS : Z := 0.
Definition CY_U3P_USB_LENGTH_POS : Z := 16.

Definition CY_U3P_USB_TYPE_MASK : Z := 0x60.
Definition CY_U3P_USB_STANDARD_RQT : Z := 0x00.
Definition CY_U3P_USB_VENDOR_RQT : Z := 0x40.
Definition CY_U3P_USB_TARGET_MASK : Z := 0x03.
Definition CY_U3P_USB_TARGET_INTF : Z := 0x01.
Definition CY_U3P_USB_TARGET_ENDPT : Z := 0x02.
Definition CY_U3P_USB_SC_CLEAR_FEATURE : Z := 1.
Definition CY_U3P_USB_SC_SET_FEATURE : Z := 3.

(** The seven fields decoded at the top of [AdiControlEndpointHandler]. *)
Record Setup := {
  bReqType : Z; bType : Z; bTarget : Z; bRequest : Z;
  wValue : Z; wIndex : Z; wLength : Z }.

Definition decode (setupdat0 setupdat1 : Z) : Setup :=
  let rt := u8 (Z.land setupdat0 CY_U3P_USB_REQUEST_TYPE_MASK) in
  {| bReqType := rt;
     bType := u8 (Z.land rt CY_U3P_USB_TYPE_MASK);
     bTarget := u8 (Z.land rt CY_U3P_USB_TARGET_MASK);
     bRequest := u8 (Z.shiftr (Z.land setupdat0 CY_U3P_USB_REQUEST_MASK)
                              CY_U3P_USB_REQUEST_POS);
     wValue := u16 (Z.shiftr (Z.land setupdat0 CY_U3P_USB_VALUE_MASK)
                             CY_U3P_USB_VALUE_POS);
     wIndex := u16 (Z.shiftr (Z.land setupdat1 CY_U3P_USB_INDEX_MASK)
                             CY_U3P_USB_INDEX_POS);
     wLength := u16 (Z.shiftr (Z.land setupdat1 CY_U3P_USB_LENGTH_MASK)
                              CY_U3P_USB_LENGTH_POS) |}.

(** The host side of the same layout: build the two setup words. *)
Definition pack0 (reqType request value : Z) : Z :=
  Z.lor (Z.lor reqType (Z.shiftl request 8)) (Z.shiftl value 16).
Definition pack1 (index length : Z) : Z :=
  Z.lor index (Z.shiftl length 16).

End Usb.

(** ** Names the dispatcher switches on *)

(** The [case] labels of the vendor-request [switch], in source order.  Their
    numeric values live in [main.h]; the dispatcher takes them as a
    parameter [code]. *)
Inductive VendorRequest :=
| ADI_BUSY_MEASURE | ADI_READ_BYTES | ADI_WRITE_BYTE | ADI_SET_BOOT_TIME
| ADI_PULSE_DRIVE | ADI_PULSE_WAIT | ADI_SET_PIN | ADI_FIRMWARE_ID_CHECK
| ADI_SERIAL_NUMBER_CHECK | ADI_GET_BUILD_DATE | ADI_HARD_RESET
| ADI_WARM_RESET | ADI_SET_SPI_CONFIG | ADI_READ_PIN | ADI_PIN_DELAY_MEASURE
| ADI_READ_SPI_CONFIG | ADI_READ_TIMER_VALUE | ADI_SET_DUT_SUPPLY
| ADI_GET_STATUS | ADI_GET_BOARD_TYPE | ADI_STREAM_GENERIC_DATA
| ADI_STREAM_BURST_DATA | ADI_STREAM_REALTIME | ADI_TRANSFER_STREAM
| ADI_MEASURE_DR | ADI_PWM_CMD | ADI_TRANSFER_BYTES | ADI_BITBANG_SPI
| ADI_RESET_SPI | ADI_SET_PIN_RESISTOR | ADI_NULL_COMMAND | ADI_READ_FLASH
| ADI_CLEAR_FLASH_LOG.

Definition all_requests : list VendorRequest :=
  [ ADI_BUSY_MEASURE; ADI_READ_BYTES; ADI_WRITE_BYTE; ADI_SET_BOOT_TIME;
    ADI_PULSE_DRIVE; ADI_PULSE_WAIT; ADI_SET_PIN; ADI_FIRMWARE_ID_CHECK;
    ADI_SERIAL_NUMBER_CHECK; ADI_GET_BUILD_DATE; ADI_HARD_RESET;
    ADI_WARM_RESET; ADI_SET_SPI_CONFIG; ADI_READ_PIN; ADI_PIN_DELAY_MEASURE;
    ADI_READ_SPI_CONFIG; ADI_READ_TIMER_VALUE; ADI_SET_DUT_SUPPLY;
    ADI_GET_STATUS; ADI_GET_BOARD_TYPE; ADI_STREAM_GENERIC_DATA;
    ADI_STREAM_BURST_DATA; ADI_STREAM_REALTIME; ADI_TRANSFER_STREAM;
    ADI_MEASURE_DR; ADI_PWM_CMD; ADI_TRANSFER_BYTES; ADI_BITBANG_SPI;
    ADI_RESET_SPI; ADI_SET_PIN_RESISTOR; ADI_NULL_COMMAND; ADI_READ_FLASH;
    ADI_CLEAR_FLASH_LOG ].

(** The labels of the inner [switch (wIndex)] of the four stream families. *)
Inductive StreamCmd :=
| ADI_STREAM_START_CMD | ADI_STREAM_DONE_CMD | ADI_STREAM_STOP_CMD.

Definition all_stream_cmds : list StreamCmd :=
  [ ADI_STREAM_START_CMD; ADI_STREAM_DONE_CMD; ADI_STREAM_STOP_CMD ].

(** The event flags of [EventHandler] that the dispatcher raises. *)
Inductive StreamEvent :=
| ADI_GENERIC_STREAM_START | ADI_GENERIC_STREAM_DONE | ADI_GENERIC_STREAM_STOP
| ADI_BURST_STREAM_START | ADI_BURST_STREAM_DONE | ADI_BURST_STREAM_STOP
| ADI_RT_STREAM_START | ADI_RT_STREAM_DONE | ADI_RT_STREAM_STOP
| ADI_TRANSFER_STREAM_START | ADI_TRANSFER_STREAM_DONE
| ADI_TRANSFER_STREAM_STOP.

Inductive Endpoint :=
| ADI_STREAMING_ENDPOINT | ADI_FROM_PC_ENDPOINT | ADI_TO_PC_ENDPOINT.

Inductive EventGroup := EventHandler | GpioHandler.
Inductive DmaChannel := ChannelFromPC | ChannelToPC.

(** Buffers handed to the SDK by address. *)
Inductive BufferPtr := ptr_USBBuffer | ptr_FirmwareID | ptr_serial_number.

#[global] Instance VendorRequest_eq_dec : EqDecision VendorRequest.
Proof. solve_decision. Defined.
#[global] Instance StreamCmd_eq_dec : EqDecision StreamCmd.
Proof. solve_decision. Defined.
#[global] Instance StreamEvent_eq_dec : EqDecision StreamEvent.
Proof. solve_decision. Defined.
#[global] Instance Endpoint_eq_dec : EqDecision Endpoint.
Proof. solve_decision. Defined.
#[global] Instance BufferPtr_eq_dec : EqDecision BufferPtr.
Proof. solve_decision. Defined.

(** A [switch] over labels with numeric values [code]: the first label whose
    value equals the scrutinee.  C requires the labels of one [switch] to be
    pairwise distinct, so "first" is the only one. *)
Definition switch_on {L : Type} (labels : list L) (code : L -> Z) (x : Z)
  : option L :=
  List.find (fun l => code l =? x) labels.

(** ** Firmware globals *)

Record PinMapT := {
  ADI_PIN_RESET : Z; ADI_PIN_DIO1 : Z; ADI_PIN_DIO2 : Z; ADI_PIN_DIO3 : Z;
  ADI_PIN_DIO4 : Z; FX3_PIN_GPIO1 : Z; FX3_PIN_GPIO2 : Z; FX3_PIN_GPIO3 : Z;
  FX3_PIN_GPIO4 : Z }.

(** [BoardState]: the fields of [FX3State] that [main.c] names. *)
Record BoardState := {
  BootTime : Z; AppActive : CyBool_t;
  WatchDogEnabled : CyBool_t; WatchDogPeriodMs : Z; WatchDogTicks : Z;
  BoardType : Z; PinMap : PinMapT; UsbBufferSize : Z; TimerPinConfig : Z;
  StallTime : Z; DutType : Z; DrPin : Z; DrActive : CyBool_t;
  DrPolarity : CyBool_t }.

(** [StreamState]: the fields of [StreamThreadState] that [main.c] names. *)
Record StreamState := {
  TransferByteLength : Z; TransferWordLength : Z; PinExitEnable : CyBool_t }.

(** [CyU3PDmaBuffer_t], as far as [main.c] fills it in. *)
Record DmaBuffer := {
  dma_buffer : option BufferPtr; dma_size : Z; dma_count : Z }.

Record Globals := {
  FX3State : BoardState;
  StreamThreadState : StreamState;
  KillStreamEarly : CyBool_t;
  USBBuffer : Z -> Z;
  ManualDMABuffer : DmaBuffer }.

Definition set_BootTime (v : Z) (b : BoardState) : BoardState :=
  {| BootTime := v; AppActive := AppActive b;
     WatchDogEnabled := WatchDogEnabled b;
     WatchDogPeriodMs := WatchDogPeriodMs b; WatchDogTicks := WatchDogTicks b;
     BoardType := BoardType b; PinMap := PinMap b;
     UsbBufferSize := UsbBufferSize b; TimerPinConfig := TimerPinConfig b;
     StallTime := StallTime b; DutType := DutType b; DrPin := DrPin b;
     DrActive := DrActive b; DrPolarity := DrPolarity b |}.

Definition set_AppActive (v : CyBool_t) (b : BoardState) : BoardState :=
  {| BootTime := BootTime b; AppActive := v;
     WatchDogEnabled := WatchDogEnabled b;
     WatchDogPeriodMs := WatchDogPeriodMs b; WatchDogTicks := WatchDogTicks b;
     BoardType := BoardType b; PinMap := PinMap b;
     UsbBufferSize := UsbBufferSize b; TimerPinConfig := TimerPinConfig b;
     StallTime := StallTime b; DutType := DutType b; DrPin := DrPin b;
     DrActive := DrActive b; DrPolarity := DrPolarity b |}.

Definition set_TransferByteLength (v : Z) (s : StreamState) : StreamState :=
  {| TransferByteLength := v; TransferWordLength := TransferWordLength s;
     PinExitEnable := PinExitEnable s |}.

Definition set_TransferWordLength (v : Z) (s : StreamState) : StreamState :=
  {| TransferByteLength := TransferByteLength s; TransferWordLength := v;
     PinExitEnable := PinExitEnable s |}.

Definition set_PinExitEnable (v : CyBool_t) (s : StreamState) : StreamState :=
  {| TransferByteLength := TransferByteLength s;
     TransferWordLength := TransferWordLength s; PinExitEnable := v |}.

Definition with_FX3State (f : BoardState -> BoardState) (g : Globals)
  : Globals :=
  {| FX3State := f (FX3State g); StreamThreadState := StreamThreadState g;
     KillStreamEarly := KillStreamEarly g; USBBuffer := USBBuffer g;
     ManualDMABuffer := ManualDMABuffer g |}.

Definition with_StreamThreadState (f : StreamState -> StreamState)
  (g : Globals) : Globals :=
  {| FX3State := FX3State g; StreamThreadState := f (StreamThreadState g);
     KillStreamEarly := KillStreamEarly g; USBBuffer := USBBuffer g;
     ManualDMABuffer := ManualDMABuffer g |}.

Definition with_USBBuffer (f : (Z -> Z) -> Z -> Z) (g : Globals) : Globals :=
  {| FX3State := FX3State g; StreamThreadState := StreamThreadState g;
     KillStreamEarly := KillStreamEarly g; USBBuffer := f (USBBuffer g);
     ManualDMABuffer := ManualDMABuffer g |}.

Definition with_ManualDMABuffer (d : DmaBuffer) (g : Globals) : Globals :=
  {| FX3State := FX3State g; StreamThreadState := StreamThreadState g;
     KillStreamEarly := KillStreamEarly g; USBBuffer := USBBuffer g;
     ManualDMABuffer := d |}.

(** ** Calls that leave [main.c] *)

Inductive PrintArg := PInt (z : Z) | PStr (b : BufferPtr).

Inductive Call :=
(* Cypress SDK *)
| CyU3PDebugPrint (fmt : string) (args : list PrintArg)
| CyU3PUsbGetEP0Data (count : Z)
| CyU3PUsbSendEP0Data (count : Z) (buf : BufferPtr)
| CyU3PDmaChannelSetupSendBuffer (ch : DmaChannel)
| CyU3PUsbAckSetup
| CyU3PUsbStall (ep : Z) (stall clear : CyBool_t)
| CyU3PThreadSleep (ms : Z)
| CyU3PConnectState (connect ssEnable : CyBool_t)
| CyU3PPibDeInit
| CyU3PDeviceReset (isWarmReset : CyBool_t)
| CyU3PEventSet (grp : EventGroup) (flag : StreamEvent)
| CyU3PUartDeInit
| CyU3PGpioDeInit
| CyU3PSpiDeInit
| CyU3PEventDestroy (grp : EventGroup)
| CyU3PUsbFlushEp (ep : Endpoint)
| CyU3PDmaChannelDestroy (ch : DmaChannel)
| CyU3PSetEpConfig (ep : Endpoint) (enable : CyBool_t)
(* firmware modules next to main.c *)
| AdiMeasureBusyPulse (transferLength : Z)
| AdiReadRegBytes (addr : Z)
| AdiWriteRegByte (addr data : Z)
| AdiPulseDrive
| AdiPulseWait (transferLength : Z)
| AdiSetPin (pinNumber : Z) (polarity : CyBool_t)
| AdiSpiUpdate (index value length : Z)
| AdiPinRead (pin : Z)
| AdiMeasurePinDelay (transferLength : Z)
| AdiGetSpiSettings
| AdiReadTimerValue
| AdiSetDutSupply (voltage : Z)
| AdiMeasurePinFreq
| AdiConfigurePWM (enable : CyBool_t)
| AdiTransferBytes (writeData : Z)
| AdiBitBangSpiHandler
| AdiRestartSpi
| AdiSetPinResistor (pin setting : Z)
| AdiFlashReadHandler (addr len : Z)
| WriteErrorLogCount (count : Z)
| AdiLogError (line errorCode : Z).

(** One observation: the call, the firmware globals at the moment of the
    call (what any other thread woken by the call would read), and the value
    the call answered. *)
Record Obs := { seen : Globals; call : Call; answer : Z }.

(** The environment.  [answers k c g] is what the [k]-th call of a run
    returns; [effects k c g] is what it leaves in the firmware globals.  The
    firmware-module calls may rewrite any global; of the SDK calls only
    [CyU3PUsbGetEP0Data] writes (into [USBBuffer]). *)
Record Env := {
  answers : nat -> Call -> Globals -> Z;
  effects : nat -> Call -> Globals -> Globals }.

(** ** The execution monad *)

(** [tick] counts the calls made so far: the environment's clock. *)
Record World := { globals : Globals; trace : list Obs; tick : nat }.

(** [None] as result: the device was reset and control never came back. *)
Definition M (A : Type) : Type := World -> option A * World.

Definition ret {A} (a : A) : M A := fun w => (Some a, w).

Definition bind {A B} (m : M A) (k : A -> M B) : M B :=
  fun w => match m w with
           | (Some a, w') => k a w'
           | (None, w') => (None, w')
           end.

Notation "'do' x <- m ; k" := (bind m (fun x => k))
  (at level 10, x name, m at level 100, k at level 200,
   format "'[v' 'do'  x  <-  m ; '/' k ']'").
Notation "'run' m ; k" := (bind m (fun _ => k))
  (at level 10, m at level 100, k at level 200,
   format "'[v' 'run'  m ; '/' k ']'").

(** One invocation, started with an empty trace. *)
Definition exec {A} (m : M A) (g : Globals) : option A * World :=
  m {| globals := g; trace := []; tick := O |}.

Definition get_globals : M Globals := fun w => (Some (globals w), w).

Definition modify (f : Globals -> Globals) : M unit :=
  fun w => (Some tt, {| globals := f (globals w); trace := trace w;
                        tick := tick w |}).

Definition calls (t : list Obs) : list Call := map call t.

(** ** The firmware of [main.c] *)

Section Firmware.

(** Values of the [case] labels ([main.h]). *)
Variable code : VendorRequest -> Z.
Variable sub_code : StreamCmd -> Z.
(** Whether the build defines [VERBOSE_MODE]. *)
Variable VERBOSE_MODE : bool.
(** The compiler's [__DATE__] (11 characters) and [__TIME__] (8). *)
Variable build_date build_time : Z -> Z.
Variable env : Env.

(** A call into the SDK: answered and recorded; the globals stay. *)
Definition sdk (c : Call) : M Z := fun w =>
  let r := u32 (answers env (tick w) c (globals w)) in
  (Some r,
   {| globals := globals w;
      trace := trace w ++ [{| seen := globals w; call := c; answer := r |}];
      tick := S (tick w) |}).

(** [CyU3PUsbGetEP0Data (count, USBBuffer, bytesRead)]: as [sdk], and the
    host's bytes land in [USBBuffer]. *)
Definition get_ep0 (count : Z) : M Z := fun w =>
  let c := CyU3PUsbGetEP0Data count in
  let k := tick w in
  let r := u32 (answers env k c (globals w)) in
  (Some r,
   {| globals :=
        with_USBBuffer (fun _ => USBBuffer (effects env k c (globals w)))
                       (globals w);
      trace := trace w ++ [{| seen := globals w; call := c; answer := r |}];
      tick := S k |}).

(** A call into a neighbouring firmware module: answered, recorded, and free
    to rewrite the globals.  (Answers are the 32-bit return register, read
    as unsigned.) *)
Definition adi (c : Call) : M Z := fun w =>
  let k := tick w in
  let r := u32 (answers env k c (globals w)) in
  (Some r,
   {| globals := effects env k c (globals w);
      trace := trace w ++ [{| seen := globals w; call := c; answer := r |}];
      tick := S k |}).

(** [CyU3PDeviceReset] does not return. *)
Definition device_reset (isWarmReset : CyBool_t) : M unit := fun w =>
  (None,
   {| globals := globals w;
      trace := trace w ++ [{| seen := globals w;
                              call := CyU3PDeviceReset isWarmReset;
                              answer := 0 |}];
      tick := S (tick w) |}).

(** A [CyU3PDebugPrint] inside [#ifdef VERBOSE_MODE]. *)
Definition verbose_print (fmt : string) (args : list PrintArg) : M unit :=
  if VERBOSE_MODE then run sdk (CyU3PDebugPrint fmt args); ret tt
  else ret tt.

(** [USBBuffer[i] = v] (the cells are [uint8_t]). *)
Definition store_USBBuffer (i v : Z) : M unit :=
  modify (with_USBBuffer (fun b => <[i := u8 v]> b)).

Definition load_USBBuffer (i : Z) : M Z :=
  do g <- get_globals; ret (u8 (USBBuffer g i)).

(** The four assignments that put [status] into [USBBuffer[0..3]]. *)
Definition store_status (status : Z) : M unit :=
  run store_USBBuffer 0 (Z.land status 0xFF);
  run store_USBBuffer 1 (Z.shiftr (Z.land status 0xFF00) 8);
  run store_USBBuffer 2 (Z.shiftr (Z.land status 0xFF0000) 16);
  store_USBBuffer 3 (Z.shiftr (Z.land status 0xFF000000) 24).

Definition fatal_fmt : string :=
  "Application failed with fatal error. Error code: 0x%x".

(** The [for (int i = 5; i > 0; i--)] loop of [AdiAppErrorHandler], entered
    with [i = Z.of_nat n]. *)
Fixpoint reboot_countdown (n : nat) : M unit :=
  match n with
  | O => ret tt
  | S n' =>
      run sdk (CyU3PDebugPrint "Rebooting in %d seconds..."
                               [PInt (Z.of_nat n)]);
      run sdk (CyU3PThreadSleep 1000);
      reboot_countdown n'
  end.

Definition AdiAppErrorHandler (status : Z) : M unit :=
  run sdk (CyU3PDebugPrint fatal_fmt [PInt status]);
  run reboot_countdown 5;
  device_reset CyFalse.

(** [if (status != CY_U3P_SUCCESS) AdiAppErrorHandler(status);] *)
Definition fatal_unless_success (status : Z) : M unit :=
  if status =? CY_U3P_SUCCESS then ret tt else AdiAppErrorHandler status.

Definition AdiAppStop : M unit :=
  run sdk (CyU3PDebugPrint "Application stopping!" []);
  run modify (with_FX3State (set_AppActive CyFalse));
  run sdk CyU3PUartDeInit;
  run sdk CyU3PGpioDeInit;
  run sdk CyU3PSpiDeInit;
  run sdk (CyU3PEventDestroy EventHandler);
  run sdk (CyU3PEventDestroy GpioHandler);
  run sdk (CyU3PUsbFlushEp ADI_STREAMING_ENDPOINT);
  run sdk (CyU3PUsbFlushEp ADI_FROM_PC_ENDPOINT);
  run sdk (CyU3PUsbFlushEp ADI_TO_PC_ENDPOINT);
  run sdk (CyU3PDmaChannelDestroy ChannelFromPC);
  run sdk (CyU3PDmaChannelDestroy ChannelToPC);
  do status <- sdk (CyU3PSetEpConfig ADI_STREAMING_ENDPOINT CyFalse);
  run fatal_unless_success status;
  do status <- sdk (CyU3PSetEpConfig ADI_FROM_PC_ENDPOINT CyFalse);
  run fatal_unless_success status;
  do status <- sdk (CyU3PSetEpConfig ADI_TO_PC_ENDPOINT CyFalse);
  fatal_unless_success status.

(** [for (index = lo; index < hi; index++) outBuf[index] = src[index - off]] *)
Definition copy_chars (src : Z -> Z) (lo n off : Z) : M unit :=
  modify (with_USBBuffer (fun b =>
    fold_left (fun b i => <[i := u8 (src (i - off))]> b)
              (seqZ lo n) b)).

(** [AdiGetBuildDate (USBBuffer)] *)
Definition AdiGetBuildDate : M unit :=
  run copy_chars build_date 0 11 0;
  run store_USBBuffer 11 32;
  run copy_chars build_time 12 8 12;
  store_USBBuffer 20 0.

(** [AdiGetBoardPinInfo (USBBuffer)] *)
Definition AdiGetBoardPinInfo : M unit :=
  do g <- get_globals;
  let bt := BoardType (FX3State g) in
  let pm := PinMap (FX3State g) in
  let lo (v : Z) := Z.land v 0xFF in
  let hi (v : Z) := Z.shiftr (Z.land v 0xFF00) 8 in
  run store_USBBuffer 0 (Z.land bt 0xFF);
  run store_USBBuffer 1 (Z.shiftr (Z.land bt 0xFF00) 8);
  run store_USBBuffer 2 (Z.shiftr (Z.land bt 0xFF0000) 16);
  run store_USBBuffer 3 (Z.shiftr (Z.land bt 0xFF000000) 24);
  run store_USBBuffer 4 (lo (ADI_PIN_RESET pm));
  run store_USBBuffer 5 (hi (ADI_PIN_RESET pm));
  run store_USBBuffer 6 (lo (ADI_PIN_DIO1 pm));
  run store_USBBuffer 7 (hi (ADI_PIN_DIO1 pm));
  run store_USBBuffer 8 (lo (ADI_PIN_DIO2 pm));
  run store_USBBuffer 9 (hi (ADI_PIN_DIO2 pm));
  run store_USBBuffer 10 (lo (ADI_PIN_DIO3 pm));
  run store_USBBuffer 11 (hi (ADI_PIN_DIO3 pm));
  run store_USBBuffer 12 (lo (ADI_PIN_DIO4 pm));
  run store_USBBuffer 13 (hi (ADI_PIN_DIO4 pm));
  run store_USBBuffer 14 (lo (FX3_PIN_GPIO1 pm));
  run store_USBBuffer 15 (hi (FX3_PIN_GPIO1 pm));
  run store_USBBuffer 16 (lo (FX3_PIN_GPIO2 pm));
  run store_USBBuffer 17 (hi (FX3_PIN_GPIO2 pm));
  run store_USBBuffer 18 (lo (FX3_PIN_GPIO3 pm));
  run store_USBBuffer 19 (hi (FX3_PIN_GPIO3 pm));
  run store_USBBuffer 20 (lo (FX3_PIN_GPIO4 pm));
  store_USBBuffer 21 (hi (FX3_PIN_GPIO4 pm)).

(** [status = CyU3PEventSet (&EventHandler, flag, CYU3P_EVENT_OR)] *)
Definition raise_event (flag : StreamEvent) : M Z :=
  sdk (CyU3PEventSet EventHandler flag).

(** The check that closes each stream family:
    [if (status != CY_U3P_SUCCESS) { isHandled = CyFalse; CyU3PDebugPrint (4, fmt, status); }] *)
Definition stream_check (fmt : string) (isHandled status : Z)
  : M (CyBool_t * Z) :=
  if status =? CY_U3P_SUCCESS then ret (isHandled, status)
  else run sdk (CyU3PDebugPrint fmt [PInt status]); ret (CyFalse, status).

Definition unknown_stream_fmt : string := "ERROR: Unknown Stream Command: %d".
Definition generic_fail_fmt : string :=
  "Setting generic stream event failed, Error code = %x".
Definition burst_fail_fmt : string :=
  "Setting burst stream event failed, Error code = %x".
Definition rt_fail_fmt : string :=
  "Setting real time stream event failed, Error code = %x".

(** [if (status != CY_U3P_SUCCESS) isHandled = CyFalse;] *)
Definition clear_if_failed (isHandled status : Z) : CyBool_t :=
  if status =? CY_U3P_SUCCESS then isHandled else CyFalse.

(** [wIndex << 16 | wValue], converted to the [uint32_t] parameter. *)
Definition pack_write_word (wIndex wValue : Z) : Z :=
  u32 (Z.lor (Z.shiftl wIndex 16) wValue).

Import Usb.

(** [case ADI_STREAM_GENERIC_DATA] *)
Definition stream_generic (s : Setup) (isHandled status : Z)
  : M (CyBool_t * Z) :=
  do status <-
    match switch_on all_stream_cmds sub_code (wIndex s) with
    | Some ADI_STREAM_START_CMD =>
        run get_ep0 (wLength s);
        do status <- raise_event ADI_GENERIC_STREAM_START;
        run modify (with_StreamThreadState
                      (set_TransferByteLength (wLength s)));
        ret status
    | Some ADI_STREAM_DONE_CMD =>
        run get_ep0 (wLength s);
        raise_event ADI_GENERIC_STREAM_DONE
    | Some ADI_STREAM_STOP_CMD =>
        raise_event ADI_GENERIC_STREAM_STOP
    | None =>
        run sdk (CyU3PDebugPrint unknown_stream_fmt [PInt (wIndex s)]);
        ret status
    end;
  stream_check generic_fail_fmt isHandled status.

(** [case ADI_STREAM_BURST_DATA] *)
Definition stream_burst (s : Setup) (isHandled status : Z)
  : M (CyBool_t * Z) :=
  do status <-
    match switch_on all_stream_cmds sub_code (wIndex s) with
    | Some ADI_STREAM_START_CMD =>
        run modify (with_StreamThreadState
                      (set_TransferWordLength (wLength s)));
        raise_event ADI_BURST_STREAM_START
    | Some ADI_STREAM_DONE_CMD =>
        run get_ep0 (wLength s);
        raise_event ADI_BURST_STREAM_DONE
    | Some ADI_STREAM_STOP_CMD =>
        raise_event ADI_BURST_STREAM_STOP
    | None =>
        run sdk (CyU3PDebugPrint unknown_stream_fmt [PInt (wIndex s)]);
        ret status
    end;
  stream_check burst_fail_fmt isHandled status.

(** [case ADI_STREAM_REALTIME] *)
Definition stream_realtime (s : Setup) (isHandled status : Z)
  : M (CyBool_t * Z) :=
  do status <-
    match switch_on all_stream_cmds sub_code (wIndex s) with
    | Some ADI_STREAM_START_CMD =>
        run modify (with_StreamThreadState (set_PinExitEnable (wValue s)));
        raise_event ADI_RT_STREAM_START
    | Some ADI_STREAM_DONE_CMD =>
        run get_ep0 (wLength s);
        raise_event ADI_RT_STREAM_DONE
    | Some ADI_STREAM_STOP_CMD =>
        raise_event ADI_RT_STREAM_STOP
    | None =>
        run sdk (CyU3PDebugPrint unknown_stream_fmt [PInt (wIndex s)]);
        ret status
    end;
  stream_check rt_fail_fmt isHandled status.

(** [case ADI_TRANSFER_STREAM] (its failure message is the real-time one in
    the source, too) *)
Definition stream_transfer (s : Setup) (isHandled status : Z)
  : M (CyBool_t * Z) :=
  do status <-
    match switch_on all_stream_cmds sub_code (wIndex s) with
    | Some ADI_STREAM_START_CMD =>
        do status <- raise_event ADI_TRANSFER_STREAM_START;
        run modify (with_StreamThreadState
                      (set_TransferByteLength (wLength s)));
        ret status
    | Some ADI_STREAM_DONE_CMD =>
        run get_ep0 (wLength s);
        raise_event ADI_TRANSFER_STREAM_DONE
    | Some ADI_STREAM_STOP_CMD =>
        raise_event ADI_TRANSFER_STREAM_STOP
    | None =>
        run sdk (CyU3PDebugPrint unknown_stream_fmt [PInt (wIndex s)]);
        ret status
    end;
  stream_check rt_fail_fmt isHandled status.

(** [case ADI_HARD_RESET] *)
Definition hard_reset (s : Setup) : M unit :=
  run sdk CyU3PUsbAckSetup;
  run get_ep0 (wLength s);
  run verbose_print "Rebooting FX3!" [];
  run sdk (CyU3PThreadSleep 500);
  run sdk (CyU3PConnectState CyFalse CyTrue);
  run AdiAppStop;
  run sdk CyU3PPibDeInit;
  run sdk (CyU3PThreadSleep 500);
  device_reset CyFalse.

(** [case ADI_WARM_RESET] *)
Definition warm_reset (s : Setup) : M unit :=
  run sdk CyU3PUsbAckSetup;
  run get_ep0 (wLength s);
  run sdk (CyU3PThreadSleep 500);
  run sdk (CyU3PConnectState CyFalse CyTrue);
  run AdiAppStop;
  run sdk CyU3PPibDeInit;
  run sdk (CyU3PThreadSleep 500);
  device_reset CyTrue.

(** [FX3State.BootTime = USBBuffer[0]; FX3State.BootTime |= USBBuffer[1] << 8; ...] *)
Definition load_boot_time : M unit :=
  do b0 <- load_USBBuffer 0;
  run modify (with_FX3State (set_BootTime b0));
  do b1 <- load_USBBuffer 1;
  run modify (with_FX3State (fun f =>
        set_BootTime (u32 (Z.lor (BootTime f) (Z.shiftl b1 8))) f));
  do b2 <- load_USBBuffer 2;
  run modify (with_FX3State (fun f =>
        set_BootTime (u32 (Z.lor (BootTime f) (Z.shiftl b2 16))) f));
  do b3 <- load_USBBuffer 3;
  modify (with_FX3State (fun f =>
        set_BootTime (u32 (Z.lor (BootTime f) (Z.shiftl b3 24))) f)).

(** [status = f (...); if (status != CY_U3P_SUCCESS) isHandled = CyFalse;] *)
Definition checked (c : Call) (isHandled : Z) : M (CyBool_t * Z) :=
  do status <- adi c; ret (clear_if_failed isHandled status, status).

(** [status = f (...); <status into USBBuffer[0..3]>; CyU3PUsbSendEP0Data (wLength, USBBuffer);] *)
Definition reply_status (c : Call) (s : Setup) : M Z :=
  do status <- adi c;
  run store_status status;
  run sdk (CyU3PUsbSendEP0Data (wLength s) ptr_USBBuffer);
  ret status.

(** The [switch (bRequest)], entered with the locals [isHandled] and
    [status]; it gives back both. *)
Definition vendor_switch (s : Setup) (isHandled status : Z)
  : M (CyBool_t * Z) :=
  match switch_on all_requests code (bRequest s) with
  | Some ADI_BUSY_MEASURE =>
      do status <- adi (AdiMeasureBusyPulse (wLength s));
      ret (isHandled, status)
  | Some ADI_READ_BYTES =>
      run adi (AdiReadRegBytes (wIndex s)); ret (isHandled, status)
  | Some ADI_WRITE_BYTE =>
      run adi (AdiWriteRegByte (wIndex s) (Z.land (wValue s) 0xFF));
      ret (isHandled, status)
  | Some ADI_SET_BOOT_TIME =>
      do status <- get_ep0 (wLength s);
      run load_boot_time;
      do g <- get_globals;
      run verbose_print "Boot Time Stamp: %d" [PInt (BootTime (FX3State g))];
      ret (isHandled, status)
  | Some ADI_PULSE_DRIVE =>
      run get_ep0 (wLength s);
      do status <- adi AdiPulseDrive;
      run store_status status;
      run modify (with_ManualDMABuffer
                    {| dma_buffer := Some ptr_USBBuffer; dma_size := 4096;
                       dma_count := 4 |});
      run sdk (CyU3PDmaChannelSetupSendBuffer ChannelToPC);
      ret (isHandled, status)
  | Some ADI_PULSE_WAIT =>
      do status <- adi (AdiPulseWait (wLength s)); ret (isHandled, status)
  | Some ADI_SET_PIN =>
      do status <- reply_status (AdiSetPin (wIndex s) (wValue s)) s;
      ret (isHandled, status)
  | Some ADI_FIRMWARE_ID_CHECK =>
      do status <- sdk (CyU3PUsbSendEP0Data 32 ptr_FirmwareID);
      run verbose_print "Firmware ID: %s" [PStr ptr_FirmwareID];
      ret (clear_if_failed isHandled status, status)
  | Some ADI_SERIAL_NUMBER_CHECK =>
      do status <- sdk (CyU3PUsbSendEP0Data 32 ptr_serial_number);
      ret (clear_if_failed isHandled status, status)
  | Some ADI_GET_BUILD_DATE =>
      run AdiGetBuildDate;
      run sdk (CyU3PUsbSendEP0Data (wLength s) ptr_USBBuffer);
      ret (CyTrue, status)
  | Some ADI_HARD_RESET =>
      run hard_reset s; ret (isHandled, status)
  | Some ADI_WARM_RESET =>
      run warm_reset s; ret (isHandled, status)
  | Some ADI_SET_SPI_CONFIG =>
      do isHandled <- adi (AdiSpiUpdate (wIndex s) (wValue s) (wLength s));
      ret (isHandled, status)
  | Some ADI_READ_PIN => checked (AdiPinRead (wIndex s)) isHandled
  | Some ADI_PIN_DELAY_MEASURE =>
      checked (AdiMeasurePinDelay (wLength s)) isHandled
  | Some ADI_READ_SPI_CONFIG => checked AdiGetSpiSettings isHandled
  | Some ADI_READ_TIMER_VALUE => checked AdiReadTimerValue isHandled
  | Some ADI_SET_DUT_SUPPLY =>
      do status <- reply_status (AdiSetDutSupply (wValue s)) s;
      ret (CyTrue, status)
  | Some ADI_GET_STATUS =>
      run store_status status;
      run store_USBBuffer 4 0;
      run (if VERBOSE_MODE then store_USBBuffer 4 1 else ret tt);
      run sdk (CyU3PUsbSendEP0Data (wLength s) ptr_USBBuffer);
      ret (isHandled, status)
  | Some ADI_GET_BOARD_TYPE =>
      run AdiGetBoardPinInfo;
      run sdk (CyU3PUsbSendEP0Data (wLength s) ptr_USBBuffer);
      ret (CyTrue, status)
  | Some ADI_STREAM_GENERIC_DATA => stream_generic s isHandled status
  | Some ADI_STREAM_BURST_DATA => stream_burst s isHandled status
  | Some ADI_STREAM_REALTIME => stream_realtime s isHandled status
  | Some ADI_TRANSFER_STREAM => stream_transfer s isHandled status
  | Some ADI_MEASURE_DR =>
      run get_ep0 (wLength s);
      do status <- adi AdiMeasurePinFreq; ret (isHandled, status)
  | Some ADI_PWM_CMD =>
      run get_ep0 (wLength s);
      do status <- adi (AdiConfigurePWM (wIndex s)); ret (isHandled, status)
  | Some ADI_TRANSFER_BYTES =>
      do status <- adi (AdiTransferBytes
                          (pack_write_word (wIndex s) (wValue s)));
      ret (isHandled, status)
  | Some ADI_BITBANG_SPI =>
      run get_ep0 (wLength s);
      do status <- adi AdiBitBangSpiHandler; ret (isHandled, status)
  | Some ADI_RESET_SPI =>
      do status <- reply_status AdiRestartSpi s; ret (isHandled, status)
  | Some ADI_SET_PIN_RESISTOR =>
      do status <- reply_status (AdiSetPinResistor (wIndex s) (wValue s)) s;
      run adi (AdiLogError 604 (wIndex s));
      ret (isHandled, status)
  | Some ADI_NULL_COMMAND => ret (CyTrue, status)
  | Some ADI_READ_FLASH =>
      run adi (AdiFlashReadHandler (pack_write_word (wIndex s) (wValue s))
                                   (wLength s));
      ret (CyTrue, status)
  | Some ADI_CLEAR_FLASH_LOG =>
      run adi (WriteErrorLogCount 0);
      run get_ep0 (wLength s);
      ret (isHandled, status)
  | None =>
      run verbose_print "ERROR: Un-handled vendor command 0x%x"
                        [PInt (bRequest s)];
      ret (CyFalse, status)
  end.

(** The body of [if (bType == CY_U3P_USB_STANDARD_RQT) { ... }]. *)
Definition standard_request_block (s : Setup) (isHandled : Z) : M CyBool_t :=
  do isHandled <-
    (if (bTarget s =? CY_U3P_USB_TARGET_INTF)
        && ((bRequest s =? CY_U3P_USB_SC_SET_FEATURE)
            || (bRequest s =? CY_U3P_USB_SC_CLEAR_FEATURE))
        && (wValue s =? 0)
     then
       do g <- get_globals;
       run (if AppActive (FX3State g) =? 0
            then sdk (CyU3PUsbStall 0 CyTrue CyFalse)
            else sdk CyU3PUsbAckSetup);
       ret CyTrue
     else ret isHandled);
  if bTarget s =? CY_U3P_USB_TARGET_ENDPT then ret CyTrue else ret isHandled.

(** [AdiControlEndpointHandler] with the standard-request block as an
    argument. *)
Definition AdiControlEndpointHandler_body
  (std_block : Setup -> Z -> M CyBool_t) (setupdat0 setupdat1 : Z)
  : M CyBool_t :=
  let s := decode setupdat0 setupdat1 in
  let isHandled := CyFalse in
  let status := CY_U3P_SUCCESS in
  if bType s =? CY_U3P_USB_VENDOR_RQT then
    let isHandled := CyTrue in
    run verbose_print "Vendor request = 0x%x" [PInt (bRequest s)];
    do r <- vendor_switch s isHandled status;
    let isHandled := fst r in
    let status := snd r in
    do isHandled <-
      (if bType s =? CY_U3P_USB_STANDARD_RQT then std_block s isHandled
       else ret isHandled);
    ret (clear_if_failed isHandled status)
  else ret isHandled.

Definition AdiControlEndpointHandler : Z -> Z -> M CyBool_t :=
  AdiControlEndpointHandler_body standard_request_block.

End Firmware.

(** Programs are compared as programs: when two of them have to be
    converted, the firmware's functions are unfolded before the monad's
    operations are. *)
Strategy 100 [bind ret sdk get_ep0 adi device_reset modify get_globals].

(** ** Reading a trace *)

Definition is_print (c : Call) : bool :=
  match c with CyU3PDebugPrint _ _ => true | _ => false end.

Definition is_event_set (c : Call) : bool :=
  match c with CyU3PEventSet _ _ => true | _ => false end.

Definition is_device_reset (c : Call) : bool :=
  match c with CyU3PDeviceReset _ => true | _ => false end.

(** The first thing [AdiAppErrorHandler] does is print [fatal_fmt]; no other
    code in [main.c] prints it. *)
Definition is_fatal_print (c : Call) : bool :=
  match c with
  | CyU3PDebugPrint fmt _ => String.eqb fmt fatal_fmt
  | _ => false
  end.

Definition ran_AdiAppErrorHandler (t : list Obs) : bool :=
  existsb is_fatal_print (calls t).

(** The calls of a trace that are not debug prints. *)
Definition actions (t : list Obs) : list Call :=
  List.filter (fun c => negb (is_print c)) (calls t).

(** The 32-bit word held little-endian in the first four cells of a buffer. *)
Definition status_word (buf : Z -> Z) : Z :=
  u8 (buf 0) + 2 ^ 8 * u8 (buf 1) + 2 ^ 16 * u8 (buf 2) + 2 ^ 24 * u8 (buf 3).

(** The prints a [VERBOSE_MODE] build adds in front of every vendor
    request. *)
Definition vendor_banner (VERBOSE_MODE : bool) (s : Usb.Setup) : list Call :=
  if VERBOSE_MODE
  then [CyU3PDebugPrint "Vendor request = 0x%x" [PInt (Usb.bRequest s)]]
  else [].

(** ** The four stream families, as the claims speak of them *)

Inductive StreamFamily := Generic | Burst | RealTime | Transfer.

Definition family_request (f : StreamFamily) : VendorRequest :=
  match f with
  | Generic => ADI_STREAM_GENERIC_DATA
  | Burst => ADI_STREAM_BURST_DATA
  | RealTime => ADI_STREAM_REALTIME
  | Transfer => ADI_TRANSFER_STREAM
  end.

Definition family_event (f : StreamFamily) (c : StreamCmd) : StreamEvent :=
  match f, c with
  | Generic, ADI_STREAM_START_CMD => ADI_GENERIC_STREAM_START
  | Generic, ADI_STREAM_DONE_CMD => ADI_GENERIC_STREAM_DONE
  | Generic, ADI_STREAM_STOP_CMD => ADI_GENERIC_STREAM_STOP
  | Burst, ADI_STREAM_START_CMD => ADI_BURST_STREAM_START
  | Burst, ADI_STREAM_DONE_CMD => ADI_BURST_STREAM_DONE
  | Burst, ADI_STREAM_STOP_CMD => ADI_BURST_STREAM_STOP
  | RealTime, ADI_STREAM_START_CMD => ADI_RT_STREAM_START
  | RealTime, ADI_STREAM_DONE_CMD => ADI_RT_STREAM_DONE
  | RealTime, ADI_STREAM_STOP_CMD => ADI_RT_STREAM_STOP
  | Transfer, ADI_STREAM_START_CMD => ADI_TRANSFER_STREAM_START
  | Transfer, ADI_STREAM_DONE_CMD => ADI_TRANSFER_STREAM_DONE
  | Transfer, ADI_STREAM_STOP_CMD => ADI_TRANSFER_STREAM_STOP
  end.

(** The message each family prints when raising its event failed. *)
Definition family_fail_fmt (f : StreamFamily) : string :=
  match f with
  | Generic => generic_fail_fmt
  | Burst => burst_fail_fmt
  | RealTime => rt_fail_fmt
  | Transfer => rt_fail_fmt
  end.

(** The parameter a Start records, read back from the stream state. *)
Definition family_param (f : StreamFamily) (st : StreamState) : Z :=
  match f with
  | Generic => TransferByteLength st
  | Burst => TransferWordLength st
  | RealTime => PinExitEnable st
  | Transfer => TransferByteLength st
  end.

(** The value a Start records. *)
Definition family_arg (f : StreamFamily) (s : Usb.Setup) : Z :=
  match f with
  | Generic => Usb.wLength s
  | Burst => Usb.wLength s
  | RealTime => Usb.wValue s
  | Transfer => Usb.wLength s
  end.

(** The commands that answer the host with the status of a peripheral call,
    and that call. *)
Definition status_reply_call (r : VendorRequest) (s : Usb.Setup)
  : option Call :=
  match r with
  | ADI_SET_PIN => Some (AdiSetPin (Usb.wIndex s) (Usb.wValue s))
  | ADI_SET_DUT_SUPPLY => Some (AdiSetDutSupply (Usb.wValue s))
  | ADI_RESET_SPI => Some AdiRestartSpi
  | ADI_SET_PIN_RESISTOR =>
      Some (AdiSetPinResistor (Usb.wIndex s) (Usb.wValue s))
  | _ => None
  end.

Definition is_reset_request (r : VendorRequest) : bool :=
  match r with ADI_HARD_RESET | ADI_WARM_RESET => true | _ => false end.

(** The argument of the reset that ends a reset command. *)
Definition reset_kind (r : VendorRequest) : CyBool_t :=
  match r with ADI_WARM_RESET => CyTrue | _ => CyFalse end.

(** Calls that are neither the fatal handler's announcement nor a device
    reset. *)
Definition harmless (c : Call) : bool :=
  negb (is_fatal_print c) && negb (is_device_reset c).

(** [m] always comes back, and everything it calls is [harmless]. *)
Definition returns_quietly {A} (m : M A) : Prop :=
  forall w, exists a w' ext,
    m w = (Some a, w')
    /\ trace w' = trace w ++ ext
    /\ forallb harmless (calls ext) = true.

(** What [AdiAppStop] calls, prints aside, when nothing fails. *)
Definition app_stop_actions : list Call :=
  [ CyU3PUartDeInit; CyU3PGpioDeInit; CyU3PSpiDeInit;
    CyU3PEventDestroy EventHandler; CyU3PEventDestroy GpioHandler;
    CyU3PUsbFlushEp ADI_STREAMING_ENDPOINT;
    CyU3PUsbFlushEp ADI_FROM_PC_ENDPOINT; CyU3PUsbFlushEp ADI_TO_PC_ENDPOINT;
    CyU3PDmaChannelDestroy ChannelFromPC; CyU3PDmaChannelDestroy ChannelToPC;
    CyU3PSetEpConfig ADI_STREAMING_ENDPOINT CyFalse;
    CyU3PSetEpConfig ADI_FROM_PC_ENDPOINT CyFalse;
    CyU3PSetEpConfig ADI_TO_PC_ENDPOINT CyFalse ].

(** The ordered shutdown of a reset command that meets no failure: disconnect
    from the host, stop the application, release the peripheral block, let
    transfers settle, reset. *)
Definition shutdown_actions (count : Z) (isWarmReset : CyBool_t)
  : list Call :=
  [ CyU3PUsbAckSetup; CyU3PUsbGetEP0Data count; CyU3PThreadSleep 500;
    CyU3PConnectState CyFalse CyTrue ]
  ++ app_stop_actions
  ++ [ CyU3PPibDeInit; CyU3PThreadSleep 500; CyU3PDeviceReset isWarmReset ].

Definition is_SetEpConfig (c : Call) : bool :=
  match c with CyU3PSetEpConfig _ _ => true | _ => false end.

(** Some endpoint-disable call of the trace answered a failure. *)
Definition ep_config_failed (t : list Obs) : bool :=
  existsb (fun o => is_SetEpConfig (call o)
                    && negb (answer o =? CY_U3P_SUCCESS)) t.

(** ** A sample configuration, to run the model on *)

Module Demo.

(** An injective numbering of the request labels (the firmware's own numbers
    are in [main.h]). *)
Definition code (r : VendorRequest) : Z :=
  match r with
  | ADI_BUSY_MEASURE => 0xA0 | ADI_READ_BYTES => 0xA1 | ADI_WRITE_BYTE => 0xA2
  | ADI_SET_BOOT_TIME => 0xA3 | ADI_PULSE_DRIVE => 0xA4
  | ADI_PULSE_WAIT => 0xA5 | ADI_SET_PIN => 0xA6
  | ADI_FIRMWARE_ID_CHECK => 0xA7 | ADI_SERIAL_NUMBER_CHECK => 0xA8
  | ADI_GET_BUILD_DATE => 0xA9 | ADI_HARD_RESET => 0xAA
  | ADI_WARM_RESET => 0xAB | ADI_SET_SPI_CONFIG => 0xAC | ADI_READ_PIN => 0xAD
  | ADI_PIN_DELAY_MEASURE => 0xAE | ADI_READ_SPI_CONFIG => 0xAF
  | ADI_READ_TIMER_VALUE => 0xB0 | ADI_SET_DUT_SUPPLY => 0xB1
  | ADI_GET_STATUS => 0xB2 | ADI_GET_BOARD_TYPE => 0xB3
  | ADI_STREAM_GENERIC_DATA => 0xB4 | ADI_STREAM_BURST_DATA => 0xB5
  | ADI_STREAM_REALTIME => 0xB6 | ADI_TRANSFER_STREAM => 0xB7
  | ADI_MEASURE_DR => 0xB8 | ADI_PWM_CMD => 0xB9 | ADI_TRANSFER_BYTES => 0xBA
  | ADI_BITBANG_SPI => 0xBB | ADI_RESET_SPI => 0xBC
  | ADI_SET_PIN_RESISTOR => 0xBD | ADI_NULL_COMMAND => 0xBE
  | ADI_READ_FLASH => 0xBF | ADI_CLEAR_FLASH_LOG => 0xC0
  end.

Definition sub_code (c : StreamCmd) : Z :=
  match c with
  | ADI_STREAM_START_CMD => 0
  | ADI_STREAM_DONE_CMD => 1
  | ADI_STREAM_STOP_CMD => 2
  end.

Definition build_date (i : Z) : Z := 68.
Definition build_time (i : Z) : Z := 48.

Definition idle : Globals :=
  {| FX3State :=
       {| BootTime := 0; AppActive := CyTrue; WatchDogEnabled := CyFalse;
          WatchDogPeriodMs := 20000; WatchDogTicks := 660000; BoardType := 0;
          PinMap := {| ADI_PIN_RESET := 0; ADI_PIN_DIO1 := 4;
                       ADI_PIN_DIO2 := 3; ADI_PIN_DIO3 := 2;
                       ADI_PIN_DIO4 := 1; FX3_PIN_GPIO1 := 5;
                       FX3_PIN_GPIO2 := 6; FX3_PIN_GPIO3 := 7;
                       FX3_PIN_GPIO4 := 12 |};
          UsbBufferSize := 512; TimerPinConfig := 0; StallTime := 25;
          DutType := 0; DrPin := 3; DrActive := CyTrue;
          DrPolarity := CyTrue |};
     StreamThreadState :=
       {| TransferByteLength := 0; TransferWordLength := 0;
          PinExitEnable := CyFalse |};
     KillStreamEarly := CyFalse;
     USBBuffer := fun _ => 0xEE;
     ManualDMABuffer :=
       {| dma_buffer := None; dma_size := 0; dma_count := 0 |} |}.

(** Every call succeeds and the neighbouring modules leave the globals. *)
Definition env_ok : Env :=
  {| answers := fun _ _ _ => CY_U3P_SUCCESS; effects := fun _ _ g => g |}.

(** Raising an event fails with 0x47, disabling an endpoint with 0x45, the
    pin driver with 0x40; everything else succeeds. *)
Definition env_failing : Env :=
  {| answers := fun _ c _ =>
       match c with
       | CyU3PEventSet _ _ => 0x47
       | CyU3PSetEpConfig _ _ => 0x45
       | AdiSetPin _ _ => 0x40
       | _ => CY_U3P_SUCCESS
       end;
     effects := fun _ _ g => g |}.

Definition vendor_setup0 (r : VendorRequest) (value : Z) : Z :=
  Usb.pack0 Usb.CY_U3P_USB_VENDOR_RQT (code r) value.

Definition handler (verbose : bool) (env : Env) : Z -> Z -> M CyBool_t :=
  AdiControlEndpointHandler code sub_code verbose build_date build_time env.

End Demo.

(** ** Bit-bang SPI *)

Module BitBang.

(** [BitBangSpiConf] of [SpiFunctions.h]. *)
Record BitBangSpiConf := {
  MOSI : Z; MISO : Z; CS : Z; SCLK : Z;
  HalfClockDelay : Z; CSLeadDelay : Z; CSLagDelay : Z }.

Definition BITBANG_HALFCLOCK_OFFSET : Z := 8.
Definition STALL_COUNT_OFFSET : Z := 14.

(** What a transfer does to the pins, and the timer ticks it waits. *)
Inductive PinAction :=
| AssertCS (pin : Z)
| ReleaseCS (pin : Z)
| DriveMOSI (pin : Z) (level : bool)
| ToggleClock (pin : Z)
| ToggleClockBack (pin : Z)
| SampleMISO (pin : Z)
| Wait (ticks : Z).

(** Modelled from the spec: the body of [AdiBitBangSpiTransfer], which
    [SpiFunctions.h] declares and [SpiFunctions.c] (not among the sources)
    defines.  Per bit: "drive MOSI, wait half-period, toggle clock, sample
    MISO, wait half-period, toggle clock back"; one of the two half-periods
    carries the fixed offset [BITBANG_HALFCLOCK_OFFSET]. *)
Definition bit_cycle (config : BitBangSpiConf) (level : bool)
  : list PinAction :=
  [ DriveMOSI (MOSI config) level;
    Wait (HalfClockDelay config);
    ToggleClock (SCLK config);
    SampleMISO (MISO config);
    Wait (HalfClockDelay config + BITBANG_HALFCLOCK_OFFSET);
    ToggleClockBack (SCLK config) ].

(** Modelled from the spec: the per-bit sequence "repeated [bitCount]
    times", starting at bit [i]; [mosiBits] are the bits to send and [line]
    what the MISO pin shows at each bit. *)
Fixpoint clock_bits (config : BitBangSpiConf) (mosiBits line : nat -> bool)
  (i bitCount : nat) : list PinAction * list bool :=
  match bitCount with
  | O => ([], [])
  | S n =>
      let rest := clock_bits config mosiBits line (S i) n in
      (bit_cycle config (mosiBits i) ++ fst rest, line i :: snd rest)
  end.

(** Modelled from the spec: [bitBangTransfer (mosiBits, misoBits, bitCount,
    config)] of section 4.3: assert chip-select, dwell [CSLeadDelay], clock
    the bits, dwell [CSLagDelay], de-assert chip-select.  The result is the
    pin activity and the received bits. *)
Definition bitBangTransfer (mosiBits line : nat -> bool) (bitCount : nat)
  (config : BitBangSpiConf) : list PinAction * list bool :=
  let body := clock_bits config mosiBits line 0 bitCount in
  ([AssertCS (CS config); Wait (CSLeadDelay config)]
   ++ fst body
   ++ [Wait (CSLagDelay config); ReleaseCS (CS config)],
   snd body).

Definition is_toggle (p : PinAction) : bool :=
  match p with ToggleClock _ => true | _ => false end.
Definition is_toggle_back (p : PinAction) : bool :=
  match p with ToggleClockBack _ => true | _ => false end.
Definition is_drive (p : PinAction) : bool :=
  match p with DriveMOSI _ _ => true | _ => false end.
Definition is_sample (p : PinAction) : bool :=
  match p with SampleMISO _ => true | _ => false end.

Definition count (f : PinAction -> bool) (l : list PinAction) : nat :=
  length (List.filter f l).

(** Timer ticks spent while chip-select is asserted; [asserted] is the state
    of chip-select before the first action. *)
Fixpoint cs_asserted_ticks (asserted : bool) (l : list PinAction) : Z :=
  match l with
  | [] => 0
  | AssertCS _ :: r => cs_asserted_ticks true r
  | ReleaseCS _ :: r => cs_asserted_ticks false r
  | Wait t :: r => (if asserted then t else 0) + cs_asserted_ticks asserted r
  | _ :: r => cs_asserted_ticks asserted r
  end.

Definition sample : BitBangSpiConf :=
  {| MOSI := 5; MISO := 6; CS := 7; SCLK := 12;
     HalfClockDelay := 10; CSLeadDelay := 3; CSLagDelay := 4 |}.

End BitBang.

(** ** More ways to read a run *)

(** The unsigned 16-bit word held little-endian in cells [i] and [i + 1]. *)
Definition word16_at (buf : Z -> Z) (i : Z) : Z :=
  u8 (buf i) + 2 ^ 8 * u8 (buf (i + 1)).

(** The commands whose whole outcome is the status of one call into a
    neighbouring module, and that call. *)
Definition plain_status_call (r : VendorRequest) (s : Usb.Setup)
  : option Call :=
  match r with
  | ADI_BUSY_MEASURE => Some (AdiMeasureBusyPulse (Usb.wLength s))
  | ADI_PULSE_WAIT => Some (AdiPulseWait (Usb.wLength s))
  | ADI_READ_PIN => Some (AdiPinRead (Usb.wIndex s))
  | ADI_PIN_DELAY_MEASURE => Some (AdiMeasurePinDelay (Usb.wLength s))
  | ADI_READ_SPI_CONFIG => Some AdiGetSpiSettings
  | ADI_READ_TIMER_VALUE => Some AdiReadTimerValue
  | ADI_MEASURE_DR => Some AdiMeasurePinFreq
  | ADI_PWM_CMD => Some (AdiConfigurePWM (Usb.wIndex s))
  | ADI_BITBANG_SPI => Some AdiBitBangSpiHandler
  | _ => None
  end.

(** Of those, the ones that first read their configuration from the control
    endpoint. *)
Definition drains_ep0_first (r : VendorRequest) : bool :=
  match r with
  | ADI_MEASURE_DR | ADI_PWM_CMD | ADI_BITBANG_SPI => true
  | _ => false
  end.

(** The register-access commands and their call. *)
Definition register_call (r : VendorRequest) (s : Usb.Setup) : option Call :=
  match r with
  | ADI_READ_BYTES => Some (AdiReadRegBytes (Usb.wIndex s))
  | ADI_WRITE_BYTE =>
      Some (AdiWriteRegByte (Usb.wIndex s) (Usb.wValue s mod 2 ^ 8))
  | _ => None
  end.

(** The identification commands and the buffer they send. *)
Definition id_buffer (r : VendorRequest) : option BufferPtr :=
  match r with
  | ADI_FIRMWARE_ID_CHECK => Some ptr_FirmwareID
  | ADI_SERIAL_NUMBER_CHECK => Some ptr_serial_number
  | _ => None
  end.

(** The commands that fill [USBBuffer] from the firmware's own data and send
    it. *)
Definition is_info_request (r : VendorRequest) : bool :=
  match r with
  | ADI_GET_STATUS | ADI_GET_BUILD_DATE | ADI_GET_BOARD_TYPE => true
  | _ => false
  end.

(** What a Done or a Stop of a stream family calls, prints aside. *)
Definition stream_end_actions (f : StreamFamily) (c : StreamCmd)
  (s : Usb.Setup) : list Call :=
  match c with
  | ADI_STREAM_DONE_CMD =>
      [ CyU3PUsbGetEP0Data (Usb.wLength s);
        CyU3PEventSet EventHandler (family_event f c) ]
  | _ => [ CyU3PEventSet EventHandler (family_event f c) ]
  end.

(** The stream state after a Start of family [f]. *)
Definition family_store (f : StreamFamily) (s : Usb.Setup) (st : StreamState)
  : StreamState :=
  match f with
  | Generic | Transfer => set_TransferByteLength (Usb.wLength s) st
  | Burst => set_TransferWordLength (Usb.wLength s) st
  | RealTime => set_PinExitEnable (Usb.wValue s) st
  end.

(** Everything [AdiAppErrorHandler status] calls. *)
Definition fatal_calls (status : Z) : list Call :=
  [ CyU3PDebugPrint fatal_fmt [PInt status];
    CyU3PDebugPrint "Rebooting in %d seconds..." [PInt 5];
    CyU3PThreadSleep 1000;
    CyU3PDebugPrint "Rebooting in %d seconds..." [PInt 4];
    CyU3PThreadSleep 1000;
    CyU3PDebugPrint "Rebooting in %d seconds..." [PInt 3];
    CyU3PThreadSleep 1000;
    CyU3PDebugPrint "Rebooting in %d seconds..." [PInt 2];
    CyU3PThreadSleep 1000;
    CyU3PDebugPrint "Rebooting in %d seconds..." [PInt 1];
    CyU3PThreadSleep 1000;
    CyU3PDeviceReset CyFalse ].

(** Milliseconds a run spends in [CyU3PThreadSleep]. *)
Definition slept_ms (l : list Call) : Z :=
  fold_right (fun c acc => match c with
                           | CyU3PThreadSleep ms => ms + acc
                           | _ => acc
                           end) 0 l.

(** ** The watchdog *)

Definition set_WatchDogTicks (v : Z) (b : BoardState) : BoardState :=
  {| BootTime := BootTime b; AppActive := AppActive b;
     WatchDogEnabled := WatchDogEnabled b;
     WatchDogPeriodMs := WatchDogPeriodMs b; WatchDogTicks := v;
     BoardType := BoardType b; PinMap := PinMap b;
     UsbBufferSize := UsbBufferSize b; TimerPinConfig := TimerPinConfig b;
     StallTime := StallTime b; DutType := DutType b; DrPin := DrPin b;
     DrActive := DrActive b; DrPolarity := DrPolarity b |}.

Module Wd.

(** [WatchDogTimerCb]: the device state it leaves and the value it stores in
    [GCTLAON->watchdog_timer0].  ([WatchDogTicks] is a 32-bit unsigned
    field.) *)
Definition WatchDogTimerCb (nParam : Z) (st : BoardState) : BoardState * Z :=
  let ticks :=
    if Z.land (WatchDogTicks st) 0x01 =? 0
    then u32 (WatchDogTicks st + 1)
    else u32 (WatchDogTicks st - 1) in
  (set_WatchDogTicks ticks st, ticks).

(** What [AdiConfigureWatchdog] calls.  The timer is always [WatchdogTimer],
    created with callback [WatchDogTimerCb], argument 0 and
    [CYU3P_AUTO_ACTIVATE]. *)
Inductive Call :=
| CyU3PSysWatchDogConfigure (enable : CyBool_t) (period : Z)
| CyU3PTimerDestroy
| CyU3PTimerCreate (initialTicks rescheduleTicks : Z)
| CyU3PDebugPrint (fmt : string) (args : list Z).

(** [AdiConfigureWatchdog]; [timer_create] and [timer_destroy] are the
    statuses [CyU3PTimerCreate] and the [CyU3PTimerDestroy] of the disabling
    branch answer.  The result is the device state and the calls made, in
    order. *)
Definition AdiConfigureWatchdog (VERBOSE_MODE : bool)
  (timer_create timer_destroy : Z) (st : BoardState)
  : BoardState * list Call :=
  let period := WatchDogPeriodMs st in
  let verbose (c : Call) := if VERBOSE_MODE then [c] else [] in
  (set_WatchDogTicks (u32 (period * 33)) st,
   [CyU3PSysWatchDogConfigure (WatchDogEnabled st) period]
   ++ (if WatchDogEnabled st =? 0
       then
         verbose (CyU3PDebugPrint "Disabling Watchdog Timer" [])
         ++ [CyU3PTimerDestroy]
         ++ (if u32 timer_destroy =? CY_U3P_SUCCESS then []
             else [CyU3PDebugPrint
                     "ERROR: Failed to destroy watchdog timer" []])
       else
         let clearPeriod := u32 (period - 5000) in
         verbose (CyU3PDebugPrint "Enabling Watchdog Timer, period %d ms"
                                  [period])
         ++ [CyU3PTimerDestroy; CyU3PTimerCreate clearPeriod clearPeriod]
         ++ (if u32 timer_create =? CY_U3P_SUCCESS then []
             else [CyU3PDebugPrint
                     "ERROR: Failed to configure watchdog timer callback, disabling watchdog functionality"
                     [];
                   CyU3PSysWatchDogConfigure CyFalse period]))).

Definition is_print (c : Call) : bool :=
  match c with CyU3PDebugPrint _ _ => true | _ => false end.

(** The calls that are not debug prints. *)
Definition actions (l : list Call) : list Call :=
  List.filter (fun c => negb (is_print c)) l.

(** Whether the hardware watchdog is left running: what the last
    [CyU3PSysWatchDogConfigure] of the run asked for. *)
Definition watchdog_running (l : list Call) : bool :=
  fold_left (fun acc c => match c with
                          | CyU3PSysWatchDogConfigure en _ => negb (en =? 0)
                          | _ => acc
                          end) l false.

(** The timer the run leaves behind, if any: the period of the last
    [CyU3PTimerCreate] after the last [CyU3PTimerDestroy]. *)
Definition clear_timer (l : list Call) : option Z :=
  fold_left (fun acc c => match c with
                          | CyU3PTimerDestroy => None
                          | CyU3PTimerCreate _ p => Some p
                          | _ => acc
                          end) l None.

Definition sample (enabled : CyBool_t) (period : Z) : BoardState :=
  {| BootTime := 0; AppActive := CyTrue; WatchDogEnabled := enabled;
     WatchDogPeriodMs := period; WatchDogTicks := 7; BoardType := 0;
     PinMap := {| ADI_PIN_RESET := 0; ADI_PIN_DIO1 := 4; ADI_PIN_DIO2 := 3;
                  ADI_PIN_DIO3 := 2; ADI_PIN_DIO4 := 1; FX3_PIN_GPIO1 := 5;
                  FX3_PIN_GPIO2 := 6; FX3_PIN_GPIO3 := 7;
                  FX3_PIN_GPIO4 := 12 |};
     UsbBufferSize := 512; TimerPinConfig := 0; StallTime := 25;
     DutType := 0; DrPin := 3; DrActive := CyTrue; DrPolarity := CyTrue |}.

End Wd.

(** ** GPIO interrupts *)

Module Gpio.

(** The event flags of [GpioHandler]. *)
Inductive Flag :=
| ADI_DIO1_INTERRUPT_FLAG | ADI_DIO2_INTERRUPT_FLAG
| ADI_DIO3_INTERRUPT_FLAG | ADI_DIO4_INTERRUPT_FLAG
| FX3_GPIO1_INTERRUPT_FLAG | FX3_GPIO2_INTERRUPT_FLAG
| FX3_GPIO3_INTERRUPT_FLAG | FX3_GPIO4_INTERRUPT_FLAG.

Definition all_flags : list Flag :=
  [ ADI_DIO1_INTERRUPT_FLAG; ADI_DIO2_INTERRUPT_FLAG;
    ADI_DIO3_INTERRUPT_FLAG; ADI_DIO4_INTERRUPT_FLAG;
    FX3_GPIO1_INTERRUPT_FLAG; FX3_GPIO2_INTERRUPT_FLAG;
    FX3_GPIO3_INTERRUPT_FLAG; FX3_GPIO4_INTERRUPT_FLAG ].

(** The pin each flag stands for. *)
Definition pin_of (pm : PinMapT) (f : Flag) : Z :=
  match f with
  | ADI_DIO1_INTERRUPT_FLAG => ADI_PIN_DIO1 pm
  | ADI_DIO2_INTERRUPT_FLAG => ADI_PIN_DIO2 pm
  | ADI_DIO3_INTERRUPT_FLAG => ADI_PIN_DIO3 pm
  | ADI_DIO4_INTERRUPT_FLAG => ADI_PIN_DIO4 pm
  | FX3_GPIO1_INTERRUPT_FLAG => FX3_PIN_GPIO1 pm
  | FX3_GPIO2_INTERRUPT_FLAG => FX3_PIN_GPIO2 pm
  | FX3_GPIO3_INTERRUPT_FLAG => FX3_PIN_GPIO3 pm
  | FX3_GPIO4_INTERRUPT_FLAG => FX3_PIN_GPIO4 pm
  end.

(** [if (gpioId == pin) CyU3PEventSet (&GpioHandler, flag, CYU3P_EVENT_OR);] *)
Definition raise_if (gpioId pin : Z) (f : Flag) : list Flag :=
  if gpioId =? pin then [f] else [].

(** [AdiGPIOEventHandler]: the flags it raises on [GpioHandler], in order.
    [get_value] is the status [CyU3PGpioGetValue] answers; [gpioId] is a
    [uint8_t]. *)
Definition AdiGPIOEventHandler (get_value : Z) (pm : PinMapT) (gpioId : Z)
  : list Flag :=
  let gpioId := u8 gpioId in
  if u32 get_value =? CY_U3P_SUCCESS then
    raise_if gpioId (ADI_PIN_DIO1 pm) ADI_DIO1_INTERRUPT_FLAG
    ++ raise_if gpioId (ADI_PIN_DIO2 pm) ADI_DIO2_INTERRUPT_FLAG
    ++ raise_if gpioId (ADI_PIN_DIO3 pm) ADI_DIO3_INTERRUPT_FLAG
    ++ raise_if gpioId (ADI_PIN_DIO4 pm) ADI_DIO4_INTERRUPT_FLAG
    ++ raise_if gpioId (FX3_PIN_GPIO1 pm) FX3_GPIO1_INTERRUPT_FLAG
    ++ raise_if gpioId (FX3_PIN_GPIO2 pm) FX3_GPIO2_INTERRUPT_FLAG
    ++ raise_if gpioId (FX3_PIN_GPIO3 pm) FX3_GPIO3_INTERRUPT_FLAG
    ++ raise_if gpioId (FX3_PIN_GPIO4 pm) FX3_GPIO4_INTERRUPT_FLAG
  else [].

(** The pin assignments [AdiAppStart] installs for the two boards. *)
Definition iSensor_pin_map : PinMapT :=
  {| ADI_PIN_RESET := 1; ADI_PIN_DIO4 := 2; ADI_PIN_DIO3 := 3;
     ADI_PIN_DIO2 := 4; ADI_PIN_DIO1 := 5; FX3_PIN_GPIO1 := 6;
     FX3_PIN_GPIO2 := 7; FX3_PIN_GPIO3 := 8; FX3_PIN_GPIO4 := 12 |}.

Definition Cypress_pin_map : PinMapT :=
  {| ADI_PIN_RESET := 0; ADI_PIN_DIO4 := 1; ADI_PIN_DIO3 := 2;
     ADI_PIN_DIO2 := 3; ADI_PIN_DIO1 := 4; FX3_PIN_GPIO1 := 5;
     FX3_PIN_GPIO2 := 6; FX3_PIN_GPIO3 := 7; FX3_PIN_GPIO4 := 12 |}.

#[global] Instance Flag_eq_dec : EqDecision Flag.
Proof. solve_decision. Defined.

End Gpio.


(** ** Start-up and USB events *)

Definition set_BoardType (v : Z) (b : BoardState) : BoardState :=
  {| BootTime := BootTime b; AppActive := AppActive b;
     WatchDogEnabled := WatchDogEnabled b;
     WatchDogPeriodMs := WatchDogPeriodMs b; WatchDogTicks := WatchDogTicks b;
     BoardType := v; PinMap := PinMap b;
     UsbBufferSize := UsbBufferSize b; TimerPinConfig := TimerPinConfig b;
     StallTime := StallTime b; DutType := DutType b; DrPin := DrPin b;
     DrActive := DrActive b; DrPolarity := DrPolarity b |}.

Definition set_PinMap (v : PinMapT) (b : BoardState) : BoardState :=
  {| BootTime := BootTime b; AppActive := AppActive b;
     WatchDogEnabled := WatchDogEnabled b;
     WatchDogPeriodMs := WatchDogPeriodMs b; WatchDogTicks := WatchDogTicks b;
     BoardType := BoardType b; PinMap := v;
     UsbBufferSize := UsbBufferSize b; TimerPinConfig := TimerPinConfig b;
     StallTime := StallTime b; DutType := DutType b; DrPin := DrPin b;
     DrActive := DrActive b; DrPolarity := DrPolarity b |}.

Definition set_UsbBufferSize (v : Z) (b : BoardState) : BoardState :=
  {| BootTime := BootTime b; AppActive := AppActive b;
     WatchDogEnabled := WatchDogEnabled b;
     WatchDogPeriodMs := WatchDogPeriodMs b; WatchDogTicks := WatchDogTicks b;
     BoardType := BoardType b; PinMap := PinMap b;
     UsbBufferSize := v; TimerPinConfig := TimerPinConfig b;
     StallTime := StallTime b; DutType := DutType b; DrPin := DrPin b;
     DrActive := DrActive b; DrPolarity := DrPolarity b |}.

Definition set_TimerPinConfig (v : Z) (b : BoardState) : BoardState :=
  {| BootTime := BootTime b; AppActive := AppActive b;
     WatchDogEnabled := WatchDogEnabled b;
     WatchDogPeriodMs := WatchDogPeriodMs b; WatchDogTicks := WatchDogTicks b;
     BoardType := BoardType b; PinMap := PinMap b;
     UsbBufferSize := UsbBufferSize b; TimerPinConfig := v;
     StallTime := StallTime b; DutType := DutType b; DrPin := DrPin b;
     DrActive := DrActive b; DrPolarity := DrPolarity b |}.

Definition set_StallTime (v : Z) (b : BoardState) : BoardState :=
  {| BootTime := BootTime b; AppActive := AppActive b;
     WatchDogEnabled := WatchDogEnabled b;
     WatchDogPeriodMs := WatchDogPeriodMs b; WatchDogTicks := WatchDogTicks b;
     BoardType := BoardType b; PinMap := PinMap b;
     UsbBufferSize := UsbBufferSize b; TimerPinConfig := TimerPinConfig b;
     StallTime := v; DutType := DutType b; DrPin := DrPin b;
     DrActive := DrActive b; DrPolarity := DrPolarity b |}.

Definition set_DutType (v : Z) (b : BoardState) : BoardState :=
  {| BootTime := BootTime b; AppActive := AppActive b;
     WatchDogEnabled := WatchDogEnabled b;
     WatchDogPeriodMs := WatchDogPeriodMs b; WatchDogTicks := WatchDogTicks b;
     BoardType := BoardType b; PinMap := PinMap b;
     UsbBufferSize := UsbBufferSize b; TimerPinConfig := TimerPinConfig b;
     StallTime := StallTime b; DutType := v; DrPin := DrPin b;
     DrActive := DrActive b; DrPolarity := DrPolarity b |}.

Definition set_DrPin (v : Z) (b : BoardState) : BoardState :=
  {| BootTime := BootTime b; AppActive := AppActive b;
     WatchDogEnabled := WatchDogEnabled b;
     WatchDogPeriodMs := WatchDogPeriodMs b; WatchDogTicks := WatchDogTicks b;
     BoardType := BoardType b; PinMap := PinMap b;
     UsbBufferSize := UsbBufferSize b; TimerPinConfig := TimerPinConfig b;
     StallTime := StallTime b; DutType := DutType b; DrPin := v;
     DrActive := DrActive b; DrPolarity := DrPolarity b |}.

Definition set_DrActive (v : CyBool_t) (b : BoardState) : BoardState :=
  {| BootTime := BootTime b; AppActive := AppActive b;
     WatchDogEnabled := WatchDogEnabled b;
     WatchDogPeriodMs := WatchDogPeriodMs b; WatchDogTicks := WatchDogTicks b;
     BoardType := BoardType b; PinMap := PinMap b;
     UsbBufferSize := UsbBufferSize b; TimerPinConfig := TimerPinConfig b;
     StallTime := StallTime b; DutType := DutType b; DrPin := DrPin b;
     DrActive := v; DrPolarity := DrPolarity b |}.

Definition set_DrPolarity (v : CyBool_t) (b : BoardState) : BoardState :=
  {| BootTime := BootTime b; AppActive := AppActive b;
     WatchDogEnabled := WatchDogEnabled b;
     WatchDogPeriodMs := WatchDogPeriodMs b; WatchDogTicks := WatchDogTicks b;
     BoardType := BoardType b; PinMap := PinMap b;
     UsbBufferSize := UsbBufferSize b; TimerPinConfig := TimerPinConfig b;
     StallTime := StallTime b; DutType := DutType b; DrPin := DrPin b;
     DrActive := DrActive b; DrPolarity := v |}.

(** A routine of the dispatcher's part of [main.c], run on globals [g] as
    the calls number [k], [k + 1], ... of a longer run. *)
Definition run_from {A} (m : M A) (g : Globals) (k : nat) : option A * World :=
  m {| globals := g; trace := []; tick := k |}.

Module Start.

Inductive FX3BoardType := CypressFX3Board | iSensorFX3Board.

(** The labels of the [switch (usbSpeed)] of [AdiAppStart]. *)
Inductive CyU3PUSBSpeed_t :=
| CY_U3P_FULL_SPEED | CY_U3P_HIGH_SPEED | CY_U3P_SUPER_SPEED.

Definition all_speeds : list CyU3PUSBSpeed_t :=
  [ CY_U3P_FULL_SPEED; CY_U3P_HIGH_SPEED; CY_U3P_SUPER_SPEED ].

(** The labels of the [switch (evtype)] of [AdiUSBEventHandler]. *)
Inductive CyU3PUsbEventType_t :=
| CY_U3P_USB_EVENT_SETCONF | CY_U3P_USB_EVENT_RESET
| CY_U3P_USB_EVENT_DISCONNECT.

Definition all_events : list CyU3PUsbEventType_t :=
  [ CY_U3P_USB_EVENT_SETCONF; CY_U3P_USB_EVENT_RESET;
    CY_U3P_USB_EVENT_DISCONNECT ].

(** The SDK enumerators that [AdiAppStart] and [GetFX3BoardType] put into
    configuration structures. *)
Inductive SdkConst :=
| CY_U3P_GPIO_SIMPLE_DIV_BY_2 | CY_U3P_SYS_CLK | CY_U3P_GPIO_NO_INTR
| CY_U3P_GPIO_MODE_STATIC | CY_U3P_GPIO_TIMER_LOW_FREQ
| CY_U3P_SPI_SSN_LAG_LEAD_ONE_CLK | CY_U3P_SPI_SSN_CTRL_HW_END_OF_XFER
| CY_U3P_USB_EP_BULK | CY_U3P_DMA_MODE_BYTE
| CY_U3P_UIB_SOCKET_PROD_1 | CY_U3P_CPU_SOCKET_CONS
| CY_U3P_CPU_SOCKET_PROD | CY_U3P_UIB_SOCKET_CONS_2
| CY_U3P_DMA_TYPE_MANUAL_IN | CY_U3P_DMA_TYPE_MANUAL_OUT.

(** The configuration structures, with the fields [main.c] assigns; every
    other field is zero ([CyU3PMemSet]). *)
Record CyU3PGpioClock_t := {
  fastClkDiv : Z; slowClkDiv : Z; simpleDiv : SdkConst; clkSrc : SdkConst;
  halfDiv : Z }.

Record CyU3PGpioSimpleConfig_t := {
  outValue : CyBool_t; inputEn : CyBool_t; driveLowEn : CyBool_t;
  driveHighEn : CyBool_t; intrMode : SdkConst }.

Record CyU3PGpioComplexConfig_t := {
  cx_outValue : CyBool_t; cx_inputEn : CyBool_t; cx_driveLowEn : CyBool_t;
  cx_driveHighEn : CyBool_t; pinMode : SdkConst; cx_intrMode : SdkConst;
  timerMode : SdkConst; timer : Z; period : Z; threshold : Z }.

Record CyU3PSpiConfig_t := {
  isLsbFirst : CyBool_t; cpol : CyBool_t; ssnPol : CyBool_t;
  cpha : CyBool_t; leadTime : SdkConst; lagTime : SdkConst;
  ssnCtrl : SdkConst; clock : Z; wordLen : Z }.

Record CyU3PEpConfig_t := {
  enable : CyBool_t; epType : SdkConst; burstLen : Z; pcktSize : Z;
  streams : Z }.

(** ([cb] is [NULL].) *)
Record CyU3PDmaChannelConfig_t := {
  d_size : Z; d_count : Z; dmaMode : SdkConst; prodHeader : Z;
  prodFooter : Z; consHeader : Z; notification : Z; prodAvailCount : Z;
  prodSckId : SdkConst; consSckId : SdkConst }.

(** What start-up calls or touches outside [main.c], prints and endpoint
    flushes aside (those are [Call]s of the dispatcher's part).  [GCTL_WPU_CFG]
    and [GCTL_WPD_CFG] are the pull-up and pull-down registers,
    [lpp_gpio_simple] and [lpp_gpio_pin] the GPIO register blocks. *)
Inductive Call :=
| CyU3PUsbLPMDisable
| CyU3PUsbGetSpeed
| CyU3PGpioInit (clk : CyU3PGpioClock_t) (* irq handler AdiGPIOEventHandler *)
| read_GCTL_WPU_CFG
| write_GCTL_WPU_CFG (v : Z)
| read_GCTL_WPD_CFG
| write_GCTL_WPD_CFG (v : Z)
| AdiSleepForMicroSeconds (us : Z)
| CyU3PGpioSetSimpleConfig (gpioId : Z) (cfg : CyU3PGpioSimpleConfig_t)
| read_lpp_gpio_simple (i : Z)
| CyU3PDeviceGpioOverride (gpioId : Z) (isSimple : CyBool_t)
| CyU3PGpioSetComplexConfig (gpioId : Z) (cfg : CyU3PGpioComplexConfig_t)
| read_lpp_gpio_pin_status (i : Z)
| CyU3PSpiInit
| CyU3PSpiSetConfig (cfg : CyU3PSpiConfig_t) (* callback NULL *)
| CyU3PEventCreate (grp : EventGroup)
| CyU3PSetEpConfig (ep : Endpoint) (cfg : CyU3PEpConfig_t)
| CyU3PDmaChannelCreate (ch : DmaChannel) (type : SdkConst)
                        (cfg : CyU3PDmaChannelConfig_t).

(** A run is recorded as the calls of both kinds, in program order. *)
Inductive Event :=
| Core (o : Obs)
| Sdk (c : Call) (answer : Z).

(** The environment: the dispatcher's, and the answer to the [k]-th call of
    a run when it is one of the above. *)
Record Platform := { core_env : Env; answers_of : nat -> Call -> Z }.

(** The state: the firmware globals, [FX3State.SpiConfig], the record of
    the run, and the number of calls made. *)
Record Machine := {
  fw : Globals; SpiConfig : CyU3PSpiConfig_t; log : list Event;
  step : nat }.

(** [None] as result: the device was reset and control never came back. *)
Definition S (A : Type) : Type := Machine -> option A * Machine.

Definition ret {A} (a : A) : S A := fun w => (Some a, w).

Definition bind {A B} (m : S A) (k : A -> S B) : S B :=
  fun w => match m w with
           | (Some a, w') => k a w'
           | (None, w') => (None, w')
           end.

Declare Scope start_scope.
Delimit Scope start_scope with start.
Notation "'do' x <- m ; k" := (bind m (fun x => k))
  (at level 10, x name, m at level 100, k at level 200) : start_scope.
Notation "'run' m ; k" := (bind m (fun _ => k))
  (at level 10, m at level 100, k at level 200) : start_scope.
Local Open Scope start_scope.

Definition get_fw : S Globals := fun w => (Some (fw w), w).

Definition get_SpiConfig : S CyU3PSpiConfig_t :=
  fun w => (Some (SpiConfig w), w).

Definition set_fx3 (f : BoardState -> BoardState) : S unit := fun w =>
  (Some tt, {| fw := with_FX3State f (fw w); SpiConfig := SpiConfig w;
               log := log w; step := step w |}).

Definition set_SpiConfig (c : CyU3PSpiConfig_t) : S unit := fun w =>
  (Some tt, {| fw := fw w; SpiConfig := c; log := log w; step := step w |}).

(** A routine of the dispatcher's part, run in place. *)
Definition core {A} (m : M A) : S A := fun w =>
  let out := run_from m (fw w) (step w) in
  (fst out,
   {| fw := globals (snd out); SpiConfig := SpiConfig w;
      log := log w ++ map Core (trace (snd out)); step := tick (snd out) |}).

Section Firmware.

(** Values of the [case] labels and of the board types (SDK headers and
    [main.h]). *)
Variable speed_code : CyU3PUSBSpeed_t -> Z.
Variable event_code : CyU3PUsbEventType_t -> Z.
Variable board_code : FX3BoardType -> Z.
(** Whether the build defines [VERBOSE_MODE]. *)
Variable VERBOSE_MODE : bool.
(** Pin numbers and constants of [main.h] and of the SDK headers. *)
Variable ADI_5V_EN ADI_3_3V_EN ADI_TIMER_PIN ADI_TIMER_PIN_INDEX : Z.
Variable ADcmXL3021 : Z.
Variable CY_U3P_LPP_GPIO_INTR : Z.
Variable CY_U3P_ERROR_FAILURE : Z.
Variable env : Platform.

(** A call into the SDK or a register access: answered (32 bits, read as
    unsigned) and recorded. *)
Definition sdk_call (c : Call) : S Z := fun w =>
  let r := u32 (answers_of env (step w) c) in
  (Some r, {| fw := fw w; SpiConfig := SpiConfig w;
              log := log w ++ [Sdk c r]; step := Datatypes.S (step w) |}).

Definition print (fmt : string) (args : list PrintArg) : S unit :=
  run core (sdk (core_env env) (CyU3PDebugPrint fmt args)); ret tt.

Definition flush (ep : Endpoint) : S unit :=
  run core (sdk (core_env env) (CyU3PUsbFlushEp ep)); ret tt.

(** [AdiAppErrorHandler (status)] *)
Definition fatal (status : Z) : S unit :=
  core (AdiAppErrorHandler (core_env env) status).

(** [status = c; if (status != CY_U3P_SUCCESS) AdiAppErrorHandler(status);] *)
Definition checked (c : Call) : S unit :=
  do status <- sdk_call c;
  if status =? CY_U3P_SUCCESS then ret tt else fatal status.

(** The same with a print before the handler. *)
Definition checked_print (c : Call) (fmt : string) : S unit :=
  do status <- sdk_call c;
  if status =? CY_U3P_SUCCESS then ret tt
  else run print fmt [PInt status]; fatal status.

(** The mask [~(1 << 17)], converted to the registers' 32 bits. *)
Definition not_bit17 : Z := u32 (Z.lnot (Z.shiftl 1 17)).

Definition input_config : CyU3PGpioSimpleConfig_t :=
  {| outValue := CyFalse; inputEn := CyTrue; driveLowEn := CyFalse;
     driveHighEn := CyFalse; intrMode := CY_U3P_GPIO_NO_INTR |}.

Definition GetFX3BoardType : S FX3BoardType :=
  do wpu <- sdk_call read_GCTL_WPU_CFG;
  run sdk_call (write_GCTL_WPU_CFG (Z.land wpu not_bit17));
  run sdk_call (AdiSleepForMicroSeconds 5);
  do wpd <- sdk_call read_GCTL_WPD_CFG;
  run sdk_call (write_GCTL_WPD_CFG (Z.lor wpd (Z.shiftl 1 17)));
  run sdk_call (AdiSleepForMicroSeconds 5);
  run sdk_call (CyU3PGpioSetSimpleConfig 17 input_config);
  do CTL0RegVal <- sdk_call (read_lpp_gpio_simple 17);
  let currentBoard :=
    if Z.land CTL0RegVal 0x2 =? 0 then iSensorFX3Board
    else CypressFX3Board in
  do wpd <- sdk_call read_GCTL_WPD_CFG;
  run sdk_call (write_GCTL_WPD_CFG (Z.land wpd not_bit17));
  ret currentBoard.

Definition power_config (outValue : CyBool_t) : CyU3PGpioSimpleConfig_t :=
  {| outValue := outValue; inputEn := CyFalse; driveLowEn := CyTrue;
     driveHighEn := CyTrue; intrMode := CY_U3P_GPIO_NO_INTR |}.

Definition timer_config : CyU3PGpioComplexConfig_t :=
  {| cx_outValue := CyFalse; cx_inputEn := CyFalse; cx_driveLowEn := CyTrue;
     cx_driveHighEn := CyTrue; pinMode := CY_U3P_GPIO_MODE_STATIC;
     cx_intrMode := CY_U3P_GPIO_NO_INTR;
     timerMode := CY_U3P_GPIO_TIMER_LOW_FREQ; timer := 0;
     period := 0xFFFFFFFF; threshold := 0xFFFFFFFF |}.

Definition default_SpiConfig : CyU3PSpiConfig_t :=
  {| isLsbFirst := CyFalse; cpol := CyTrue; ssnPol := CyFalse;
     cpha := CyTrue; leadTime := CY_U3P_SPI_SSN_LAG_LEAD_ONE_CLK;
     lagTime := CY_U3P_SPI_SSN_LAG_LEAD_ONE_CLK;
     ssnCtrl := CY_U3P_SPI_SSN_CTRL_HW_END_OF_XFER; clock := 2000000;
     wordLen := 8 |}.

(** [epConfig] of [AdiAppStart]; [pcktSize] is a [uint16_t]. *)
Definition bulk_config (UsbBufferSize : Z) : CyU3PEpConfig_t :=
  {| enable := CyTrue; epType := CY_U3P_USB_EP_BULK; burstLen := 1;
     pcktSize := u16 UsbBufferSize; streams := 0 |}.

(** [dmaConfig] of [AdiAppStart]; [size] is a [uint16_t]. *)
Definition dma_config (UsbBufferSize : Z) (prod cons : SdkConst)
  : CyU3PDmaChannelConfig_t :=
  {| d_size := u16 UsbBufferSize; d_count := 0;
     dmaMode := CY_U3P_DMA_MODE_BYTE; prodHeader := 0; prodFooter := 0;
     consHeader := 0; notification := 0; prodAvailCount := 0;
     prodSckId := prod; consSckId := cons |}.

Definition AdiAppStart : S unit :=
  do usbSpeed <- sdk_call CyU3PUsbGetSpeed;
  run match switch_on all_speeds speed_code usbSpeed with
      | Some CY_U3P_FULL_SPEED =>
          run set_fx3 (set_UsbBufferSize 64);
          print "Connected at USB 1.0 speed." []
      | Some CY_U3P_HIGH_SPEED =>
          run set_fx3 (set_UsbBufferSize 512);
          print "Connected at USB 2.0 speed." []
      | Some CY_U3P_SUPER_SPEED =>
          run set_fx3 (set_UsbBufferSize 1024);
          print "Connected at USB 3.0 speed." []
      | None =>
          run print "Error! Invalid USB speed." [];
          fatal CY_U3P_ERROR_FAILURE
      end;
  run checked (CyU3PGpioInit
                 {| fastClkDiv := 2; slowClkDiv := 20;
                    simpleDiv := CY_U3P_GPIO_SIMPLE_DIV_BY_2;
                    clkSrc := CY_U3P_SYS_CLK; halfDiv := 0 |});
  do board <- GetFX3BoardType;
  run set_fx3 (set_BoardType (board_code board));
  do g <- get_fw;
  run (if BoardType (FX3State g) =? board_code iSensorFX3Board then
         run print "Analog Devices iSensor FX3 Board Detected, Configuring Power Control Circuit..." [];
         run sdk_call (CyU3PDeviceGpioOverride (u8 ADI_5V_EN) CyTrue);
         run sdk_call (CyU3PDeviceGpioOverride (u8 ADI_3_3V_EN) CyTrue);
         run sdk_call (CyU3PGpioSetSimpleConfig (u8 ADI_5V_EN)
                                                (power_config CyTrue));
         run sdk_call (CyU3PGpioSetSimpleConfig (u8 ADI_3_3V_EN)
                                                (power_config CyFalse));
         set_fx3 (set_PinMap Gpio.iSensor_pin_map)
       else
         run print "Cypress SuperSpeed Explorer FX3 Board Detected" [];
         set_fx3 (set_PinMap Gpio.Cypress_pin_map));
  do g <- get_fw;
  let pm := PinMap (FX3State g) in
  run checked (CyU3PDeviceGpioOverride (u8 (ADI_PIN_DIO1 pm)) CyTrue);
  run checked (CyU3PDeviceGpioOverride (u8 (ADI_PIN_DIO2 pm)) CyTrue);
  run checked (CyU3PDeviceGpioOverride (u8 (ADI_PIN_DIO3 pm)) CyTrue);
  run checked (CyU3PDeviceGpioOverride (u8 (ADI_PIN_DIO4 pm)) CyTrue);
  run checked (CyU3PDeviceGpioOverride (u8 (FX3_PIN_GPIO1 pm)) CyTrue);
  run checked (CyU3PDeviceGpioOverride (u8 (FX3_PIN_GPIO2 pm)) CyTrue);
  run checked (CyU3PDeviceGpioOverride (u8 (FX3_PIN_GPIO3 pm)) CyTrue);
  run checked (CyU3PDeviceGpioOverride (u8 (FX3_PIN_GPIO4 pm)) CyTrue);
  run checked (CyU3PDeviceGpioOverride (u8 (ADI_PIN_RESET pm)) CyTrue);
  run checked (CyU3PDeviceGpioOverride (u8 ADI_TIMER_PIN) CyFalse);
  run checked (CyU3PGpioSetSimpleConfig (u8 (ADI_PIN_DIO1 pm)) input_config);
  run checked (CyU3PGpioSetSimpleConfig (u8 (ADI_PIN_DIO2 pm)) input_config);
  run checked (CyU3PGpioSetSimpleConfig (u8 (ADI_PIN_DIO3 pm)) input_config);
  run checked (CyU3PGpioSetSimpleConfig (u8 (ADI_PIN_DIO4 pm)) input_config);
  run checked (CyU3PGpioSetSimpleConfig (u8 (FX3_PIN_GPIO1 pm)) input_config);
  run checked (CyU3PGpioSetSimpleConfig (u8 (FX3_PIN_GPIO2 pm)) input_config);
  run checked (CyU3PGpioSetSimpleConfig (u8 (FX3_PIN_GPIO3 pm)) input_config);
  run checked (CyU3PGpioSetSimpleConfig (u8 (FX3_PIN_GPIO4 pm)) input_config);
  run checked (CyU3PGpioSetSimpleConfig (u8 (ADI_PIN_RESET pm)) input_config);
  run checked (CyU3PGpioSetComplexConfig (u8 ADI_TIMER_PIN) timer_config);
  do pin_status <- sdk_call (read_lpp_gpio_pin_status ADI_TIMER_PIN_INDEX);
  run set_fx3 (set_TimerPinConfig
                 (Z.land pin_status (u32 (Z.lnot CY_U3P_LPP_GPIO_INTR))));
  run set_fx3 (set_StallTime 25);
  run set_fx3 (set_DutType ADcmXL3021);
  do g <- get_fw;
  run set_fx3 (set_DrPin (ADI_PIN_DIO2 (PinMap (FX3State g))));
  run set_fx3 (set_DrActive CyTrue);
  run set_fx3 (set_DrPolarity CyTrue);
  run set_SpiConfig default_SpiConfig;
  run checked CyU3PSpiInit;
  do spi <- get_SpiConfig;
  run checked (CyU3PSpiSetConfig spi);
  run checked (CyU3PEventCreate EventHandler);
  run checked (CyU3PEventCreate GpioHandler);
  do g <- get_fw;
  let epConfig := bulk_config (UsbBufferSize (FX3State g)) in
  run checked_print (CyU3PSetEpConfig ADI_STREAMING_ENDPOINT epConfig)
        "Setting RTS/Streaming endpoint failed, Error Code = 0x%x";
  run checked_print (CyU3PSetEpConfig ADI_FROM_PC_ENDPOINT epConfig)
        "Setting PC to FX3 endpoint failed, Error Code = 0x%x";
  run checked_print (CyU3PSetEpConfig ADI_TO_PC_ENDPOINT epConfig)
        "Setting FX3 to PC endpoint failed, Error Code = 0x%x";
  run flush ADI_STREAMING_ENDPOINT;
  run flush ADI_FROM_PC_ENDPOINT;
  run flush ADI_TO_PC_ENDPOINT;
  do g <- get_fw;
  let dmaConfig := dma_config (UsbBufferSize (FX3State g)) in
  run checked_print
        (CyU3PDmaChannelCreate ChannelFromPC CY_U3P_DMA_TYPE_MANUAL_IN
           (dmaConfig CY_U3P_UIB_SOCKET_PROD_1 CY_U3P_CPU_SOCKET_CONS))
        "Configuring the ChannelFromPC DMA failed, Error Code = 0x%x";
  run checked_print
        (CyU3PDmaChannelCreate ChannelToPC CY_U3P_DMA_TYPE_MANUAL_OUT
           (dmaConfig CY_U3P_CPU_SOCKET_PROD CY_U3P_UIB_SOCKET_CONS_2))
        "Configuring the ChannelToPC DMA failed, Error Code = 0x%x";
  run set_fx3 (set_AppActive CyTrue);
  run print (if VERBOSE_MODE
             then "Verbose mode enabled. Device status will be logged to the serial output."
             else "Verbose mode not enabled. Only error messages will be logged to the serial output.")
            [];
  print "Analog Devices iSensor FX3 Demonstration Platform started successfully!"
        [].

(** [if (FX3State.AppActive) AdiAppStop ();] *)
Definition stop_if_active : S unit :=
  do g <- get_fw;
  if AppActive (FX3State g) =? 0 then ret tt
  else core (AdiAppStop (core_env env)).

(** [AdiUSBEventHandler]; [evdata] is not used. *)
Definition AdiUSBEventHandler (evtype evdata : Z) : S unit :=
  match switch_on all_events event_code evtype with
  | Some CY_U3P_USB_EVENT_SETCONF =>
      run sdk_call CyU3PUsbLPMDisable;
      run stop_if_active;
      AdiAppStart
  | Some CY_U3P_USB_EVENT_RESET | Some CY_U3P_USB_EVENT_DISCONNECT =>
      stop_if_active
  | None => ret tt
  end.

End Firmware.

(** One invocation, started with an empty record. *)
Definition exec {A} (m : S A) (g : Globals) (spi : CyU3PSpiConfig_t)
  : option A * Machine :=
  m {| fw := g; SpiConfig := spi; log := []; step := O |}.

(** *** Reading a run *)

Definition is_reset (e : Event) : bool :=
  match e with
  | Core o => is_device_reset (call o)
  | Sdk _ _ => false
  end.

(** The calls of the second kind, with their answers. *)
Definition sdk_calls (l : list Event) : list (Call * Z) :=
  omap (fun e => match e with Sdk c a => Some (c, a) | Core _ => None end) l.

Definition made (l : list Event) : list Call := map fst (sdk_calls l).

(** The values read from registers, in order. *)
Definition is_read (c : Call) : bool :=
  match c with
  | read_GCTL_WPU_CFG | read_GCTL_WPD_CFG | read_lpp_gpio_simple _
  | read_lpp_gpio_pin_status _ => true
  | _ => false
  end.

Definition reads (l : list Event) : list Z :=
  map snd (List.filter (fun p => is_read (fst p)) (sdk_calls l)).

(** The endpoint buffer size [AdiAppStart] picks for a bus speed, and the
    pin assignment it picks for a board. *)
Definition buffer_size (sp : CyU3PUSBSpeed_t) : Z :=
  match sp with
  | CY_U3P_FULL_SPEED => 64
  | CY_U3P_HIGH_SPEED => 512
  | CY_U3P_SUPER_SPEED => 1024
  end.

Definition board_pin_map (b : FX3BoardType) : PinMapT :=
  match b with
  | iSensorFX3Board => Gpio.iSensor_pin_map
  | CypressFX3Board => Gpio.Cypress_pin_map
  end.

(** The nine pins of a pin assignment. *)
Definition pins (pm : PinMapT) : list Z :=
  [ ADI_PIN_DIO1 pm; ADI_PIN_DIO2 pm; ADI_PIN_DIO3 pm; ADI_PIN_DIO4 pm;
    FX3_PIN_GPIO1 pm; FX3_PIN_GPIO2 pm; FX3_PIN_GPIO3 pm; FX3_PIN_GPIO4 pm;
    ADI_PIN_RESET pm ].

(** How often the device was reset, and whether that was the last thing
    that happened. *)
Definition resets (l : list Event) : nat := length (List.filter is_reset l).

Definition reset_last (l : list Event) : bool :=
  match rev l with e :: _ => is_reset e | [] => false end.

(** A routine either comes back without a reset of the device, or does not
    come back and a reset is the last thing it did; [Q] and [F] relate
    [FX3State.AppActive] before and after in the two cases. *)
Definition outcome {A} (Q F : CyBool_t -> CyBool_t -> Prop) (m : S A)
  : Prop :=
  forall w, exists l,
    log (snd (m w)) = log w ++ l
    /\ let a := AppActive (FX3State (fw w)) in
       let a' := AppActive (FX3State (fw (snd (m w)))) in
       match fst (m w) with
       | Some _ => Q a a' /\ resets l = O
       | None => F a a' /\ reset_last l = true /\ resets l = 1%nat
       end.

(** *** A sample platform *)

Module Sample.

Definition speed_code (sp : CyU3PUSBSpeed_t) : Z :=
  match sp with
  | CY_U3P_FULL_SPEED => 1
  | CY_U3P_HIGH_SPEED => 2
  | CY_U3P_SUPER_SPEED => 3
  end.

Definition event_code (ev : CyU3PUsbEventType_t) : Z :=
  match ev with
  | CY_U3P_USB_EVENT_DISCONNECT => 1
  | CY_U3P_USB_EVENT_RESET => 4
  | CY_U3P_USB_EVENT_SETCONF => 5
  end.

Definition board_code (b : FX3BoardType) : Z :=
  match b with
  | CypressFX3Board => 0
  | iSensorFX3Board => 1
  end.

(** A super-speed bus; CTL0 reads low; every call succeeds. *)
Definition platform : Platform :=
  {| core_env := Demo.env_ok;
     answers_of := fun _ c => match c with
                              | CyU3PUsbGetSpeed => 3
                              | _ => 0
                              end |}.

Definition spi : CyU3PSpiConfig_t :=
  {| isLsbFirst := CyFalse; cpol := CyFalse; ssnPol := CyFalse;
     cpha := CyFalse; leadTime := CY_U3P_SPI_SSN_LAG_LEAD_ONE_CLK;
     lagTime := CY_U3P_SPI_SSN_LAG_LEAD_ONE_CLK;
     ssnCtrl := CY_U3P_SPI_SSN_CTRL_HW_END_OF_XFER; clock := 0;
     wordLen := 0 |}.

End Sample.

End Start.
Arguments u8 : simpl never.
Arguments u16 : simpl never.
Arguments u32 : simpl never.

(** ** Facts about [switch_on] *)

Lemma all_requests_complete (r : VendorRequest) : In r all_requests.
Proof. destruct r; cbn; tauto. Qed.

Lemma all_stream_cmds_complete (c : StreamCmd) : In c all_stream_cmds.
Proof. destruct c; cbn; tauto. Qed.

Lemma switch_on_default {L} (labels : list L) (code : L -> Z) (x : Z) :
  (forall l, In l labels -> code l <> x) -> switch_on labels code x = None.
Proof.
  intros Hno. unfold switch_on.
  induction labels as [|l ls IH]; cbn; [reflexivity|].
  destruct (Z.eqb_spec (code l) x) as [Heq|_].
  - exfalso. apply (Hno l); [left; reflexivity | exact Heq].
  - apply IH. intros l' Hin. apply Hno. right. exact Hin.
Qed.

Lemma switch_on_selected {L} (labels : list L) (code : L -> Z) (x : Z) l :
  switch_on labels code x = Some l -> In l labels /\ code l = x.
Proof.
  unfold switch_on. intros Hf. apply find_some in Hf as [Hin Heq].
  split; [exact Hin | now apply Z.eqb_eq].
Qed.

Lemma switch_on_distinct {L} (labels : list L) (code : L -> Z) l :
  (forall a b, code a = code b -> a = b) -> In l labels ->
  switch_on labels code (code l) = Some l.
Proof.
  intros Hinj Hin. unfold switch_on.
  destruct (find (fun l0 => code l0 =? code l) labels) as [l'|] eqn:Hf.
  - apply find_some in Hf as [_ Heq]. apply Z.eqb_eq in Heq.
    f_equal. now apply Hinj.
  - exfalso. apply (find_none _ _ Hf) in Hin. now rewrite Z.eqb_refl in Hin.
Qed.

(** ** Facts about the decoder *)

Lemma u8_range z : 0 <= u8 z < 2 ^ 8.
Proof. unfold u8. apply Z.mod_pos_bound. lia. Qed.

Lemma u16_range z : 0 <= u16 z < 2 ^ 16.
Proof. unfold u16. apply Z.mod_pos_bound. lia. Qed.

Lemma u32_range z : 0 <= u32 z < 2 ^ 32.
Proof. unfold u32. apply Z.mod_pos_bound. lia. Qed.

Lemma wIndex_range s0 s1 : 0 <= Usb.wIndex (Usb.decode s0 s1) < 2 ^ 16.
Proof. apply u16_range. Qed.

Lemma wValue_range s0 s1 : 0 <= Usb.wValue (Usb.decode s0 s1) < 2 ^ 16.
Proof. apply u16_range. Qed.

Lemma wLength_range s0 s1 : 0 <= Usb.wLength (Usb.decode s0 s1) < 2 ^ 16.
Proof. apply u16_range. Qed.

(** The vendor type and the standard type are different numbers. *)
Lemma vendor_is_not_standard (t : Z) :
  (t =? Usb.CY_U3P_USB_VENDOR_RQT) = true ->
  (t =? Usb.CY_U3P_USB_STANDARD_RQT) = false.
Proof.
  intros H. apply Z.eqb_eq in H. subst t. reflexivity.
Qed.

(** ** Bit arithmetic of the handler *)

(** [(i << 16) | v] adds the halves when [v] fits 16 bits. *)
Lemma lor_shiftl_16 (i v : Z) :
  0 <= i < 2 ^ 16 -> 0 <= v < 2 ^ 16 ->
  Z.lor (Z.shiftl i 16) v = i * 2 ^ 16 + v.
Proof.
  intros Hi Hv.
  rewrite Z.shiftl_mul_pow2 by lia.
  rewrite <- Z.lxor_lor, <- Z.add_nocarry_lxor; try reflexivity.
  all: apply Z.bits_inj'; intros n Hn;
    rewrite Z.land_spec, Z.bits_0;
    destruct (Z.lt_ge_cases n 16) as [Hlt|Hge].
  all: try (rewrite Z.mul_pow2_bits_low by lia; reflexivity).
  all: replace (Z.testbit v n) with false;
    [apply Bool.andb_false_r|].
  all: symmetry; destruct (Z.eq_dec v 0) as [->|Hnz];
    [apply Z.bits_0|].
  all: apply Z.bits_above_log2; [lia|];
    assert (Z.log2 v < 16) by (apply Z.log2_lt_pow2; lia); lia.
Qed.

Lemma land_byte0 st : Z.land st 0xFF = st mod 2 ^ 8.
Proof. change 0xFF with (Z.ones 8). apply Z.land_ones. lia. Qed.

Lemma land_shift_byte st (mask n : Z) :
  0 <= n -> Z.shiftr mask n = Z.ones 8 ->
  Z.shiftr (Z.land st mask) n = (st / 2 ^ n) mod 2 ^ 8.
Proof.
  intros Hn Hmask.
  rewrite Z.shiftr_land, Hmask, Z.land_ones by lia.
  rewrite Z.shiftr_div_pow2 by lia. reflexivity.
Qed.

(** The four bytes the handler stores for a status, read back as a word. *)
Lemma status_bytes_word (st : Z) :
  0 <= st < 2 ^ 32 ->
  u8 (u8 (Z.land st 0xFF))
  + 2 ^ 8 * u8 (u8 (Z.shiftr (Z.land st 0xFF00) 8))
  + 2 ^ 16 * u8 (u8 (Z.shiftr (Z.land st 0xFF0000) 16))
  + 2 ^ 24 * u8 (u8 (Z.shiftr (Z.land st 0xFF000000) 24)) = st.
Proof.
  intros Hst.
  rewrite land_byte0.
  rewrite (land_shift_byte st 0xFF00 8) by (reflexivity || lia).
  rewrite (land_shift_byte st 0xFF0000 16) by (reflexivity || lia).
  rewrite (land_shift_byte st 0xFF000000 24) by (reflexivity || lia).
  unfold u8. rewrite !Z.mod_mod by lia.
  change (2 ^ 8) with 256. change (2 ^ 16) with 65536.
  change (2 ^ 24) with 16777216. change (2 ^ 32) with 4294967296 in Hst.
  Z.div_mod_to_equations. lia.
Qed.

Lemma status_word_stored (buf : Z -> Z) (st : Z) :
  0 <= st < 2 ^ 32 ->
  status_word
    (<[3 := u8 (Z.shiftr (Z.land st 0xFF000000) 24)]>
       (<[2 := u8 (Z.shiftr (Z.land st 0xFF0000) 16)]>
          (<[1 := u8 (Z.shiftr (Z.land st 0xFF00) 8)]>
             (<[0 := u8 (Z.land st 0xFF)]> buf)))) = st.
Proof.
  intros Hst. unfold status_word.
  repeat (rewrite fn_lookup_insert
          || rewrite fn_lookup_insert_ne by discriminate).
  apply status_bytes_word. exact Hst.
Qed.

(** ** More bit arithmetic *)

(** Or-ing in a field shifted past the bits already there adds it. *)
Lemma lor_shiftl_add (a b n : Z) :
  0 <= n -> 0 <= a < 2 ^ n ->
  Z.lor a (Z.shiftl b n) = a + b * 2 ^ n.
Proof.
  intros Hn Ha.
  rewrite Z.shiftl_mul_pow2 by lia.
  rewrite <- Z.lxor_lor, <- Z.add_nocarry_lxor; try reflexivity.
  all: apply Z.bits_inj'; intros k Hk;
    rewrite Z.land_spec, Z.bits_0;
    destruct (Z.lt_ge_cases k n) as [Hlt|Hge].
  all: try (rewrite Z.mul_pow2_bits_low by lia; apply Bool.andb_false_r).
  all: replace (Z.testbit a k) with false; [reflexivity|].
  all: symmetry; destruct (Z.eq_dec a 0) as [->|Hnz]; [apply Z.bits_0|].
  all: apply Z.bits_above_log2; [lia|].
  all: assert (Z.log2 a < n) by (apply Z.log2_lt_pow2; lia); lia.
Qed.

(** Four bytes assembled the way the boot time is: least significant
    first. *)
Lemma bytes_lor_word (b0 b1 b2 b3 : Z) :
  0 <= b0 < 2 ^ 8 -> 0 <= b1 < 2 ^ 8 -> 0 <= b2 < 2 ^ 8 -> 0 <= b3 < 2 ^ 8 ->
  u32 (Z.lor (u32 (Z.lor (u32 (Z.lor b0 (Z.shiftl b1 8))) (Z.shiftl b2 16)))
             (Z.shiftl b3 24))
  = b0 + 2 ^ 8 * b1 + 2 ^ 16 * b2 + 2 ^ 24 * b3.
Proof.
  intros H0 H1 H2 H3. unfold u32.
  rewrite (lor_shiftl_add b0 b1 8) by lia.
  rewrite (Z.mod_small (b0 + b1 * 2 ^ 8)) by lia.
  rewrite (lor_shiftl_add (b0 + b1 * 2 ^ 8) b2 16) by lia.
  rewrite (Z.mod_small (b0 + b1 * 2 ^ 8 + b2 * 2 ^ 16)) by lia.
  rewrite (lor_shiftl_add (b0 + b1 * 2 ^ 8 + b2 * 2 ^ 16) b3 24) by lia.
  rewrite Z.mod_small by lia. lia.
Qed.

(** The bytes [v & 0xFF], [(v & 0xFF00) >> 8], ... of any integer are the
    little-endian bytes of [v mod 2 ^ 32]. *)
Lemma bytes_of_word (v : Z) :
  u8 (u8 (Z.land v 0xFF))
  + 2 ^ 8 * u8 (u8 (Z.shiftr (Z.land v 0xFF00) 8))
  + 2 ^ 16 * u8 (u8 (Z.shiftr (Z.land v 0xFF0000) 16))
  + 2 ^ 24 * u8 (u8 (Z.shiftr (Z.land v 0xFF000000) 24)) = v mod 2 ^ 32.
Proof.
  rewrite land_byte0.
  rewrite (land_shift_byte v 0xFF00 8) by (reflexivity || lia).
  rewrite (land_shift_byte v 0xFF0000 16) by (reflexivity || lia).
  rewrite (land_shift_byte v 0xFF000000 24) by (reflexivity || lia).
  unfold u8. rewrite !Z.mod_mod by lia.
  change (2 ^ 8) with 256. change (2 ^ 16) with 65536.
  change (2 ^ 24) with 16777216. change (2 ^ 32) with 4294967296.
  Z.div_mod_to_equations. lia.
Qed.

(** Likewise the two bytes of a 16-bit quantity. *)
Lemma bytes_of_half (v : Z) :
  u8 (u8 (Z.land v 0xFF)) + 2 ^ 8 * u8 (u8 (Z.shiftr (Z.land v 0xFF00) 8))
  = v mod 2 ^ 16.
Proof.
  rewrite land_byte0.
  rewrite (land_shift_byte v 0xFF00 8) by (reflexivity || lia).
  unfold u8. rewrite !Z.mod_mod by lia.
  change (2 ^ 8) with 256. change (2 ^ 16) with 65536.
  Z.div_mod_to_equations. lia.
Qed.

(** ** The dispatcher *)

Section Dispatcher.

Variable code : VendorRequest -> Z.
Variable sub_code : StreamCmd -> Z.
Variable VERBOSE_MODE : bool.
Variable build_date build_time : Z -> Z.
Variable env : Env.

Local Abbreviation handler :=
  (AdiControlEndpointHandler code sub_code VERBOSE_MODE build_date build_time
                             env).
Local Abbreviation switch :=
  (vendor_switch code sub_code VERBOSE_MODE build_date build_time env).

(** A request that is not a vendor request falls through the handler. *)
Lemma handler_not_vendor blk setupdat0 setupdat1 w :
  Usb.bType (Usb.decode setupdat0 setupdat1) <> Usb.CY_U3P_USB_VENDOR_RQT ->
  AdiControlEndpointHandler_body code sub_code VERBOSE_MODE build_date
    build_time env blk setupdat0 setupdat1 w = (Some CyFalse, w).
Proof.
  intros Hnv. unfold AdiControlEndpointHandler_body.
  apply Z.eqb_neq in Hnv. rewrite Hnv. reflexivity.
Qed.

(** A vendor request runs the banner, the switch and the final status
    check; the standard-request block is skipped. *)
Lemma handler_vendor blk setupdat0 setupdat1 w :
  let s := Usb.decode setupdat0 setupdat1 in
  Usb.bType s = Usb.CY_U3P_USB_VENDOR_RQT ->
  AdiControlEndpointHandler_body code sub_code VERBOSE_MODE build_date
    build_time env blk setupdat0 setupdat1 w =
  (run verbose_print VERBOSE_MODE env "Vendor request = 0x%x"
                     [PInt (Usb.bRequest s)];
   do r <- switch s CyTrue CY_U3P_SUCCESS;
   ret (clear_if_failed (fst r) (snd r))) w.
Proof.
  intros s Hv. unfold AdiControlEndpointHandler_body. fold s.
  apply Z.eqb_eq in Hv. rewrite Hv, (vendor_is_not_standard _ Hv).
  reflexivity.
Qed.

(** Symbolic execution: unfold the monad and the firmware's helpers, and
    nothing of the arithmetic. *)
Ltac unfold_m :=
  cbv beta iota zeta delta
    [bind ret sdk get_ep0 adi modify get_globals device_reset raise_event
     verbose_print stream_check checked reply_status store_status
     store_USBBuffer load_USBBuffer load_boot_time
     stream_generic stream_burst stream_realtime stream_transfer
     hard_reset warm_reset AdiAppStop fatal_unless_success
     AdiAppErrorHandler reboot_countdown
     globals trace tick fst snd].

(** Split on the next status test that stands in the way. *)
Ltac split_status :=
  match goal with
  | |- context [if ?a =? CY_U3P_SUCCESS then _ else _] =>
      let He := fresh "He" in
      destruct (Z.eqb_spec a CY_U3P_SUCCESS) as [He|He]
  end.

(** Enter a vendor request whose [case] is known. *)
Ltac enter_case Hv Hsw :=
  cbv zeta in Hv, Hsw;
  unfold exec, AdiControlEndpointHandler;
  rewrite (handler_vendor _ _ _ _ Hv);
  unfold vendor_switch; rewrite Hsw.

(** *** One step of execution at a time *)

Lemma bind_bind {A B C} (m : M A) (k1 : A -> M B) (k2 : B -> M C) w :
  bind (bind m k1) k2 w = bind m (fun a => bind (k1 a) k2) w.
Proof. unfold bind. destruct (m w) as [[a|] w']; reflexivity. Qed.

Lemma bind_ret {A B} (a : A) (k : A -> M B) w : bind (ret a) k w = k a w.
Proof. reflexivity. Qed.

Lemma bind_modify {B} f (k : unit -> M B) w :
  bind (modify f) k w =
  k tt {| globals := f (globals w); trace := trace w; tick := tick w |}.
Proof. reflexivity. Qed.

Lemma bind_sdk {B} c (k : Z -> M B) w :
  bind (sdk env c) k w =
  k (u32 (answers env (tick w) c (globals w)))
    {| globals := globals w;
       trace := trace w ++
         [{| seen := globals w; call := c;
             answer := u32 (answers env (tick w) c (globals w)) |}];
       tick := S (tick w) |}.
Proof. reflexivity. Qed.

Lemma bind_get_ep0 {B} count (k : Z -> M B) w :
  bind (get_ep0 env count) k w =
  k (u32 (answers env (tick w) (CyU3PUsbGetEP0Data count) (globals w)))
    {| globals :=
         with_USBBuffer
           (fun _ => USBBuffer (effects env (tick w)
                                        (CyU3PUsbGetEP0Data count)
                                        (globals w)))
           (globals w);
       trace := trace w ++
         [{| seen := globals w; call := CyU3PUsbGetEP0Data count;
             answer := u32 (answers env (tick w)
                                    (CyU3PUsbGetEP0Data count) (globals w)) |}];
       tick := S (tick w) |}.
Proof. reflexivity. Qed.

Lemma bind_device_reset {B} isWarmReset (k : unit -> M B) w :
  bind (device_reset isWarmReset) k w =
  (None,
   {| globals := globals w;
      trace := trace w ++ [{| seen := globals w;
                              call := CyU3PDeviceReset isWarmReset;
                              answer := 0 |}];
      tick := S (tick w) |}).
Proof. reflexivity. Qed.

Lemma bind_adi {B} c (k : Z -> M B) w :
  bind (adi env c) k w =
  k (u32 (answers env (tick w) c (globals w)))
    {| globals := effects env (tick w) c (globals w);
       trace := trace w ++
         [{| seen := globals w; call := c;
             answer := u32 (answers env (tick w) c (globals w)) |}];
       tick := S (tick w) |}.
Proof. reflexivity. Qed.

(** Forget how the answers in [H] were computed, keeping their range. *)
Ltac forget_answers H :=
  repeat match type of H with
    | context [u32 (answers env ?k ?c ?g)] =>
        let a := fresh "a" in
        let Ha := fresh "Ha" in
        pose proof (u32_range (answers env k c g)) as Ha;
        set (a := u32 (answers env k c g)) in H, Ha; clearbody a
    | context [USBBuffer (effects env ?k ?c ?g)] =>
        let b := fresh "b" in
        set (b := USBBuffer (effects env k c g)) in H; clearbody b
    | context [effects env ?k ?c ?g] =>
        let g' := fresh "g" in
        set (g' := effects env k c g) in H; clearbody g'
    end.

(** Run the next call of the program in [H : out = program world]; at a
    status test, take both branches. *)
Ltac exec_step H :=
  first
    [ lazymatch type of H with
      | context [bind (fatal_unless_success _ _) _ _] =>
          unfold fatal_unless_success in H
      | context [bind (AdiAppErrorHandler _ _) _ _] =>
          unfold AdiAppErrorHandler in H
      | context [bind (reboot_countdown _ _) _ _] =>
          cbn [reboot_countdown] in H
      | context [bind (if ?c then _ else _) _ _] =>
          let He := fresh "He" in destruct c eqn:He
      end
    | rewrite bind_bind in H
    | rewrite bind_ret in H
    | rewrite bind_modify in H
    | rewrite bind_sdk in H
    | rewrite bind_get_ep0 in H
    | rewrite bind_adi in H
    | rewrite bind_device_reset in H ];
  cbn [globals trace tick app] in H;
  forget_answers H.

(** Use up the recorded outcomes of the status tests. *)
Ltac use_tests :=
  repeat match goal with
    | He : (_ =? CY_U3P_SUCCESS) = _ |- _ => rewrite ?He; clear He
    end.

(** Name the outcome of the program under execution. *)
Ltac name_outcome out H :=
  match goal with
  | |- context [bind ?m ?k {| globals := ?g; trace := []; tick := O |}] =>
      remember (bind m k {| globals := g; trace := []; tick := O |})
        as out eqn:H
  end.

(** *** Code that returns and calls nothing fatal *)

Lemma quiet_ret {A} (a : A) : returns_quietly (ret a).
Proof.
  intros w. exists a, w, []. rewrite app_nil_r. repeat split.
Qed.

Lemma quiet_bind {A B} (m : M A) (k : A -> M B) :
  returns_quietly m -> (forall a, returns_quietly (k a)) ->
  returns_quietly (bind m k).
Proof.
  intros Hm Hk w.
  destruct (Hm w) as (a & w1 & e1 & Em & Et1 & Hh1).
  destruct (Hk a w1) as (b & w2 & e2 & Ek & Et2 & Hh2).
  exists b, w2, (e1 ++ e2). unfold bind. rewrite Em, Ek.
  split; [reflexivity|]. split.
  - rewrite Et2, Et1. symmetry. apply app_assoc.
  - unfold calls in *. rewrite map_app, forallb_app, Hh1, Hh2. reflexivity.
Qed.

Lemma quiet_sdk c : harmless c = true -> returns_quietly (sdk env c).
Proof.
  intros Hc w. eexists _, _, [_]. unfold sdk.
  split; [reflexivity|]. split; [reflexivity|].
  cbn. rewrite Hc. reflexivity.
Qed.

Lemma quiet_adi c : harmless c = true -> returns_quietly (adi env c).
Proof.
  intros Hc w. eexists _, _, [_]. unfold adi.
  split; [reflexivity|]. split; [reflexivity|].
  cbn. rewrite Hc. reflexivity.
Qed.

Lemma quiet_get_ep0 count : returns_quietly (get_ep0 env count).
Proof.
  intros w. eexists _, _, [_]. unfold get_ep0.
  split; [reflexivity|]. split; reflexivity.
Qed.

Lemma quiet_modify f : returns_quietly (modify f).
Proof.
  intros w. eexists _, _, []. unfold modify.
  split; [reflexivity|]. split; [|reflexivity].
  cbn. symmetry. apply app_nil_r.
Qed.

Lemma quiet_get_globals : returns_quietly get_globals.
Proof.
  intros w. exists (globals w), w, []. rewrite app_nil_r. repeat split.
Qed.

Lemma quiet_verbose_print fmt args :
  harmless (CyU3PDebugPrint fmt args) = true ->
  returns_quietly (verbose_print VERBOSE_MODE env fmt args).
Proof.
  intros Hc. unfold verbose_print. destruct VERBOSE_MODE.
  - apply quiet_bind; [now apply quiet_sdk | intros; apply quiet_ret].
  - apply quiet_ret.
Qed.

(** Discharge [returns_quietly] along the structure of the code. *)
Ltac quiet_step :=
  lazymatch goal with
  | |- returns_quietly (ret _) => apply quiet_ret
  | |- returns_quietly get_globals => apply quiet_get_globals
  | |- returns_quietly (modify _) => apply quiet_modify
  | |- returns_quietly (store_USBBuffer _ _) => apply quiet_modify
  | |- returns_quietly (copy_chars _ _ _ _) => apply quiet_modify
  | |- returns_quietly (get_ep0 _ _) => apply quiet_get_ep0
  | |- returns_quietly (sdk _ _) => apply quiet_sdk; reflexivity
  | |- returns_quietly (adi _ _) => apply quiet_adi; reflexivity
  | |- returns_quietly (verbose_print _ _ _ _) =>
      apply quiet_verbose_print; reflexivity
  | |- returns_quietly (bind _ _) => apply quiet_bind; [|intros ?]
  | |- returns_quietly (if ?b then _ else _) => destruct b
  | |- returns_quietly (match ?x with _ => _ end) => destruct x
  end.

Ltac quiet := repeat quiet_step.

Lemma harmless_calls (l : list Call) :
  forallb harmless l = true ->
  existsb is_fatal_print l = false /\ existsb is_device_reset l = false.
Proof.
  induction l as [|c l IH]; cbn; [split; reflexivity|].
  intros H. apply andb_prop in H as [Hc Hl].
  destruct (IH Hl) as [IH1 IH2]. rewrite IH1, IH2.
  unfold harmless in Hc. apply andb_prop in Hc as [H1 H2].
  apply Bool.negb_true_iff in H1, H2. rewrite H1, H2. split; reflexivity.
Qed.

Lemma quiet_vendor_switch r s isHandled status :
  switch_on all_requests code (Usb.bRequest s) = Some r ->
  is_reset_request r = false ->
  returns_quietly (switch s isHandled status).
Proof.
  intros Hsw Hr. unfold vendor_switch. rewrite Hsw.
  destruct r; try discriminate Hr;
    unfold checked, reply_status, store_status, stream_generic, stream_burst,
      stream_realtime, stream_transfer, stream_check, raise_event,
      load_boot_time, load_USBBuffer, store_USBBuffer, AdiGetBuildDate,
      copy_chars, AdiGetBoardPinInfo;
    quiet.
Qed.

Lemma quiet_handler r setupdat0 setupdat1 :
  let s := Usb.decode setupdat0 setupdat1 in
  Usb.bType s = Usb.CY_U3P_USB_VENDOR_RQT ->
  switch_on all_requests code (Usb.bRequest s) = Some r ->
  is_reset_request r = false ->
  returns_quietly (handler setupdat0 setupdat1).
Proof.
  intros s Hv Hsw Hr w. unfold AdiControlEndpointHandler.
  rewrite (handler_vendor _ _ _ _ Hv). revert w.
  apply quiet_bind; [apply quiet_verbose_print; reflexivity | intros _].
  apply quiet_bind; [|intros; apply quiet_ret].
  now apply quiet_vendor_switch with (r := r).
Qed.

(** *** The two reset commands *)

Lemma reset_outcome (r : VendorRequest) (setupdat0 setupdat1 : Z)
  (g : Globals) :
  let s := Usb.decode setupdat0 setupdat1 in
  Usb.bType s = Usb.CY_U3P_USB_VENDOR_RQT ->
  switch_on all_requests code (Usb.bRequest s) = Some r ->
  is_reset_request r = true ->
  let out := exec (handler setupdat0 setupdat1) g in
  fst out = None
  /\ ran_AdiAppErrorHandler (trace (snd out))
     = ep_config_failed (trace (snd out))
  /\ (ep_config_failed (trace (snd out)) = false ->
      actions (trace (snd out))
      = shutdown_actions (Usb.wLength s) (reset_kind r)
      /\ AppActive (FX3State (globals (snd out))) = CyFalse).
Proof.
  intros s Hv Hsw Hr out. subst out s.
  enter_case Hv Hsw.
  destruct r; try discriminate Hr;
    unfold hard_reset, warm_reset, AdiAppStop, verbose_print;
    destruct VERBOSE_MODE;
    name_outcome out Eout.
  all: repeat (once exec_step Eout).
  all: subst out;
    unfold ran_AdiAppErrorHandler, ep_config_failed, actions, calls; cbn.
  all: use_tests; cbn.
  all: (split; [reflexivity|]); (split; [reflexivity|]).
  all: intros Hok; try discriminate Hok.
  all: split; reflexivity.
Qed.

(** C1. A request whose code is none of the [case] labels is answered
    [CyFalse] (the control transfer is stalled); the firmware globals are
    left as they were, and nothing is called except, in a [VERBOSE_MODE]
    build of a vendor-type request, the two debug prints: in particular no
    event is raised. *)
Theorem unknown_request_not_handled (setupdat0 setupdat1 : Z) (g : Globals) :
  let s := Usb.decode setupdat0 setupdat1 in
  (forall r, code r <> Usb.bRequest s) ->
  let out := exec (handler setupdat0 setupdat1) g in
  fst out = Some CyFalse
  /\ globals (snd out) = g
  /\ calls (trace (snd out)) =
       (if Usb.bType s =? Usb.CY_U3P_USB_VENDOR_RQT
        then vendor_banner VERBOSE_MODE s
             ++ (if VERBOSE_MODE
                 then [CyU3PDebugPrint "ERROR: Un-handled vendor command 0x%x"
                                       [PInt (Usb.bRequest s)]]
                 else [])
        else [])
  /\ existsb is_event_set (calls (trace (snd out))) = false.
Proof.
  intros s Hunk out. subst out s.
  assert (Hsw : switch_on all_requests code
                  (Usb.bRequest (Usb.decode setupdat0 setupdat1)) = None)
    by (apply switch_on_default; intros; apply Hunk).
  destruct (Z.eqb_spec (Usb.bType (Usb.decode setupdat0 setupdat1))
                       Usb.CY_U3P_USB_VENDOR_RQT) as [Hv|Hnv].
  - enter_case Hv Hsw.
    destruct VERBOSE_MODE; cbn; repeat split; reflexivity.
  - unfold exec, AdiControlEndpointHandler.
    rewrite handler_not_vendor by exact Hnv.
    cbn. repeat split; reflexivity.
Qed.

(** C4. In each of the four stream families, a sub-operation selector
    ([wIndex]) that is none of Start, Done, Stop is logged and nothing else
    happens: no event is raised, the globals are left as they were, and the
    handler still answers [CyTrue]. *)
Theorem unknown_stream_cmd_is_noop (f : StreamFamily)
  (setupdat0 setupdat1 : Z) (g : Globals) :
  let s := Usb.decode setupdat0 setupdat1 in
  Usb.bType s = Usb.CY_U3P_USB_VENDOR_RQT ->
  switch_on all_requests code (Usb.bRequest s) = Some (family_request f) ->
  (forall c, sub_code c <> Usb.wIndex s) ->
  let out := exec (handler setupdat0 setupdat1) g in
  fst out = Some CyTrue
  /\ globals (snd out) = g
  /\ calls (trace (snd out)) =
       vendor_banner VERBOSE_MODE s
       ++ [CyU3PDebugPrint unknown_stream_fmt [PInt (Usb.wIndex s)]]
  /\ existsb is_event_set (calls (trace (snd out))) = false.
Proof.
  intros s Hv Hsw Hunk out. subst out s.
  assert (Hsub : switch_on all_stream_cmds sub_code
                   (Usb.wIndex (Usb.decode setupdat0 setupdat1)) = None)
    by (apply switch_on_default; intros; apply Hunk).
  enter_case Hv Hsw.
  destruct f; cbn [family_request];
    unfold stream_generic, stream_burst, stream_realtime, stream_transfer;
    rewrite Hsub;
    destruct VERBOSE_MODE; cbn; repeat split; reflexivity.
Qed.

(** C9. A request whose type is not "vendor" is answered [CyFalse] with
    nothing called and nothing written; and the block for standard requests
    ([SET_FEATURE] / [CLEAR_FEATURE] against [AppActive]), sitting inside the
    vendor test, can be replaced by any other code without changing what the
    handler does on any input: it is never executed. *)
Theorem standard_request_block_unreachable
  (blk : Usb.Setup -> Z -> M CyBool_t) (setupdat0 setupdat1 : Z)
  (g : Globals) (w : World) :
  AdiControlEndpointHandler_body code sub_code VERBOSE_MODE build_date
    build_time env blk setupdat0 setupdat1 w = handler setupdat0 setupdat1 w
  /\ (Usb.bType (Usb.decode setupdat0 setupdat1) <> Usb.CY_U3P_USB_VENDOR_RQT
      -> exec (handler setupdat0 setupdat1) g
         = (Some CyFalse, {| globals := g; trace := []; tick := O |})).
Proof.
  split.
  - unfold AdiControlEndpointHandler.
    destruct (Z.eq_dec (Usb.bType (Usb.decode setupdat0 setupdat1))
                       Usb.CY_U3P_USB_VENDOR_RQT) as [Hv|Hnv].
    + rewrite !(handler_vendor _ _ _ _ Hv). reflexivity.
    + rewrite !handler_not_vendor by exact Hnv. reflexivity.
  - intros Hnv. unfold exec, AdiControlEndpointHandler.
    apply handler_not_vendor. exact Hnv.
Qed.

(** C10. The get-status command always reports success: when the handler
    hands [USBBuffer] to the control endpoint, its first four cells (the
    status, little-endian) are all 0, because the local [status] still holds
    its initial [CY_U3P_SUCCESS] when that case reads it. *)
Theorem get_status_reports_success (setupdat0 setupdat1 : Z) (g : Globals) :
  let s := Usb.decode setupdat0 setupdat1 in
  Usb.bType s = Usb.CY_U3P_USB_VENDOR_RQT ->
  switch_on all_requests code (Usb.bRequest s) = Some ADI_GET_STATUS ->
  let out := exec (handler setupdat0 setupdat1) g in
  exists pre o,
    trace (snd out) = pre ++ [o]
    /\ calls pre = vendor_banner VERBOSE_MODE s
    /\ call o = CyU3PUsbSendEP0Data (Usb.wLength s) ptr_USBBuffer
    /\ (forall i, 0 <= i < 4 -> USBBuffer (seen o) i = 0)
    /\ status_word (USBBuffer (seen o)) = CY_U3P_SUCCESS
    /\ USBBuffer (seen o) 4 = (if VERBOSE_MODE then 1 else 0).
Proof.
  intros s Hv Hsw out. subst out s.
  enter_case Hv Hsw.
  destruct VERBOSE_MODE; cbn;
    [eexists [_], _ | eexists [], _];
    (split; [reflexivity|]); cbn;
    (split; [reflexivity|]); (split; [reflexivity|]);
    (split; [|split; reflexivity]);
    intros i Hi;
    assert (i = 0 \/ i = 1 \/ i = 2 \/ i = 3) as [->|[->|[->| ->]]] by lia;
    reflexivity.
Qed.

(** C6. A transfer-bytes request hands [AdiTransferBytes] exactly one 32-bit
    word, [(wIndex << 16) | wValue]: its high half is the index field, its
    low half the value field, nothing else is mixed in. *)
Theorem transfer_bytes_word (setupdat0 setupdat1 : Z) (g : Globals) :
  let s := Usb.decode setupdat0 setupdat1 in
  Usb.bType s = Usb.CY_U3P_USB_VENDOR_RQT ->
  switch_on all_requests code (Usb.bRequest s) = Some ADI_TRANSFER_BYTES ->
  let out := exec (handler setupdat0 setupdat1) g in
  let w := Z.lor (Z.shiftl (Usb.wIndex s) 16) (Usb.wValue s) in
  calls (trace (snd out)) = vendor_banner VERBOSE_MODE s ++ [AdiTransferBytes w]
  /\ 0 <= w < 2 ^ 32
  /\ w / 2 ^ 16 = Usb.wIndex s
  /\ w mod 2 ^ 16 = Usb.wValue s.
Proof.
  intros s Hv Hsw out w. subst out.
  pose proof (wIndex_range setupdat0 setupdat1) as Hi.
  pose proof (wValue_range setupdat0 setupdat1) as Hval.
  fold s in Hi, Hval.
  assert (Hw : w = Usb.wIndex s * 2 ^ 16 + Usb.wValue s)
    by (apply lor_shiftl_16; assumption).
  assert (Hpack : pack_write_word (Usb.wIndex s) (Usb.wValue s) = w).
  { unfold pack_write_word, u32. fold w. apply Z.mod_small. lia. }
  split; [|split; [lia|split]].
  - subst s. enter_case Hv Hsw. rewrite Hpack.
    destruct VERBOSE_MODE; reflexivity.
  - rewrite Hw. rewrite Z.div_add_l by lia.
    rewrite Z.div_small by lia. lia.
  - rewrite Hw, Z.add_comm, Z.mod_add by lia. apply Z.mod_small. lia.
Qed.

(** C3. In each of the four stream families and for each of Start, Done and
    Stop, the handler calls [CyU3PEventSet] once, for that family's event;
    if that call answers anything but success, the handler prints the
    family's failure message with the answered status code and returns
    [CyFalse]. *)
Theorem event_set_failure_stalls (f : StreamFamily) (c : StreamCmd)
  (setupdat0 setupdat1 : Z) (g : Globals) :
  let s := Usb.decode setupdat0 setupdat1 in
  Usb.bType s = Usb.CY_U3P_USB_VENDOR_RQT ->
  switch_on all_requests code (Usb.bRequest s) = Some (family_request f) ->
  switch_on all_stream_cmds sub_code (Usb.wIndex s) = Some c ->
  let out := exec (handler setupdat0 setupdat1) g in
  exists o,
    List.filter (fun o => is_event_set (call o)) (trace (snd out)) = [o]
    /\ call o = CyU3PEventSet EventHandler (family_event f c)
    /\ (answer o <> CY_U3P_SUCCESS ->
        fst out = Some CyFalse
        /\ In (CyU3PDebugPrint (family_fail_fmt f) [PInt (answer o)])
              (calls (trace (snd out)))).
Proof.
  intros s Hv Hsw Hsub out. subst out s. cbv zeta in Hsub.
  enter_case Hv Hsw.
  destruct f; cbn [family_request];
    unfold stream_generic, stream_burst, stream_realtime, stream_transfer;
    rewrite Hsub;
    destruct c, VERBOSE_MODE; unfold_m; split_status; cbn;
    (eexists; split; [reflexivity|]; split; [reflexivity|]); cbn;
    intros Hfail; try (exfalso; apply Hfail; exact He);
    (split;
     [ unfold clear_if_failed; destruct (_ =? _); reflexivity
     | repeat (first [left; reflexivity | right]) ]).
Qed.

(** C2. Where a Start stands relative to its event: every family records
    its parameter, and the event is raised exactly once; the burst and
    real-time families have recorded the parameter when they raise the
    event, while the generic and transfer families raise the event first:
    at that moment [TransferByteLength] still holds its previous value. *)
Theorem start_parameter_and_event_order (f : StreamFamily)
  (setupdat0 setupdat1 : Z) (g : Globals) :
  let s := Usb.decode setupdat0 setupdat1 in
  Usb.bType s = Usb.CY_U3P_USB_VENDOR_RQT ->
  switch_on all_requests code (Usb.bRequest s) = Some (family_request f) ->
  switch_on all_stream_cmds sub_code (Usb.wIndex s)
    = Some ADI_STREAM_START_CMD ->
  let out := exec (handler setupdat0 setupdat1) g in
  exists o,
    List.filter (fun o => is_event_set (call o)) (trace (snd out)) = [o]
    /\ call o = CyU3PEventSet EventHandler (family_event f ADI_STREAM_START_CMD)
    /\ family_param f (StreamThreadState (globals (snd out))) = family_arg f s
    /\ family_param f (StreamThreadState (seen o)) =
         match f with
         | Burst | RealTime => family_arg f s
         | Generic | Transfer => family_param f (StreamThreadState g)
         end.
Proof.
  intros s Hv Hsw Hsub out. subst out s. cbv zeta in Hsub.
  enter_case Hv Hsw.
  destruct f; cbn [family_request];
    unfold stream_generic, stream_burst, stream_realtime, stream_transfer;
    rewrite Hsub;
    destruct VERBOSE_MODE; unfold_m; split_status; cbn;
    (eexists; repeat split; reflexivity).
Qed.






(** *** Further behaviour of the dispatcher *)

(** X1. The commands that only run one measurement or transfer in a neighbouring
    module ([plain_status_call]) pass it the setup field the source names,
    after reading the control endpoint where the source does, and are
    handled exactly when that call answers success. *)
Theorem plain_command_handled_iff_success (r : VendorRequest) (c : Call)
  (setupdat0 setupdat1 : Z) (g : Globals) :
  let s := Usb.decode setupdat0 setupdat1 in
  Usb.bType s = Usb.CY_U3P_USB_VENDOR_RQT ->
  switch_on all_requests code (Usb.bRequest s) = Some r ->
  plain_status_call r s = Some c ->
  let out := exec (handler setupdat0 setupdat1) g in
  exists pre o,
    trace (snd out) = pre ++ [o]
    /\ call o = c
    /\ actions pre = (if drains_ep0_first r
                      then [CyU3PUsbGetEP0Data (Usb.wLength s)] else [])
    /\ fst out = Some (if answer o =? CY_U3P_SUCCESS then CyTrue else CyFalse).
Proof.
  intros s Hv Hsw Hc out. subst out s. cbv zeta in Hc.
  enter_case Hv Hsw.
  destruct r; try discriminate Hc;
    cbn [plain_status_call] in Hc; injection Hc as <-;
    unfold checked, verbose_print;
    destruct VERBOSE_MODE;
    name_outcome out Eout.
  all: repeat (once exec_step Eout).
  all: unfold ret in Eout; subst out; cbn [fst snd trace].
  all: match goal with
       | |- exists pre o, ?t = _ /\ _ =>
           exists (removelast t), (List.last t {| seen := g; call := CyU3PUsbAckSetup; answer := 0 |})
       end.
  all: cbn [removelast List.last call answer actions calls map List.filter
            is_print negb drains_ep0_first app].
  all: unfold clear_if_failed.
  all: repeat split; try reflexivity.
  all: destruct (_ =? CY_U3P_SUCCESS); reflexivity.
Qed.



(** X2. The register read and the register write hand the register address
    ([wIndex]) and, for the write, the low byte of [wValue] to the SPI module
    and nothing else happens; whatever status that call answers is dropped:
    the request is always handled. *)
Theorem register_access_ignores_status (r : VendorRequest) (c : Call)
  (setupdat0 setupdat1 : Z) (g : Globals) :
  let s := Usb.decode setupdat0 setupdat1 in
  Usb.bType s = Usb.CY_U3P_USB_VENDOR_RQT ->
  switch_on all_requests code (Usb.bRequest s) = Some r ->
  register_call r s = Some c ->
  let out := exec (handler setupdat0 setupdat1) g in
  fst out = Some CyTrue
  /\ actions (trace (snd out)) = [c].
Proof.
  intros s Hv Hsw Hc out. subst out s. cbv zeta in Hc.
  enter_case Hv Hsw.
  destruct r; try discriminate Hc;
    cbn [register_call] in Hc; injection Hc as <-;
    rewrite <- ?land_byte0;
    unfold verbose_print;
    destruct VERBOSE_MODE;
    name_outcome out Eout.
  all: repeat (once exec_step Eout).
  all: unfold ret in Eout; subst out; split; reflexivity.
Qed.

(** X3. Set-SPI-configuration answers whatever [AdiSpiUpdate] returned for
    [(wIndex, wValue, wLength)]. *)
Theorem spi_config_result_is_AdiSpiUpdate (setupdat0 setupdat1 : Z)
  (g : Globals) :
  let s := Usb.decode setupdat0 setupdat1 in
  Usb.bType s = Usb.CY_U3P_USB_VENDOR_RQT ->
  switch_on all_requests code (Usb.bRequest s) = Some ADI_SET_SPI_CONFIG ->
  let out := exec (handler setupdat0 setupdat1) g in
  exists pre o,
    trace (snd out) = pre ++ [o]
    /\ actions pre = []
    /\ call o = AdiSpiUpdate (Usb.wIndex s) (Usb.wValue s) (Usb.wLength s)
    /\ fst out = Some (answer o).
Proof.
  intros s Hv Hsw out. subst out s.
  enter_case Hv Hsw.
  unfold verbose_print; destruct VERBOSE_MODE; name_outcome out Eout.
  all: repeat (once exec_step Eout).
  all: unfold ret in Eout; subst out; cbn [fst snd trace].
  all: [> eexists [_], _ | eexists [], _ ].
  all: repeat split; reflexivity.
Qed.

(** X4. The two identification commands send exactly 32 bytes, from [FirmwareID]
    and from [serial_number] respectively, and are handled exactly when the
    control endpoint accepted them. *)
Theorem id_command_sends_32_bytes (r : VendorRequest) (b : BufferPtr)
  (setupdat0 setupdat1 : Z) (g : Globals) :
  let s := Usb.decode setupdat0 setupdat1 in
  Usb.bType s = Usb.CY_U3P_USB_VENDOR_RQT ->
  switch_on all_requests code (Usb.bRequest s) = Some r ->
  id_buffer r = Some b ->
  let out := exec (handler setupdat0 setupdat1) g in
  exists o,
    List.filter (fun o => negb (is_print (call o))) (trace (snd out)) = [o]
    /\ call o = CyU3PUsbSendEP0Data 32 b
    /\ fst out = Some (if answer o =? CY_U3P_SUCCESS then CyTrue else CyFalse)
    /\ globals (snd out) = g.
Proof.
  intros s Hv Hsw Hb out. subst out s.
  enter_case Hv Hsw.
  destruct r; try discriminate Hb;
    cbn [id_buffer] in Hb; injection Hb as <-;
    unfold verbose_print; destruct VERBOSE_MODE; name_outcome out Eout.
  all: repeat (once exec_step Eout).
  all: unfold ret in Eout; subst out; cbn [fst snd trace globals].
  all: eexists; split; [reflexivity|]; split; [reflexivity|].
  all: cbn [answer]; unfold clear_if_failed.
  all: split; [|reflexivity].
  all: destruct (_ =? CY_U3P_SUCCESS); reflexivity.
Qed.

(** X5. Get-status, get-build-date and get-board-type never stall: they are
    handled whatever [CyU3PUsbSendEP0Data] answers, they send [wLength] bytes
    of [USBBuffer], and of the globals they change [USBBuffer] only. *)
Theorem info_commands_always_handled (r : VendorRequest)
  (setupdat0 setupdat1 : Z) (g : Globals) :
  let s := Usb.decode setupdat0 setupdat1 in
  Usb.bType s = Usb.CY_U3P_USB_VENDOR_RQT ->
  switch_on all_requests code (Usb.bRequest s) = Some r ->
  is_info_request r = true ->
  let out := exec (handler setupdat0 setupdat1) g in
  fst out = Some CyTrue
  /\ actions (trace (snd out))
     = [CyU3PUsbSendEP0Data (Usb.wLength s) ptr_USBBuffer]
  /\ with_USBBuffer (fun _ => USBBuffer g) (globals (snd out)) = g.
Proof.
  intros s Hv Hsw Hr out. subst out s.
  enter_case Hv Hsw.
  destruct r; try discriminate Hr;
    unfold AdiGetBuildDate, AdiGetBoardPinInfo, copy_chars, store_status,
      store_USBBuffer, verbose_print, get_globals;
    destruct VERBOSE_MODE; name_outcome out Eout.
  all: repeat (once exec_step Eout).
  all: unfold ret in Eout; subst out; cbn [fst snd trace globals].
  all: destruct g; repeat split; reflexivity.
Qed.

Lemma bind_get_globals {B} (k : Globals -> M B) w :
  bind get_globals k w = k (globals w) w.
Proof. reflexivity. Qed.

(** As [exec_step], for code that also reads the globals. *)
Ltac exec_step_g H :=
  first [ rewrite bind_get_globals in H; cbn [globals trace tick] in H
        | exec_step H ].

(** X6. Set-boot-time stores, as [FX3State.BootTime], the 32-bit word whose
    little-endian bytes are the first four cells of [USBBuffer] as the
    control endpoint left them, and touches no other field of [FX3State];
    it is handled exactly when reading the control endpoint succeeded (the
    boot time is overwritten either way). *)
Theorem boot_time_is_little_endian (setupdat0 setupdat1 : Z) (g : Globals) :
  let s := Usb.decode setupdat0 setupdat1 in
  Usb.bType s = Usb.CY_U3P_USB_VENDOR_RQT ->
  switch_on all_requests code (Usb.bRequest s) = Some ADI_SET_BOOT_TIME ->
  let out := exec (handler setupdat0 setupdat1) g in
  exists o,
    In o (trace (snd out))
    /\ call o = CyU3PUsbGetEP0Data (Usb.wLength s)
    /\ actions (trace (snd out)) = [call o]
    /\ BootTime (FX3State (globals (snd out)))
       = status_word (USBBuffer (globals (snd out)))
    /\ set_BootTime (BootTime (FX3State g)) (FX3State (globals (snd out)))
       = FX3State g
    /\ fst out = Some (if answer o =? CY_U3P_SUCCESS then CyTrue else CyFalse).
Proof.
  intros s Hv Hsw out. subst out s.
  enter_case Hv Hsw.
  unfold load_boot_time, load_USBBuffer, verbose_print;
    destruct VERBOSE_MODE; name_outcome out Eout.
  all: repeat (once exec_step_g Eout).
  all: unfold ret in Eout; subst out; cbn [fst snd trace globals].
  all: match goal with
       | |- context [{| seen := ?sg; call := CyU3PUsbGetEP0Data ?n;
                        answer := ?a |}] =>
           exists {| seen := sg; call := CyU3PUsbGetEP0Data n; answer := a |}
       end.
  all: split; [cbn; tauto|].
  all: cbn [call answer]; (split; [reflexivity|]); (split; [reflexivity|]).
  all: destruct g as [fx ss ks ub md]; destruct fx.
  all: cbn [FX3State BootTime with_FX3State with_USBBuffer set_BootTime
            USBBuffer].
  all: (split; [apply bytes_lor_word; apply u8_range|]).
  all: (split; [reflexivity|]).
  all: unfold clear_if_failed; destruct (_ =? CY_U3P_SUCCESS); reflexivity.
Qed.

(** X7. Pulse-drive reads its configuration from the control endpoint, runs
    [AdiPulseDrive], and queues on the bulk channel to the PC a buffer
    descriptor for [USBBuffer] (size 4096, count 4) whose first four cells
    are the little-endian bytes of the status [AdiPulseDrive] answered; it is
    handled exactly when that status is success. *)
Theorem pulse_drive_reports_over_bulk (setupdat0 setupdat1 : Z)
  (g : Globals) :
  let s := Usb.decode setupdat0 setupdat1 in
  Usb.bType s = Usb.CY_U3P_USB_VENDOR_RQT ->
  switch_on all_requests code (Usb.bRequest s) = Some ADI_PULSE_DRIVE ->
  let out := exec (handler setupdat0 setupdat1) g in
  exists pre o1 o2 o3,
    trace (snd out) = pre ++ [o1; o2; o3]
    /\ actions pre = []
    /\ call o1 = CyU3PUsbGetEP0Data (Usb.wLength s)
    /\ call o2 = AdiPulseDrive
    /\ call o3 = CyU3PDmaChannelSetupSendBuffer ChannelToPC
    /\ ManualDMABuffer (seen o3)
       = {| dma_buffer := Some ptr_USBBuffer; dma_size := 4096;
            dma_count := 4 |}
    /\ status_word (USBBuffer (seen o3)) = answer o2
    /\ fst out = Some (if answer o2 =? CY_U3P_SUCCESS
                       then CyTrue else CyFalse).
Proof.
  intros s Hv Hsw out. subst out s.
  enter_case Hv Hsw.
  unfold store_status, store_USBBuffer, verbose_print;
    destruct VERBOSE_MODE; name_outcome out Eout.
  all: repeat (once exec_step Eout).
  all: unfold ret in Eout; subst out; cbn [fst snd trace].
  all: [> eexists [_], _, _, _ | eexists [], _, _, _ ].
  all: (split; [reflexivity|]); (split; [reflexivity|]).
  all: cbn [call seen answer];
    (split; [reflexivity|]); (split; [reflexivity|]);
    (split; [reflexivity|]); (split; [reflexivity|]).
  all: split;
    [ cbn [USBBuffer with_USBBuffer with_ManualDMABuffer];
      apply status_word_stored; assumption
    | unfold clear_if_failed; destruct (_ =? CY_U3P_SUCCESS); reflexivity ].
Qed.

(** X8. A Done of any stream family reads the trailing payload from the control
    endpoint and then raises the family's Done event; a Stop raises the Stop
    event at once.  Neither changes the stream state or the device state
    ([USBBuffer] aside, which a Done refills). *)
Theorem stream_done_and_stop (f : StreamFamily) (c : StreamCmd)
  (setupdat0 setupdat1 : Z) (g : Globals) :
  let s := Usb.decode setupdat0 setupdat1 in
  Usb.bType s = Usb.CY_U3P_USB_VENDOR_RQT ->
  switch_on all_requests code (Usb.bRequest s) = Some (family_request f) ->
  switch_on all_stream_cmds sub_code (Usb.wIndex s) = Some c ->
  c <> ADI_STREAM_START_CMD ->
  let out := exec (handler setupdat0 setupdat1) g in
  actions (trace (snd out)) = stream_end_actions f c s
  /\ StreamThreadState (globals (snd out)) = StreamThreadState g
  /\ FX3State (globals (snd out)) = FX3State g
  /\ (c = ADI_STREAM_STOP_CMD -> globals (snd out) = g).
Proof.
  intros s Hv Hsw Hsub Hc out. subst out s. cbv zeta in Hsub.
  enter_case Hv Hsw.
  destruct f; cbn [family_request];
    unfold stream_generic, stream_burst, stream_realtime, stream_transfer;
    rewrite Hsub;
    destruct c; try contradiction;
    destruct VERBOSE_MODE; unfold_m; split_status; cbn;
    repeat split; try reflexivity; try discriminate.
Qed.

(** X9. A Start writes exactly one field of the stream state, its family's
    parameter, and leaves the device state alone; the generic family (and no
    other) first reads its configuration from the control endpoint. *)
Theorem stream_start_records_one_parameter (f : StreamFamily)
  (setupdat0 setupdat1 : Z) (g : Globals) :
  let s := Usb.decode setupdat0 setupdat1 in
  Usb.bType s = Usb.CY_U3P_USB_VENDOR_RQT ->
  switch_on all_requests code (Usb.bRequest s) = Some (family_request f) ->
  switch_on all_stream_cmds sub_code (Usb.wIndex s)
    = Some ADI_STREAM_START_CMD ->
  let out := exec (handler setupdat0 setupdat1) g in
  StreamThreadState (globals (snd out)) = family_store f s (StreamThreadState g)
  /\ FX3State (globals (snd out)) = FX3State g
  /\ actions (trace (snd out))
     = (match f with
        | Generic => [CyU3PUsbGetEP0Data (Usb.wLength s)]
        | _ => []
        end)
       ++ [CyU3PEventSet EventHandler (family_event f ADI_STREAM_START_CMD)].
Proof.
  intros s Hv Hsw Hsub out. subst out s. cbv zeta in Hsub.
  enter_case Hv Hsw.
  destruct f; cbn [family_request];
    unfold stream_generic, stream_burst, stream_realtime, stream_transfer;
    rewrite Hsub;
    destruct VERBOSE_MODE; unfold_m; split_status; cbn;
    repeat split; reflexivity.
Qed.

(** *** The fatal handler and the shutdown on their own *)

Lemma bind_ret_r {A} (m : M A) w : bind m ret w = m w.
Proof. unfold bind, ret. destruct (m w) as [[a|] w']; reflexivity. Qed.

(** X10. [AdiAppErrorHandler] never returns: it prints the error code, counts
    down five seconds (five one-second sleeps) and resets the device cold.
    It writes no global. *)
Theorem fatal_handler_resets_after_five_seconds (status : Z) (g : Globals) :
  let out := exec (AdiAppErrorHandler env status) g in
  fst out = None
  /\ calls (trace (snd out)) = fatal_calls status
  /\ slept_ms (calls (trace (snd out))) = 5000
  /\ globals (snd out) = g.
Proof.
  intros out. subst out. unfold exec, AdiAppErrorHandler.
  cbn [reboot_countdown].
  name_outcome out Eout.
  repeat (once exec_step Eout).
  subst out. repeat split; reflexivity.
Qed.

(** X11. [AdiAppStop] clears [AppActive] and nothing else of the globals, before
    it tears anything down.  It returns exactly when all three
    endpoint-disable calls succeed, having then made the thirteen tear-down
    calls in source order; the statuses of the other ten are ignored.  At
    the first endpoint-disable failure it runs the fatal handler with that
    status and the remaining endpoints are not disabled. *)
Theorem app_stop_outcome (g : Globals) :
  let out := exec (AdiAppStop env) g in
  globals (snd out) = with_FX3State (set_AppActive CyFalse) g
  /\ Forall (fun o => is_print (call o) = false ->
                      seen o = with_FX3State (set_AppActive CyFalse) g)
            (trace (snd out))
  /\ (ep_config_failed (trace (snd out)) = false ->
      fst out = Some tt
      /\ actions (trace (snd out)) = app_stop_actions)
  /\ (ep_config_failed (trace (snd out)) = true ->
      fst out = None
      /\ exists n o,
           (n < 3)%nat
           /\ In o (trace (snd out))
           /\ answer o <> CY_U3P_SUCCESS
           /\ calls (trace (snd out))
              = CyU3PDebugPrint "Application stopping!" []
                :: firstn (11 + n) app_stop_actions
                ++ fatal_calls (answer o)).
Proof.
  intros out. subst out. unfold exec.
  rewrite <- (bind_ret_r (AdiAppStop env)). unfold AdiAppStop.
  name_outcome out Eout.
  repeat (once exec_step Eout).
  all: unfold ret in Eout; subst out;
    unfold ep_config_failed, actions, calls; cbn.
  all: (split; [reflexivity|]).
  all: split; [repeat constructor; intros Hp; try discriminate Hp; reflexivity|].
  all: repeat match goal with
         | He : (_ =? CY_U3P_SUCCESS) = _ |- _ => rewrite ?He; revert He
         end; cbn.
  all: intros; split; intros Hf; try discriminate Hf.
  all: split; [reflexivity|].
  all: match goal with
       | Hne : (?ax =? CY_U3P_SUCCESS) = false |- _ =>
           match goal with
           | |- context [{| seen := ?sg; call := CyU3PSetEpConfig ?ep ?en;
                            answer := ax |}] =>
               (exists 0%nat + exists 1%nat + exists 2%nat);
               exists {| seen := sg; call := CyU3PSetEpConfig ep en;
                         answer := ax |};
               split; [lia|];
               split; [cbn; tauto|];
               split; [cbn [answer]; now apply Z.eqb_neq | reflexivity]
           end
       | |- _ => reflexivity
       end.
Qed.

(** *** The two buffer fillers *)

(** Look a cell up through a stack of single-cell stores. *)
Ltac lookup_cell :=
  repeat first [ rewrite fn_lookup_insert
               | rewrite fn_lookup_insert_ne by lia ].

(** X12. [AdiGetBuildDate] lays out 21 cells: the 11 characters of the build
    date, a space, the 8 characters of the build time and a terminating NUL;
    it calls nothing and changes nothing else, in particular no cell outside
    0..20. *)
Theorem build_date_layout (g : Globals) :
  let out := exec (AdiGetBuildDate build_date build_time) g in
  let buf := USBBuffer (globals (snd out)) in
  fst out = Some tt
  /\ trace (snd out) = []
  /\ with_USBBuffer (fun _ => USBBuffer g) (globals (snd out)) = g
  /\ (forall i, 0 <= i < 11 -> buf i = u8 (build_date i))
  /\ buf 11 = 32
  /\ (forall i, 12 <= i < 20 -> buf i = u8 (build_time (i - 12)))
  /\ buf 20 = 0
  /\ (forall i, i < 0 \/ 20 < i -> buf i = USBBuffer g i).
Proof.
  intros out buf. subst buf out.
  unfold exec, AdiGetBuildDate, copy_chars, store_USBBuffer.
  replace (seqZ 0 11) with [0; 1; 2; 3; 4; 5; 6; 7; 8; 9; 10]
    by reflexivity.
  replace (seqZ 12 8) with [12; 13; 14; 15; 16; 17; 18; 19] by reflexivity.
  cbn [bind modify ret fst snd globals trace tick with_USBBuffer USBBuffer
       fold_left].
  split; [reflexivity|]. split; [reflexivity|].
  split; [destruct g; reflexivity|].
  split; [|split; [|split; [|split]]].
  - intros i Hi.
    assert (i = 0 \/ i = 1 \/ i = 2 \/ i = 3 \/ i = 4 \/ i = 5 \/ i = 6
            \/ i = 7 \/ i = 8 \/ i = 9 \/ i = 10) as Hcase by lia.
    repeat (destruct Hcase as [->|Hcase]); try subst i;
      lookup_cell; rewrite ?Z.sub_0_r; reflexivity.
  - lookup_cell. reflexivity.
  - intros i Hi.
    assert (i = 12 \/ i = 13 \/ i = 14 \/ i = 15 \/ i = 16 \/ i = 17
            \/ i = 18 \/ i = 19) as Hcase by lia.
    repeat (destruct Hcase as [->|Hcase]); try subst i;
      lookup_cell; reflexivity.
  - lookup_cell. reflexivity.
  - intros i Hi. lookup_cell. reflexivity.
Qed.

(** X13. [AdiGetBoardPinInfo] lays out 22 cells, all little-endian: the board
    type as a 32-bit word, then the reset pin, DIO1..DIO4 and GPIO1..GPIO4
    as 16-bit words; it calls nothing and changes nothing else, in particular
    no cell outside 0..21. *)
Theorem board_pin_info_layout (g : Globals) :
  let out := exec AdiGetBoardPinInfo g in
  let buf := USBBuffer (globals (snd out)) in
  let pm := PinMap (FX3State g) in
  fst out = Some tt
  /\ trace (snd out) = []
  /\ with_USBBuffer (fun _ => USBBuffer g) (globals (snd out)) = g
  /\ status_word buf = BoardType (FX3State g) mod 2 ^ 32
  /\ map (word16_at buf) [4; 6; 8; 10; 12; 14; 16; 18; 20]
     = map (fun p => p mod 2 ^ 16)
           [ ADI_PIN_RESET pm; ADI_PIN_DIO1 pm; ADI_PIN_DIO2 pm;
             ADI_PIN_DIO3 pm; ADI_PIN_DIO4 pm; FX3_PIN_GPIO1 pm;
             FX3_PIN_GPIO2 pm; FX3_PIN_GPIO3 pm; FX3_PIN_GPIO4 pm ]
  /\ (forall i, i < 0 \/ 21 < i -> buf i = USBBuffer g i).
Proof.
  intros out buf pm. subst buf out pm.
  unfold exec, AdiGetBoardPinInfo, store_USBBuffer.
  cbn [bind modify ret get_globals fst snd globals trace tick with_USBBuffer
       USBBuffer].
  split; [reflexivity|]. split; [reflexivity|].
  split; [destruct g; reflexivity|].
  split; [|split].
  - unfold status_word. lookup_cell. apply bytes_of_word.
  - cbn [map]. unfold word16_at. cbn [Z.add Pos.add Pos.succ].
    lookup_cell. rewrite !bytes_of_half. reflexivity.
  - intros i Hi. lookup_cell. reflexivity.
Qed.

(** The two routines that start-up and the USB event handler share with the
    dispatcher, run in the middle of a longer run. *)
Ltac name_outcome_from out H :=
  match goal with
  | |- context [bind ?m ?k {| globals := ?g; trace := []; tick := ?n |}] =>
      remember (bind m k {| globals := g; trace := []; tick := n |})
        as out eqn:H
  end.

Lemma fatal_from (status : Z) (g : Globals) (k : nat) :
  let out := run_from (AdiAppErrorHandler env status) g k in
  fst out = None
  /\ globals (snd out) = g
  /\ calls (trace (snd out)) = fatal_calls status.
Proof.
  intros out. subst out. unfold run_from, AdiAppErrorHandler.
  cbn [reboot_countdown].
  name_outcome_from out Eout.
  repeat (once exec_step Eout).
  subst out. repeat split; reflexivity.
Qed.

Lemma stop_from (g : Globals) (k : nat) :
  let out := run_from (AdiAppStop env) g k in
  globals (snd out) = with_FX3State (set_AppActive CyFalse) g
  /\ match fst out with
     | Some _ =>
         List.filter is_device_reset (calls (trace (snd out))) = []
     | None =>
         exists l, calls (trace (snd out)) = l ++ [CyU3PDeviceReset CyFalse]
                   /\ List.filter is_device_reset l = []
     end.
Proof.
  intros out. subst out. unfold run_from.
  rewrite <- (bind_ret_r (AdiAppStop env)). unfold AdiAppStop.
  name_outcome_from out Eout.
  repeat (once exec_step Eout).
  all: unfold ret in Eout; subst out; unfold calls; cbn.
  all: (split; [reflexivity|]).
  all: try reflexivity.
  all: match goal with
       | |- exists l, ?L = _ /\ _ => exists (removelast L)
       end.
  all: cbn [removelast]; split; reflexivity.
Qed.
End Dispatcher.

(** ** Bit-bang SPI transfers *)

Section BitBangFacts.

Import BitBang.

Variable config : BitBangSpiConf.
Variables mosiBits line : nat -> bool.

Lemma count_app f (l1 l2 : list PinAction) :
  count f (l1 ++ l2) = (count f l1 + count f l2)%nat.
Proof. unfold count. rewrite List.filter_app. apply length_app. Qed.

(** Each of the four per-bit actions happens once per clocked bit. *)
Lemma clock_bits_counts (i n : nat) :
  let body := clock_bits config mosiBits line i n in
  count is_toggle (fst body) = n
  /\ count is_toggle_back (fst body) = n
  /\ count is_drive (fst body) = n
  /\ count is_sample (fst body) = n
  /\ length (snd body) = n.
Proof.
  revert i. induction n as [|n IH]; intros i; cbn [clock_bits fst snd].
  - repeat split; reflexivity.
  - destruct (IH (S i)) as (H1 & H2 & H3 & H4 & H5).
    rewrite !count_app, H1, H2, H3, H4. cbn [length]. rewrite H5.
    repeat split; reflexivity.
Qed.

(** With chip-select asserted, clocking [n] bits takes [n] full periods. *)
Lemma clock_bits_ticks (i n : nat) (tail : list PinAction) :
  cs_asserted_ticks true
    (fst (clock_bits config mosiBits line i n) ++ tail)
  = Z.of_nat n * (2 * HalfClockDelay config + BITBANG_HALFCLOCK_OFFSET)
    + cs_asserted_ticks true tail.
Proof.
  revert i. induction n as [|n IH]; intros i.
  - cbn [clock_bits fst app]. lia.
  - cbn [clock_bits fst]. rewrite <- app_assoc.
    cbn [bit_cycle app cs_asserted_ticks]. rewrite IH. lia.
Qed.

(** C8. A bit-bang transfer of [n] bits with half-clock delay [d] clocks
    exactly [n] times: [n] clock toggles, each followed by its toggle back,
    and on the data lines [n] MOSI drives and [n] MISO samples ([n] received
    bits); chip-select stays asserted for
    [CSLeadDelay + n * (2 * d + BITBANG_HALFCLOCK_OFFSET) + CSLagDelay]
    timer ticks, which is at least [CSLeadDelay + n * 2 * d + CSLagDelay]. *)
Theorem bitbang_clocks_and_cs_time (n : nat) :
  let acts := fst (bitBangTransfer mosiBits line n config) in
  let d := HalfClockDelay config in
  count is_toggle acts = n
  /\ count is_toggle_back acts = n
  /\ count is_drive acts = n
  /\ count is_sample acts = n
  /\ length (snd (bitBangTransfer mosiBits line n config)) = n
  /\ cs_asserted_ticks false acts
     = CSLeadDelay config
       + Z.of_nat n * (2 * d + BITBANG_HALFCLOCK_OFFSET)
       + CSLagDelay config
  /\ CSLeadDelay config + Z.of_nat n * 2 * d + CSLagDelay config
     <= cs_asserted_ticks false acts.
Proof.
  intros acts d. subst acts d. unfold bitBangTransfer. cbn [fst snd].
  destruct (clock_bits_counts 0 n) as (H1 & H2 & H3 & H4 & H5).
  assert (Hticks :
    cs_asserted_ticks false
      ([AssertCS (CS config); Wait (CSLeadDelay config)]
       ++ fst (clock_bits config mosiBits line 0 n)
       ++ [Wait (CSLagDelay config); ReleaseCS (CS config)])
    = CSLeadDelay config
      + Z.of_nat n * (2 * HalfClockDelay config + BITBANG_HALFCLOCK_OFFSET)
      + CSLagDelay config).
  { cbn [app cs_asserted_ticks]. rewrite clock_bits_ticks.
    cbn [cs_asserted_ticks]. lia. }
  rewrite !count_app, H1, H2, H3, H4, Hticks.
  repeat split; try reflexivity; try exact H5; try (cbn; lia).
  unfold BITBANG_HALFCLOCK_OFFSET. lia.
Qed.

End BitBangFacts.

(** ** The theorems at work on the sample configuration *)

Import Demo.

(** A vendor request with code 0x55, which no [case] has. *)
Lemma unknown_request_not_handled_witness :
  let out := exec (handler true env_ok (Usb.pack0 0x40 0x55 7)
                           (Usb.pack1 1 2)) idle in
  fst out = Some CyFalse
  /\ globals (snd out) = idle
  /\ calls (trace (snd out)) =
       [ CyU3PDebugPrint "Vendor request = 0x%x" [PInt 0x55];
         CyU3PDebugPrint "ERROR: Un-handled vendor command 0x%x" [PInt 0x55] ]
  /\ existsb is_event_set (calls (trace (snd out))) = false.
Proof.
  apply (unknown_request_not_handled code sub_code true build_date build_time
           env_ok (Usb.pack0 0x40 0x55 7) (Usb.pack1 1 2) idle).
  intros r. destruct r; vm_compute; discriminate.
Defined.

(** A generic-stream Start of length 100 on an idle device: when the event
    is raised the recorded length is still the old 0. *)
Lemma generic_start_raises_before_write :
  let out := exec (handler false env_ok
                           (vendor_setup0 ADI_STREAM_GENERIC_DATA 0)
                           (Usb.pack1 0 100)) idle in
  exists o,
    List.filter (fun o => is_event_set (call o)) (trace (snd out)) = [o]
    /\ call o = CyU3PEventSet EventHandler ADI_GENERIC_STREAM_START
    /\ TransferByteLength (StreamThreadState (globals (snd out))) = 100
    /\ TransferByteLength (StreamThreadState (seen o)) = 0.
Proof.
  apply (start_parameter_and_event_order code sub_code false build_date
           build_time env_ok Generic
           (vendor_setup0 ADI_STREAM_GENERIC_DATA 0) (Usb.pack1 0 100) idle);
    reflexivity.
Defined.

(** A burst-stream Stop whose [CyU3PEventSet] answers 0x47. *)
Lemma event_set_failure_stalls_witness :
  let out := exec (handler false env_failing
                           (vendor_setup0 ADI_STREAM_BURST_DATA 0)
                           (Usb.pack1 2 0)) idle in
  exists o,
    List.filter (fun o => is_event_set (call o)) (trace (snd out)) = [o]
    /\ call o = CyU3PEventSet EventHandler ADI_BURST_STREAM_STOP
    /\ (answer o <> CY_U3P_SUCCESS ->
        fst out = Some CyFalse
        /\ In (CyU3PDebugPrint burst_fail_fmt [PInt (answer o)])
              (calls (trace (snd out)))).
Proof.
  apply (event_set_failure_stalls code sub_code false build_date build_time
           env_failing Burst ADI_STREAM_STOP_CMD
           (vendor_setup0 ADI_STREAM_BURST_DATA 0) (Usb.pack1 2 0) idle);
    reflexivity.
Defined.

(** A real-time-stream request with selector 9. *)
Lemma unknown_stream_cmd_is_noop_witness :
  let out := exec (handler false env_ok
                           (vendor_setup0 ADI_STREAM_REALTIME 1)
                           (Usb.pack1 9 0)) idle in
  fst out = Some CyTrue
  /\ globals (snd out) = idle
  /\ calls (trace (snd out)) = [CyU3PDebugPrint unknown_stream_fmt [PInt 9]]
  /\ existsb is_event_set (calls (trace (snd out))) = false.
Proof.
  apply (unknown_stream_cmd_is_noop code sub_code false build_date build_time
           env_ok RealTime (vendor_setup0 ADI_STREAM_REALTIME 1)
           (Usb.pack1 9 0) idle); try reflexivity.
  intros c. destruct c; vm_compute; discriminate.
Defined.



(** Index 0xABCD and value 0x1234 make the word 0xABCD1234. *)
Lemma transfer_bytes_word_witness :
  let out := exec (handler false env_ok
                           (vendor_setup0 ADI_TRANSFER_BYTES 0x1234)
                           (Usb.pack1 0xABCD 0)) idle in
  calls (trace (snd out)) = [AdiTransferBytes 0xABCD1234]
  /\ 0 <= 0xABCD1234 < 2 ^ 32
  /\ 0xABCD1234 / 2 ^ 16 = 0xABCD
  /\ 0xABCD1234 mod 2 ^ 16 = 0x1234.
Proof.
  apply (transfer_bytes_word code sub_code false build_date build_time env_ok
           (vendor_setup0 ADI_TRANSFER_BYTES 0x1234) (Usb.pack1 0xABCD 0)
           idle); reflexivity.
Defined.


(** A standard SET_FEATURE request to the interface: type 0, target 1,
    request 3, value 0. *)
Lemma standard_request_block_unreachable_witness :
  exec (handler false env_ok (Usb.pack0 1 3 0) (Usb.pack1 0 0)) idle
  = (Some CyFalse, {| globals := idle; trace := []; tick := O |}).
Proof.
  apply (standard_request_block_unreachable code sub_code false build_date
           build_time env_ok (fun _ _ => ret CyTrue) (Usb.pack0 1 3 0)
           (Usb.pack1 0 0) idle {| globals := idle; trace := []; tick := O |}).
  vm_compute. discriminate.
Defined.

(** A get-status request on a device whose buffer held 0xEE everywhere. *)
Lemma get_status_reports_success_witness :
  let s := Usb.decode (vendor_setup0 ADI_GET_STATUS 0) (Usb.pack1 0 5) in
  let out := exec (handler false env_failing (vendor_setup0 ADI_GET_STATUS 0)
                           (Usb.pack1 0 5)) idle in
  exists pre o,
    trace (snd out) = pre ++ [o]
    /\ calls pre = vendor_banner false s
    /\ call o = CyU3PUsbSendEP0Data (Usb.wLength s) ptr_USBBuffer
    /\ (forall i, 0 <= i < 4 -> USBBuffer (seen o) i = 0)
    /\ status_word (USBBuffer (seen o)) = CY_U3P_SUCCESS
    /\ USBBuffer (seen o) 4 = (if false then 1 else 0).
Proof.
  apply (get_status_reports_success code sub_code false build_date build_time
           env_failing (vendor_setup0 ADI_GET_STATUS 0) (Usb.pack1 0 5) idle);
    reflexivity.
Defined.

(** Eight bits at half-clock delay 10, lead 3, lag 4: eight clocks and
    3 + 8 * 28 + 4 ticks under chip-select. *)
Example bitbang_eight_bits :
  let r := BitBang.bitBangTransfer (fun i => Nat.even i) (fun _ => true) 8
                                   BitBang.sample in
  BitBang.count BitBang.is_toggle (fst r) = 8%nat
  /\ BitBang.cs_asserted_ticks false (fst r) = 231
  /\ snd r = repeat true 8.
Proof. vm_compute. repeat split; reflexivity. Qed.


(** ** The setup-packet decoder *)

Lemma land_shift_half (v mask n : Z) :
  0 <= n -> Z.shiftr mask n = Z.ones 16 ->
  Z.shiftr (Z.land v mask) n = (v / 2 ^ n) mod 2 ^ 16.
Proof.
  intros Hn Hmask.
  rewrite Z.shiftr_land, Hmask, Z.land_ones by lia.
  rewrite Z.shiftr_div_pow2 by lia. reflexivity.
Qed.

(** X14. Where the decoder finds each field: the request type in bits 0..7 of the
    first setup word, the request code in bits 8..15, [wValue] in bits
    16..31; [wIndex] in bits 0..15 of the second word and [wLength] in bits
    16..31; the type and the target are bits 5..6 and 0..1 of the request
    type.  This holds for any two integers: bits above 31 are ignored. *)
Theorem decode_layout (setupdat0 setupdat1 : Z) :
  let s := Usb.decode setupdat0 setupdat1 in
  Usb.bReqType s = setupdat0 mod 2 ^ 8
  /\ Usb.bRequest s = (setupdat0 / 2 ^ 8) mod 2 ^ 8
  /\ Usb.wValue s = (setupdat0 / 2 ^ 16) mod 2 ^ 16
  /\ Usb.wIndex s = setupdat1 mod 2 ^ 16
  /\ Usb.wLength s = (setupdat1 / 2 ^ 16) mod 2 ^ 16
  /\ Usb.bType s = 2 ^ 5 * ((setupdat0 / 2 ^ 5) mod 2 ^ 2)
  /\ Usb.bTarget s = setupdat0 mod 2 ^ 2
  /\ Usb.decode (setupdat0 mod 2 ^ 32) (setupdat1 mod 2 ^ 32) = s.
Proof.
  intros s. subst s.
  assert (Hrt : forall v, u8 (Z.land v Usb.CY_U3P_USB_REQUEST_TYPE_MASK)
                          = v mod 2 ^ 8).
  { intros v. unfold Usb.CY_U3P_USB_REQUEST_TYPE_MASK.
    rewrite land_byte0. unfold u8. apply Z.mod_mod. lia. }
  assert (Hrq : forall v,
           u8 (Z.shiftr (Z.land v Usb.CY_U3P_USB_REQUEST_MASK)
                        Usb.CY_U3P_USB_REQUEST_POS)
           = (v / 2 ^ 8) mod 2 ^ 8).
  { intros v. unfold Usb.CY_U3P_USB_REQUEST_MASK, Usb.CY_U3P_USB_REQUEST_POS.
    rewrite (land_shift_byte v 0xFF00 8) by (reflexivity || lia).
    unfold u8. apply Z.mod_mod. lia. }
  assert (Hhi : forall v,
           u16 (Z.shiftr (Z.land v 0xFFFF0000) 16) = (v / 2 ^ 16) mod 2 ^ 16).
  { intros v.
    rewrite (land_shift_half v 0xFFFF0000 16) by (reflexivity || lia).
    unfold u16. apply Z.mod_mod. lia. }
  assert (Hlo : forall v,
           u16 (Z.shiftr (Z.land v 0xFFFF) 0) = v mod 2 ^ 16).
  { intros v. rewrite Z.shiftr_0_r. change 0xFFFF with (Z.ones 16).
    rewrite Z.land_ones by lia. unfold u16. apply Z.mod_mod. lia. }
  assert (Hty : forall v,
           u8 (Z.land (v mod 2 ^ 8) Usb.CY_U3P_USB_TYPE_MASK)
           = 2 ^ 5 * ((v / 2 ^ 5) mod 2 ^ 2)).
  { intros v. unfold Usb.CY_U3P_USB_TYPE_MASK.
    change 0x60 with (Z.shiftl (Z.ones 2) 5).
    rewrite <- (Z.land_ones v 8) by lia.
    rewrite <- Z.land_assoc.
    change (Z.land (Z.ones 8) (Z.shiftl (Z.ones 2) 5))
      with (Z.shiftl (Z.ones 2) 5).
    assert (E : Z.land v (Z.shiftl (Z.ones 2) 5)
                = Z.shiftl (Z.land (Z.shiftr v 5) (Z.ones 2)) 5).
    { rewrite Z.shiftl_land. rewrite <- Z.ldiff_ones_r by lia.
      apply Z.bits_inj'. intros k Hk.
      rewrite !Z.land_spec, Z.ldiff_spec.
      destruct (Z.lt_ge_cases k 5) as [Hlt|Hge].
      - rewrite Z.shiftl_spec_low by lia.
        rewrite Z.ones_spec_low by lia.
        rewrite !Bool.andb_false_r. reflexivity.
      - rewrite Z.ones_spec_high by lia. rewrite Bool.andb_true_r.
        reflexivity. }
    rewrite E, Z.land_ones, Z.shiftr_div_pow2, Z.shiftl_mul_pow2 by lia.
    unfold u8. rewrite Z.mod_small; [lia|].
    pose proof (Z.mod_pos_bound (v / 2 ^ 5) (2 ^ 2)). lia. }
  assert (Htg : forall v,
           u8 (Z.land (v mod 2 ^ 8) Usb.CY_U3P_USB_TARGET_MASK)
           = v mod 2 ^ 2).
  { intros v. unfold Usb.CY_U3P_USB_TARGET_MASK.
    change 0x03 with (Z.ones 2). rewrite Z.land_ones by lia.
    unfold u8.
    change (2 ^ 8) with 256. change (2 ^ 2) with 4.
    Z.div_mod_to_equations. lia. }
  unfold Usb.decode. cbn [Usb.bReqType Usb.bRequest Usb.wValue Usb.wIndex
                          Usb.wLength Usb.bType Usb.bTarget].
  unfold Usb.CY_U3P_USB_VALUE_MASK, Usb.CY_U3P_USB_VALUE_POS,
    Usb.CY_U3P_USB_INDEX_MASK, Usb.CY_U3P_USB_INDEX_POS,
    Usb.CY_U3P_USB_LENGTH_MASK, Usb.CY_U3P_USB_LENGTH_POS.
  rewrite !Hrt, !Hrq, !Hhi, !Hlo, !Hty, !Htg.
  repeat split; try reflexivity.
  f_equal.
  all: change (2 ^ 32) with 4294967296; change (2 ^ 16) with 65536;
    change (2 ^ 8) with 256; change (2 ^ 5) with 32; change (2 ^ 2) with 4.
  all: Z.div_mod_to_equations; lia.
Qed.

(** ** The watchdog *)

Lemma set_WatchDogTicks_same (st : BoardState) (t : Z) :
  set_WatchDogTicks (WatchDogTicks st) (set_WatchDogTicks t st) = st.
Proof. destruct st; reflexivity. Qed.

Lemma land_low_bit (x : Z) : Z.land x 0x01 = x mod 2.
Proof. change 0x01 with (Z.ones 1). rewrite Z.land_ones by lia. reflexivity. Qed.

(** X15. The watchdog callback reloads the hardware counter with the tick count
    after flipping its lowest bit and nothing but that bit: it adds one to an
    even count and subtracts one from an odd count, so it never wraps, the
    count stays within one tick of the configured value, and two callbacks in
    a row restore the device state exactly. *)
Theorem watchdog_callback_flips_low_bit (n n' : Z) (st : BoardState) :
  0 <= WatchDogTicks st < 2 ^ 32 ->
  let r := Wd.WatchDogTimerCb n st in
  WatchDogTicks (fst r) = snd r
  /\ 0 <= snd r < 2 ^ 32
  /\ snd r / 2 = WatchDogTicks st / 2
  /\ snd r mod 2 = 1 - WatchDogTicks st mod 2
  /\ fst (Wd.WatchDogTimerCb n' (fst r)) = st.
Proof.
  intros Hr r. subst r. unfold Wd.WatchDogTimerCb.
  rewrite !land_low_bit. unfold u32.
  destruct (Z.eqb_spec (WatchDogTicks st mod 2) 0) as [He|Hne];
    cbn [fst snd WatchDogTicks set_WatchDogTicks].
  - assert (Hs : (WatchDogTicks st + 1) mod 2 ^ 32 = WatchDogTicks st + 1)
      by (apply Z.mod_small; Z.div_mod_to_equations; lia).
    rewrite Hs.
    assert (Hodd : (WatchDogTicks st + 1) mod 2 = 1)
      by (Z.div_mod_to_equations; lia).
    rewrite Hodd. cbn [Z.eqb].
    replace (WatchDogTicks st + 1 - 1) with (WatchDogTicks st) by lia.
    rewrite (Z.mod_small (WatchDogTicks st) (2 ^ 32)) by lia.
    repeat split; try (Z.div_mod_to_equations; lia).
    destruct st; reflexivity.
  - assert (Hs : (WatchDogTicks st - 1) mod 2 ^ 32 = WatchDogTicks st - 1)
      by (apply Z.mod_small; Z.div_mod_to_equations; lia).
    rewrite Hs.
    assert (Hev : (WatchDogTicks st - 1) mod 2 = 0)
      by (Z.div_mod_to_equations; lia).
    rewrite Hev. cbn [Z.eqb].
    replace (WatchDogTicks st - 1 + 1) with (WatchDogTicks st) by lia.
    rewrite (Z.mod_small (WatchDogTicks st) (2 ^ 32)) by lia.
    repeat split; try (Z.div_mod_to_equations; lia).
    destruct st; reflexivity.
Qed.

(** X16. Enabling the watchdog: the hardware watchdog is configured with the
    period, the clearing timer is destroyed and created anew with the period
    less five seconds, and, if creating it fails, the hardware watchdog is
    switched off again: it is left running exactly when the timer could be
    created.  [FX3State] keeps saying "enabled" either way; only its tick
    count changes, to 33 ticks per millisecond. *)
Theorem watchdog_enable_outcome (verbose : bool) (timer_create td : Z)
  (st : BoardState) :
  WatchDogEnabled st <> CyFalse ->
  5000 <= WatchDogPeriodMs st < 2 ^ 32 ->
  let r := Wd.AdiConfigureWatchdog verbose timer_create td st in
  let period := WatchDogPeriodMs st in
  fst r = set_WatchDogTicks ((period * 33) mod 2 ^ 32) st
  /\ Wd.actions (snd r)
     = [ Wd.CyU3PSysWatchDogConfigure (WatchDogEnabled st) period;
         Wd.CyU3PTimerDestroy;
         Wd.CyU3PTimerCreate (period - 5000) (period - 5000) ]
       ++ (if u32 timer_create =? CY_U3P_SUCCESS then []
           else [Wd.CyU3PSysWatchDogConfigure CyFalse period])
  /\ Wd.watchdog_running (snd r) = (u32 timer_create =? CY_U3P_SUCCESS)
  /\ Wd.clear_timer (snd r) = Some (period - 5000).
Proof.
  intros Hen Hp r period. subst r period. unfold Wd.AdiConfigureWatchdog.
  apply Z.eqb_neq in Hen. unfold CyFalse in Hen. rewrite Hen.
  assert (Hcp : u32 (WatchDogPeriodMs st - 5000) = WatchDogPeriodMs st - 5000)
    by (unfold u32; apply Z.mod_small; lia).
  rewrite Hcp. cbn [fst snd].
  split; [reflexivity|].
  destruct verbose; destruct (u32 timer_create =? CY_U3P_SUCCESS);
    cbn; rewrite ?Hen; repeat split; reflexivity.
Qed.

(** X17. The clearing period is computed in unsigned arithmetic: for a watchdog
    period under five seconds it wraps around, and the clearing timer is
    created with a period of more than 2^32 - 5000 ticks, far beyond the
    watchdog period it is meant to stay under. *)
Theorem watchdog_clear_period_underflow (verbose : bool)
  (timer_create td : Z) (st : BoardState) :
  WatchDogEnabled st <> CyFalse ->
  0 <= WatchDogPeriodMs st < 5000 ->
  let r := Wd.AdiConfigureWatchdog verbose timer_create td st in
  Wd.clear_timer (snd r) = Some (2 ^ 32 - 5000 + WatchDogPeriodMs st)
  /\ WatchDogPeriodMs st < 2 ^ 32 - 5000 + WatchDogPeriodMs st.
Proof.
  intros Hen Hp r. subst r. unfold Wd.AdiConfigureWatchdog.
  apply Z.eqb_neq in Hen. unfold CyFalse in Hen. rewrite Hen.
  assert (Hcp : u32 (WatchDogPeriodMs st - 5000)
                = 2 ^ 32 - 5000 + WatchDogPeriodMs st).
  { unfold u32.
    replace (WatchDogPeriodMs st - 5000)
      with (2 ^ 32 - 5000 + WatchDogPeriodMs st + (-1) * 2 ^ 32) by lia.
    rewrite Z.mod_add by lia. apply Z.mod_small. lia. }
  rewrite Hcp. cbn [snd].
  split; [|lia].
  destruct verbose; destruct (u32 timer_create =? CY_U3P_SUCCESS);
    reflexivity.
Qed.

(** X18. Disabling the watchdog: the hardware watchdog is switched off and the
    clearing timer destroyed; a failure to destroy it is only printed. *)
Theorem watchdog_disable_outcome (verbose : bool) (tc timer_destroy : Z)
  (st : BoardState) :
  WatchDogEnabled st = CyFalse ->
  let r := Wd.AdiConfigureWatchdog verbose tc timer_destroy st in
  Wd.actions (snd r)
  = [ Wd.CyU3PSysWatchDogConfigure CyFalse (WatchDogPeriodMs st);
      Wd.CyU3PTimerDestroy ]
  /\ Wd.watchdog_running (snd r) = false
  /\ Wd.clear_timer (snd r) = None
  /\ (In (Wd.CyU3PDebugPrint "ERROR: Failed to destroy watchdog timer" [])
         (snd r)
      <-> u32 timer_destroy <> CY_U3P_SUCCESS).
Proof.
  intros Hen r. subst r. unfold Wd.AdiConfigureWatchdog.
  rewrite Hen. cbn [Z.eqb CyFalse snd].
  destruct verbose; destruct (Z.eqb_spec (u32 timer_destroy) CY_U3P_SUCCESS)
    as [He|Hne]; cbn; repeat split; try reflexivity;
    try (intros [H|[H|[H|[H|H]]]]; try discriminate H; try contradiction);
    try (intros [H|[H|[H|H]]]; try discriminate H; try contradiction);
    try (intros [H|[H|H]]; try discriminate H; try contradiction);
    try congruence; try tauto.
Qed.

(** ** GPIO interrupts *)

Lemma raise_if_In gpioId pin f f' :
  In f' (Gpio.raise_if gpioId pin f) <-> f' = f /\ gpioId = pin.
Proof.
  unfold Gpio.raise_if. destruct (Z.eqb_spec gpioId pin) as [He|Hne]; cbn.
  - split; [intros [H|[]]; auto | intros [H _]; auto].
  - split; [intros [] | intros [_ H]; contradiction].
Qed.

(** X19. A GPIO interrupt raises the flag of a pin exactly when the pin's value
    could be read and the interrupting pin number (a byte) is that pin's
    number in the pin map; no flag is raised twice. *)
Theorem gpio_flag_raised_iff (get_value : Z) (pm : PinMapT) (gpioId : Z)
  (f : Gpio.Flag) :
  (In f (Gpio.AdiGPIOEventHandler get_value pm gpioId)
   <-> u32 get_value = CY_U3P_SUCCESS /\ gpioId mod 2 ^ 8 = Gpio.pin_of pm f)
  /\ List.NoDup (Gpio.AdiGPIOEventHandler get_value pm gpioId).
Proof.
  unfold Gpio.AdiGPIOEventHandler. fold (u8 gpioId).
  destruct (Z.eqb_spec (u32 get_value) CY_U3P_SUCCESS) as [He|Hne].
  - split.
    + rewrite !in_app_iff, !raise_if_In.
      destruct f; cbn [Gpio.pin_of]; split;
        try (intros [[H1 H2]|[[H1 H2]|[[H1 H2]|[[H1 H2]|[[H1 H2]|[[H1 H2]|
                    [[H1 H2]|[H1 H2]]]]]]]]; try discriminate H1;
             split; [exact He | exact H2]);
        intros [_ H]; tauto.
    + unfold Gpio.raise_if.
      repeat match goal with
             | |- context [if ?b then _ else _] => destruct b
             end; cbn;
        repeat constructor; cbn; intuition discriminate.
  - split; [|constructor].
    split; [intros [] | intros [H _]; contradiction].
Qed.

(** X20. With the pin assignment of either board, every pin that has a flag has
    a number of its own, so an interrupt on it raises that flag and no
    other; an interrupt on any other pin number (the reset pin included)
    raises nothing. *)
Theorem installed_pin_maps_raise_one_flag (pm : PinMapT) (get_value : Z)
  (gpioId : Z) :
  pm = Gpio.iSensor_pin_map \/ pm = Gpio.Cypress_pin_map ->
  u32 get_value = CY_U3P_SUCCESS ->
  (forall f, gpioId mod 2 ^ 8 = Gpio.pin_of pm f ->
             Gpio.AdiGPIOEventHandler get_value pm gpioId = [f])
  /\ ((forall f, gpioId mod 2 ^ 8 <> Gpio.pin_of pm f) ->
      Gpio.AdiGPIOEventHandler get_value pm gpioId = []).
Proof.
  intros Hpm Hok. unfold Gpio.AdiGPIOEventHandler. fold (u8 gpioId).
  rewrite Hok. cbn [Z.eqb CY_U3P_SUCCESS].
  split.
  - intros f Hf. fold (u8 gpioId) in Hf. rewrite Hf.
    destruct Hpm as [-> | ->]; destruct f; reflexivity.
  - intros Hno. unfold Gpio.raise_if.
    repeat match goal with
           | |- context [if ?a =? ?b then _ else _] =>
               destruct (Z.eqb_spec a b) as [He|_];
               [ exfalso;
                 first [ apply (Hno Gpio.ADI_DIO1_INTERRUPT_FLAG); exact He
                       | apply (Hno Gpio.ADI_DIO2_INTERRUPT_FLAG); exact He
                       | apply (Hno Gpio.ADI_DIO3_INTERRUPT_FLAG); exact He
                       | apply (Hno Gpio.ADI_DIO4_INTERRUPT_FLAG); exact He
                       | apply (Hno Gpio.FX3_GPIO1_INTERRUPT_FLAG); exact He
                       | apply (Hno Gpio.FX3_GPIO2_INTERRUPT_FLAG); exact He
                       | apply (Hno Gpio.FX3_GPIO3_INTERRUPT_FLAG); exact He
                       | apply (Hno Gpio.FX3_GPIO4_INTERRUPT_FLAG); exact He ]
               | ]
           end.
    reflexivity.
Qed.

(** ** Start-up and USB events *)

Strategy 100 [Start.bind Start.ret Start.core Start.sdk_call Start.set_fx3
              Start.set_SpiConfig Start.get_fw Start.get_SpiConfig].

Lemma resets_app (l1 l2 : list Start.Event) :
  Start.resets (l1 ++ l2) = (Start.resets l1 + Start.resets l2)%nat.
Proof.
  unfold Start.resets. rewrite List.filter_app, length_app. reflexivity.
Qed.

Lemma reset_last_app (l1 l2 : list Start.Event) :
  Start.reset_last l2 = true -> Start.reset_last (l1 ++ l2) = true.
Proof.
  unfold Start.reset_last. rewrite rev_app_distr.
  destruct (rev l2) as [|e r]; [discriminate|]. intros H; exact H.
Qed.

Lemma resets_core (t : list Obs) :
  Start.resets (map Start.Core t)
  = length (List.filter is_device_reset (calls t)).
Proof.
  unfold Start.resets, calls.
  induction t as [|o t IH]; [reflexivity|].
  cbn. destruct (is_device_reset (call o)); cbn; rewrite IH; reflexivity.
Qed.

Lemma reset_last_core (t : list Obs) :
  Start.reset_last (map Start.Core t)
  = match rev (calls t) with
    | c :: _ => is_device_reset c
    | [] => false
    end.
Proof.
  unfold Start.reset_last, calls. rewrite <- !map_rev.
  destruct (rev t); reflexivity.
Qed.

Lemma outcome_bind {A B} (Q1 F1 Q2 F2 Q F : CyBool_t -> CyBool_t -> Prop)
  (m : Start.S A) (k : A -> Start.S B) :
  Start.outcome Q1 F1 m ->
  (forall a, Start.outcome Q2 F2 (k a)) ->
  (forall x y z, Q1 x y -> Q2 y z -> Q x z) ->
  (forall x y, F1 x y -> F x y) ->
  (forall x y z, Q1 x y -> F2 y z -> F x z) ->
  Start.outcome Q F (Start.bind m k).
Proof.
  intros Hm Hk HQ HF1 HF2 w. unfold Start.bind.
  destruct (Hm w) as (l1 & Hl1 & H1).
  destruct (m w) as [[a|] w1]; cbn [fst snd] in *.
  - destruct H1 as [Hq1 Hr1].
    destruct (Hk a w1) as (l2 & Hl2 & H2).
    exists (l1 ++ l2). rewrite Hl2, Hl1, app_assoc. split; [reflexivity|].
    rewrite resets_app, Hr1.
    destruct (fst (k a w1)).
    + destruct H2 as [Hq2 Hr2]. split; [eapply HQ; eauto | exact Hr2].
    + destruct H2 as (Hf2 & Hlast & Hr2).
      split; [eapply HF2; eauto|].
      split; [apply reset_last_app; exact Hlast | exact Hr2].
  - exists l1. split; [exact Hl1|].
    destruct H1 as (Hf1 & Hlast & Hr1). auto.
Qed.

(** Code that leaves [AppActive] alone, followed by anything. *)
Lemma outcome_then {A B} (Q F : CyBool_t -> CyBool_t -> Prop)
  (m : Start.S A) (k : A -> Start.S B) :
  Start.outcome eq eq m ->
  (forall a, Start.outcome Q F (k a)) ->
  (forall x, F x x) ->
  Start.outcome Q F (Start.bind m k).
Proof.
  intros Hm Hk HF.
  apply (outcome_bind eq eq Q F); auto.
  - intros x y z -> Hq; exact Hq.
  - intros x y ->; apply HF.
  - intros x y z -> Hf; exact Hf.
Qed.

Lemma core_eq {A} (m : M A) (w : Start.Machine) :
  Start.core m w
  = (fst (run_from m (Start.fw w) (Start.step w)),
     {| Start.fw := globals (snd (run_from m (Start.fw w) (Start.step w)));
        Start.SpiConfig := Start.SpiConfig w;
        Start.log :=
          Start.log w
          ++ map Start.Core
                 (trace (snd (run_from m (Start.fw w) (Start.step w))));
        Start.step := tick (snd (run_from m (Start.fw w) (Start.step w))) |}).
Proof. reflexivity. Qed.

Lemma core_fst {A} (m : M A) (w : Start.Machine) :
  fst (Start.core m w) = fst (run_from m (Start.fw w) (Start.step w)).
Proof. reflexivity. Qed.

Lemma outcome_ret {A} (a : A) : Start.outcome eq eq (Start.ret a).
Proof.
  intros w. exists []. cbn. rewrite app_nil_r. auto.
Qed.

Lemma outcome_get_fw : Start.outcome eq eq Start.get_fw.
Proof.
  intros w. exists []. cbn. rewrite app_nil_r. auto.
Qed.

Lemma outcome_get_SpiConfig : Start.outcome eq eq Start.get_SpiConfig.
Proof.
  intros w. exists []. cbn. rewrite app_nil_r. auto.
Qed.

Lemma outcome_set_SpiConfig c : Start.outcome eq eq (Start.set_SpiConfig c).
Proof.
  intros w. exists []. cbn. rewrite app_nil_r. auto.
Qed.

Lemma outcome_set_fx3 (f : BoardState -> BoardState) :
  (forall b, AppActive (f b) = AppActive b) ->
  Start.outcome eq eq (Start.set_fx3 f).
Proof.
  intros Hf w. exists []. cbn. rewrite app_nil_r. rewrite Hf. auto.
Qed.

Lemma not_bit17_bits (i : Z) :
  0 <= i ->
  Z.testbit Start.not_bit17 i = (i <? 32) && negb (i =? 17).
Proof.
  intros Hi.
  change Start.not_bit17 with (Z.ldiff (Z.ones 32) (2 ^ 17)).
  rewrite Z.ldiff_spec, Z.pow2_bits_eqb by lia.
  rewrite Z.testbit_ones by lia.
  replace (0 <=? i) with true by (symmetry; apply Z.leb_le; lia).
  rewrite (Z.eqb_sym 17 i). reflexivity.
Qed.

Lemma high_bits_clear (x i : Z) :
  0 <= x < 2 ^ 32 -> 32 <= i -> Z.testbit x i = false.
Proof.
  intros Hx Hi.
  destruct (Z.eq_dec x 0) as [->|Hne]; [apply Z.bits_0|].
  apply Z.bits_above_log2; [lia|].
  assert (Z.log2 x < 32) by (apply Z.log2_lt_pow2; lia). lia.
Qed.

Lemma clear_bit17 (x i : Z) :
  0 <= x < 2 ^ 32 -> 0 <= i ->
  Z.testbit (Z.land x Start.not_bit17) i
  = if i =? 17 then false else Z.testbit x i.
Proof.
  intros Hx Hi. rewrite Z.land_spec, not_bit17_bits by lia.
  destruct (Z.eqb_spec i 17) as [->|Hne].
  - cbn. apply andb_false_r.
  - destruct (Z.ltb_spec i 32) as [Hlt|Hge]; cbn.
    + apply andb_true_r.
    + rewrite (high_bits_clear x i Hx Hge). reflexivity.
Qed.

Lemma set_bit17 (x i : Z) :
  0 <= i ->
  Z.testbit (Z.lor x (Z.shiftl 1 17)) i
  = if i =? 17 then true else Z.testbit x i.
Proof.
  intros Hi. rewrite Z.lor_spec.
  change (Z.shiftl 1 17) with (2 ^ 17).
  rewrite Z.pow2_bits_eqb by lia. rewrite (Z.eqb_sym 17 i).
  destruct (i =? 17); [apply orb_true_r | apply orb_false_r].
Qed.

Lemma land_2_bit1 (x : Z) : (Z.land x 0x2 =? 0) = negb (Z.testbit x 1).
Proof.
  destruct (Z.testbit x 1) eqn:Hb; cbn [negb].
  - apply Z.eqb_neq. intros H0.
    assert (Hc : Z.testbit (Z.land x 2) 1 = false) by (rewrite H0; reflexivity).
    rewrite Z.land_spec, Hb in Hc. discriminate Hc.
  - apply Z.eqb_eq. apply Z.bits_inj'. intros n Hn.
    rewrite Z.land_spec, Z.bits_0.
    change 2 with (2 ^ 1). rewrite Z.pow2_bits_eqb by lia.
    destruct (Z.eqb_spec 1 n) as [<-|Hne];
      [rewrite Hb; reflexivity | apply andb_false_r].
Qed.

Section StartFacts.

Variable speed_code : Start.CyU3PUSBSpeed_t -> Z.
Variable event_code : Start.CyU3PUsbEventType_t -> Z.
Variable board_code : Start.FX3BoardType -> Z.
Variable VERBOSE_MODE : bool.
Variable ADI_5V_EN ADI_3_3V_EN ADI_TIMER_PIN ADI_TIMER_PIN_INDEX : Z.
Variable ADcmXL3021 : Z.
Variable CY_U3P_LPP_GPIO_INTR : Z.
Variable CY_U3P_ERROR_FAILURE : Z.
Variable env : Start.Platform.

Local Abbreviation AdiAppStart :=
  (Start.AdiAppStart speed_code board_code VERBOSE_MODE ADI_5V_EN ADI_3_3V_EN
     ADI_TIMER_PIN ADI_TIMER_PIN_INDEX ADcmXL3021 CY_U3P_LPP_GPIO_INTR
     CY_U3P_ERROR_FAILURE env).
Local Abbreviation AdiUSBEventHandler :=
  (Start.AdiUSBEventHandler speed_code event_code board_code VERBOSE_MODE
     ADI_5V_EN ADI_3_3V_EN ADI_TIMER_PIN ADI_TIMER_PIN_INDEX ADcmXL3021
     CY_U3P_LPP_GPIO_INTR CY_U3P_ERROR_FAILURE env).

Lemma outcome_sdk_call c : Start.outcome eq eq (Start.sdk_call env c).
Proof.
  intros w. eexists [_]. cbn. split; [reflexivity|]. auto.
Qed.

Lemma outcome_print fmt args : Start.outcome eq eq (Start.print env fmt args).
Proof.
  intros w. eexists [_]. cbn. split; [reflexivity|]. auto.
Qed.

Lemma outcome_flush ep : Start.outcome eq eq (Start.flush env ep).
Proof.
  intros w. eexists [_]. cbn. split; [reflexivity|]. auto.
Qed.

Lemma outcome_fatal status : Start.outcome eq eq (Start.fatal env status).
Proof.
  intros w. unfold Start.fatal. rewrite !core_eq.
  pose proof (fatal_from (Start.core_env env) status (Start.fw w)
                         (Start.step w)) as H.
  cbv zeta in H. revert H.
  generalize (run_from (AdiAppErrorHandler (Start.core_env env) status)
                       (Start.fw w) (Start.step w)).
  intros out (Hr & Hg & Hc). cbn [fst snd Start.log Start.fw].
  eexists. split; [reflexivity|].
  rewrite Hr, Hg. split; [reflexivity|].
  rewrite reset_last_core, resets_core, Hc. split; reflexivity.
Qed.

Lemma outcome_checked c : Start.outcome eq eq (Start.checked env c).
Proof.
  unfold Start.checked. apply outcome_then; [apply outcome_sdk_call | | auto].
  intros status. destruct (status =? CY_U3P_SUCCESS).
  - apply outcome_ret.
  - apply outcome_fatal.
Qed.

Lemma outcome_checked_print c fmt :
  Start.outcome eq eq (Start.checked_print env c fmt).
Proof.
  unfold Start.checked_print.
  apply outcome_then; [apply outcome_sdk_call | | auto].
  intros status. destruct (status =? CY_U3P_SUCCESS).
  - apply outcome_ret.
  - apply outcome_then; [apply outcome_print | | auto].
    intros _. apply outcome_fatal.
Qed.

Lemma outcome_started fmt1 fmt2 :
  Start.outcome (fun _ a' => a' = CyTrue) eq
    (Start.bind (Start.set_fx3 (set_AppActive CyTrue))
       (fun _ => Start.bind (Start.print env fmt1 [])
                   (fun _ => Start.print env fmt2 []))).
Proof.
  intros w. eexists [_; _]. cbn. rewrite <- app_assoc.
  split; [reflexivity|]. auto.
Qed.

Ltac tidy_step :=
  lazymatch goal with
  | |- Start.outcome _ _ (Start.bind (Start.set_fx3 (set_AppActive _)) _) =>
      apply outcome_started
  | |- Start.outcome _ _ (Start.bind _ _) =>
      apply outcome_then; [ | intros ? | auto ]
  | |- Start.outcome _ _ (Start.ret _) => apply outcome_ret
  | |- Start.outcome _ _ Start.get_fw => apply outcome_get_fw
  | |- Start.outcome _ _ Start.get_SpiConfig => apply outcome_get_SpiConfig
  | |- Start.outcome _ _ (Start.set_SpiConfig _) =>
      apply outcome_set_SpiConfig
  | |- Start.outcome _ _ (Start.set_fx3 _) =>
      apply outcome_set_fx3; intros b; reflexivity
  | |- Start.outcome _ _ (Start.sdk_call _ _) => apply outcome_sdk_call
  | |- Start.outcome _ _ (Start.print _ _ _) => apply outcome_print
  | |- Start.outcome _ _ (Start.flush _ _) => apply outcome_flush
  | |- Start.outcome _ _ (Start.fatal _ _) => apply outcome_fatal
  | |- Start.outcome _ _ (Start.checked _ _) => apply outcome_checked
  | |- Start.outcome _ _ (Start.checked_print _ _ _) =>
      apply outcome_checked_print
  | |- Start.outcome _ _ (match ?x with _ => _ end) => destruct x
  end.

Lemma outcome_GetFX3BoardType :
  Start.outcome eq eq (Start.GetFX3BoardType env).
Proof. unfold Start.GetFX3BoardType. repeat tidy_step. Qed.

Lemma outcome_AdiAppStart :
  Start.outcome (fun _ a' => a' = CyTrue) eq AdiAppStart.
Proof.
  unfold Start.AdiAppStart. repeat tidy_step.
  all: apply outcome_GetFX3BoardType.
Qed.

Lemma outcome_stop_if_active :
  Start.outcome (fun _ a' => a' = CyFalse) (fun _ _ => True)
    (Start.stop_if_active env).
Proof.
  intros w. unfold Start.stop_if_active, Start.bind, Start.get_fw.
  destruct (Z.eqb_spec (AppActive (FX3State (Start.fw w))) 0) as [He|Hne].
  - exists []. cbn. rewrite app_nil_r. auto.
  - rewrite !core_eq.
    pose proof (stop_from (Start.core_env env) (Start.fw w) (Start.step w))
      as H.
    cbv zeta in H. revert H.
    generalize (run_from (AdiAppStop (Start.core_env env))
                         (Start.fw w) (Start.step w)).
    intros out (Hg & Hr). cbn [fst snd Start.log Start.fw].
    eexists. split; [reflexivity|].
    rewrite Hg. rewrite reset_last_core, resets_core.
    destruct (fst out).
    + rewrite Hr. split; reflexivity.
    + destruct Hr as (l & -> & Hl).
      rewrite rev_app_distr, List.filter_app, Hl. cbn. auto.
Qed.

(** From an [outcome] at the initial machine to the statement about the
    run. *)
Ltac finish_outcome Hl Hw :=
  cbv zeta in Hw;
  match goal with
  | w := _ : Start.Machine |- _ =>
      change (Start.log w) with (@nil Start.Event) in Hl;
      match goal with
      | g : Globals |- _ => change (Start.fw w) with g in Hw
      end
  end;
  cbn [app] in Hl;
  revert Hl Hw;
  match goal with |- context [fst ?x] => generalize x end;
  intros [[u|] w'] Hl Hw; cbn [fst snd] in *; rewrite Hl;
  intuition congruence.


(** X24. A USB event: after a set-configuration event that is handled to the
    end the application is active; after a bus reset or a disconnect it is
    not; any other event changes and calls nothing.  The handler fails to
    come back only by a reset of the device. *)
Theorem usb_event_sets_AppActive (evtype evdata : Z) (g : Globals)
  (spi : Start.CyU3PSpiConfig_t) :
  let out := Start.exec (AdiUSBEventHandler evtype evdata) g spi in
  match fst out, switch_on Start.all_events event_code evtype with
  | None, _ =>
      Start.reset_last (Start.log (snd out)) = true
      /\ Start.resets (Start.log (snd out)) = 1%nat
  | Some _, Some Start.CY_U3P_USB_EVENT_SETCONF =>
      AppActive (FX3State (Start.fw (snd out))) = CyTrue
      /\ Start.resets (Start.log (snd out)) = O
  | Some _, Some _ =>
      AppActive (FX3State (Start.fw (snd out))) = CyFalse
      /\ Start.resets (Start.log (snd out)) = O
  | Some _, None =>
      Start.fw (snd out) = g /\ Start.log (snd out) = []
  end.
Proof.
  intros out. subst out. unfold Start.exec, Start.AdiUSBEventHandler.
  pose (w := {| Start.fw := g; Start.SpiConfig := spi; Start.log := [];
                Start.step := O |}).
  fold w.
  destruct (switch_on Start.all_events event_code evtype) as [[| |]|].
  - assert (H : Start.outcome (fun _ a' => a' = CyTrue) (fun _ _ => True)
                  (Start.bind (Start.sdk_call env Start.CyU3PUsbLPMDisable)
                     (fun _ => Start.bind (Start.stop_if_active env)
                                 (fun _ => AdiAppStart)))).
    { apply outcome_then; [apply outcome_sdk_call | | auto].
      intros _.
      apply (outcome_bind (fun _ a' => a' = CyFalse) (fun _ _ => True)
                          (fun _ a' => a' = CyTrue) eq);
        [apply outcome_stop_if_active | intros _; apply outcome_AdiAppStart
        | auto .. ]. }
    destruct (H w) as (l & Hl & Hw). finish_outcome Hl Hw.
  - destruct (outcome_stop_if_active w) as (l & Hl & Hw).
    finish_outcome Hl Hw.
  - destruct (outcome_stop_if_active w) as (l & Hl & Hw).
    finish_outcome Hl Hw.
  - cbn. auto.
Qed.

(** *** Running start-up call by call *)

Lemma sbind_bind {A B C} (m : Start.S A) (k1 : A -> Start.S B)
  (k2 : B -> Start.S C) w :
  Start.bind (Start.bind m k1) k2 w
  = Start.bind m (fun a => Start.bind (k1 a) k2) w.
Proof. unfold Start.bind. destruct (m w) as [[a|] w']; reflexivity. Qed.

Lemma sbind_ret {A B} (a : A) (k : A -> Start.S B) w :
  Start.bind (Start.ret a) k w = k a w.
Proof. reflexivity. Qed.

Lemma sbind_get_fw {B} (k : Globals -> Start.S B) w :
  Start.bind Start.get_fw k w = k (Start.fw w) w.
Proof. reflexivity. Qed.

Lemma sbind_get_SpiConfig {B} (k : _ -> Start.S B) w :
  Start.bind Start.get_SpiConfig k w = k (Start.SpiConfig w) w.
Proof. reflexivity. Qed.

Lemma sbind_set_fx3 {B} f (k : unit -> Start.S B) w :
  Start.bind (Start.set_fx3 f) k w
  = k tt {| Start.fw := with_FX3State f (Start.fw w);
            Start.SpiConfig := Start.SpiConfig w;
            Start.log := Start.log w; Start.step := Start.step w |}.
Proof. reflexivity. Qed.

Lemma sbind_set_SpiConfig {B} c (k : unit -> Start.S B) w :
  Start.bind (Start.set_SpiConfig c) k w
  = k tt {| Start.fw := Start.fw w; Start.SpiConfig := c;
            Start.log := Start.log w; Start.step := Start.step w |}.
Proof. reflexivity. Qed.

Lemma sbind_sdk_call {B} c (k : Z -> Start.S B) w :
  Start.bind (Start.sdk_call env c) k w
  = k (u32 (Start.answers_of env (Start.step w) c))
      {| Start.fw := Start.fw w; Start.SpiConfig := Start.SpiConfig w;
         Start.log :=
           Start.log w
           ++ [Start.Sdk c (u32 (Start.answers_of env (Start.step w) c))];
         Start.step := S (Start.step w) |}.
Proof. reflexivity. Qed.

Lemma sbind_print {B} fmt args (k : unit -> Start.S B) w :
  Start.bind (Start.print env fmt args) k w
  = k tt
      {| Start.fw := Start.fw w; Start.SpiConfig := Start.SpiConfig w;
         Start.log :=
           Start.log w
           ++ [Start.Core
                 {| seen := Start.fw w; call := CyU3PDebugPrint fmt args;
                    answer := u32 (answers (Start.core_env env)
                                           (Start.step w)
                                           (CyU3PDebugPrint fmt args)
                                           (Start.fw w)) |}];
         Start.step := S (Start.step w) |}.
Proof. reflexivity. Qed.

Lemma sbind_flush {B} ep (k : unit -> Start.S B) w :
  Start.bind (Start.flush env ep) k w
  = k tt
      {| Start.fw := Start.fw w; Start.SpiConfig := Start.SpiConfig w;
         Start.log :=
           Start.log w
           ++ [Start.Core
                 {| seen := Start.fw w; call := CyU3PUsbFlushEp ep;
                    answer := u32 (answers (Start.core_env env)
                                           (Start.step w)
                                           (CyU3PUsbFlushEp ep)
                                           (Start.fw w)) |}];
         Start.step := S (Start.step w) |}.
Proof. reflexivity. Qed.

(** Whatever fails fatally does not come back. *)
Lemma fatal_result status w : fst (Start.fatal env status w) = None.
Proof.
  unfold Start.fatal. rewrite core_fst.
  pose proof (fatal_from (Start.core_env env) status (Start.fw w)
                         (Start.step w)) as H.
  cbv zeta in H. exact (proj1 H).
Qed.

Lemma fatal_never_returns {B} status (k : unit -> Start.S B) w :
  fst (Start.bind (Start.fatal env status) k w) = None.
Proof.
  unfold Start.bind. pose proof (fatal_result status w) as H.
  destruct (Start.fatal env status w) as [[u|] w']; cbn [fst] in *;
    [discriminate H | reflexivity].
Qed.

(** A checked call in a run that comes back: it succeeded. *)
Lemma checked_returns {B} c (k : unit -> Start.S B) w :
  fst (Start.bind (Start.checked env c) k w) <> None ->
  u32 (Start.answers_of env (Start.step w) c) = CY_U3P_SUCCESS
  /\ Start.bind (Start.checked env c) k w
     = k tt {| Start.fw := Start.fw w; Start.SpiConfig := Start.SpiConfig w;
               Start.log := Start.log w ++ [Start.Sdk c CY_U3P_SUCCESS];
               Start.step := S (Start.step w) |}.
Proof.
  unfold Start.checked. rewrite sbind_bind, sbind_sdk_call.
  destruct (Z.eqb_spec (u32 (Start.answers_of env (Start.step w) c))
                       CY_U3P_SUCCESS) as [He|Hne].
  - intros _. rewrite He, sbind_ret. auto.
  - intros H. exfalso. apply H. apply fatal_never_returns.
Qed.

Lemma checked_print_returns {B} c fmt (k : unit -> Start.S B) w :
  fst (Start.bind (Start.checked_print env c fmt) k w) <> None ->
  u32 (Start.answers_of env (Start.step w) c) = CY_U3P_SUCCESS
  /\ Start.bind (Start.checked_print env c fmt) k w
     = k tt {| Start.fw := Start.fw w; Start.SpiConfig := Start.SpiConfig w;
               Start.log := Start.log w ++ [Start.Sdk c CY_U3P_SUCCESS];
               Start.step := S (Start.step w) |}.
Proof.
  unfold Start.checked_print. rewrite sbind_bind, sbind_sdk_call.
  destruct (Z.eqb_spec (u32 (Start.answers_of env (Start.step w) c))
                       CY_U3P_SUCCESS) as [He|Hne].
  - intros _. rewrite He, sbind_ret. auto.
  - intros H. exfalso. apply H.
    rewrite sbind_bind, sbind_print. apply fatal_never_returns.
Qed.

Lemma sbind_ret_r {A} (m : Start.S A) w : Start.bind m Start.ret w = m w.
Proof.
  unfold Start.bind, Start.ret. destruct (m w) as [[a|] w']; reflexivity.
Qed.

Lemma u32_range_start k c :
  0 <= u32 (Start.answers_of env k c) < 2 ^ 32.
Proof. unfold u32. apply Z.mod_pos_bound. lia. Qed.

(** Forget how the answers in [H] were computed, keeping their range. *)
Ltac forget_start_answers H :=
  repeat match type of H with
    | context [u32 (Start.answers_of env ?k ?c)] =>
        let a := fresh "a" in
        let Ha := fresh "Ha" in
        pose proof (u32_range_start k c) as Ha;
        set (a := u32 (Start.answers_of env k c)) in H, Ha; clearbody a
    | context [u32 (answers (Start.core_env env) ?k ?c ?g)] =>
        let a := fresh "p" in
        set (a := u32 (answers (Start.core_env env) k c g)) in H;
        clearbody a
    end.

(** Run the next statement of the program in [E : out = program machine],
    where [Hs : fst out = Some tt]. *)
Ltac start_step E Hs :=
  lazymatch type of E with
  | _ = Start.bind (Start.checked _ ?c) ?k ?w =>
      let Hc := fresh "Hc" in
      let Heq := fresh "Heq" in
      destruct (checked_returns c k w) as [Hc Heq];
      [ rewrite <- E, Hs; discriminate | rewrite Heq in E; clear Heq Hc ]
  | _ = Start.bind (Start.checked_print _ ?c ?fmt) ?k ?w =>
      let Hc := fresh "Hc" in
      let Heq := fresh "Heq" in
      destruct (checked_print_returns c fmt k w) as [Hc Heq];
      [ rewrite <- E, Hs; discriminate | rewrite Heq in E; clear Heq Hc ]
  | _ = Start.bind (Start.fatal _ _) _ _ =>
      exfalso; rewrite E, fatal_never_returns in Hs; discriminate Hs
  | _ = Start.bind (Start.bind _ _) _ _ => rewrite sbind_bind in E
  | _ = Start.bind (Start.ret _) _ _ => rewrite sbind_ret in E
  | _ = Start.bind (Start.sdk_call _ _) _ _ => rewrite sbind_sdk_call in E
  | _ = Start.bind (Start.set_fx3 _) _ _ => rewrite sbind_set_fx3 in E
  | _ = Start.bind (Start.set_SpiConfig _) _ _ =>
      rewrite sbind_set_SpiConfig in E
  | _ = Start.bind (Start.print _ _ _) _ _ => rewrite sbind_print in E
  | _ = Start.bind (Start.flush _ _) _ _ => rewrite sbind_flush in E
  | _ = Start.bind Start.get_fw _ _ => rewrite sbind_get_fw in E
  | _ = Start.bind Start.get_SpiConfig _ _ =>
      rewrite sbind_get_SpiConfig in E
  | _ = Start.bind (Start.GetFX3BoardType _) _ _ =>
      unfold Start.GetFX3BoardType in E
  | _ = Start.bind (match ?x with _ => _ end) _ _ =>
      let Hx := fresh "Hx" in destruct x eqn:Hx
  end;
  cbv beta zeta in E;
  cbn [Start.fw Start.SpiConfig Start.log Start.step app
       FX3State with_FX3State PinMap UsbBufferSize BoardType
       set_UsbBufferSize set_BoardType set_PinMap set_TimerPinConfig
       set_StallTime set_DutType set_DrPin set_DrActive set_DrPolarity
       set_AppActive] in E;
  forget_start_answers E.

Ltac find_call := cbn; repeat (first [left; reflexivity | right]).


(** X21. Board detection touches nothing but pin 17 (CTL0): each register write
    returns the value just read with bit 17 changed and every other bit as
    it was; CTL0 is sampled with its pull-up off and its pull-down on; the
    board is the Cypress kit exactly when bit 1 of the sample is set; and
    the pull-down is switched off again afterwards, while the pull-up stays
    off.  The routine always comes back and leaves the firmware globals. *)
Theorem board_detection_touches_only_bit_17 (g : Globals)
  (spi : Start.CyU3PSpiConfig_t) :
  let out := Start.exec (Start.GetFX3BoardType env) g spi in
  exists wpu wpu_off wpd wpd_on ctl0 wpd2 wpd_off,
    Start.made (Start.log (snd out))
    = [ Start.read_GCTL_WPU_CFG; Start.write_GCTL_WPU_CFG wpu_off;
        Start.AdiSleepForMicroSeconds 5;
        Start.read_GCTL_WPD_CFG; Start.write_GCTL_WPD_CFG wpd_on;
        Start.AdiSleepForMicroSeconds 5;
        Start.CyU3PGpioSetSimpleConfig 17 Start.input_config;
        Start.read_lpp_gpio_simple 17;
        Start.read_GCTL_WPD_CFG; Start.write_GCTL_WPD_CFG wpd_off ]
    /\ Start.reads (Start.log (snd out)) = [wpu; wpd; ctl0; wpd2]
    /\ (forall i, 0 <= i ->
          Z.testbit wpu_off i = if i =? 17 then false else Z.testbit wpu i)
    /\ (forall i, 0 <= i ->
          Z.testbit wpd_on i = if i =? 17 then true else Z.testbit wpd i)
    /\ (forall i, 0 <= i ->
          Z.testbit wpd_off i = if i =? 17 then false else Z.testbit wpd2 i)
    /\ fst out = Some (if Z.testbit ctl0 1 then Start.CypressFX3Board
                       else Start.iSensorFX3Board)
    /\ Start.fw (snd out) = g.
Proof.
  intros out. unfold Start.exec in out.
  assert (E : out = Start.bind (Start.GetFX3BoardType env) Start.ret
                      {| Start.fw := g; Start.SpiConfig := spi;
                         Start.log := []; Start.step := O |})
    by (rewrite sbind_ret_r; reflexivity).
  clearbody out. unfold Start.GetFX3BoardType in E.
  assert (Hs : True) by exact I.
  repeat (start_step E Hs).
  unfold Start.ret in E. subst out. cbn [fst snd Start.log Start.fw].
  match goal with
  | |- context [[Start.Sdk Start.read_GCTL_WPU_CFG ?wpu;
                 Start.Sdk (Start.write_GCTL_WPU_CFG ?wpu_off) _; _;
                 Start.Sdk Start.read_GCTL_WPD_CFG ?wpd;
                 Start.Sdk (Start.write_GCTL_WPD_CFG ?wpd_on) _; _; _;
                 Start.Sdk (Start.read_lpp_gpio_simple 17) ?ctl0;
                 Start.Sdk Start.read_GCTL_WPD_CFG ?wpd2;
                 Start.Sdk (Start.write_GCTL_WPD_CFG ?wpd_off) _]] =>
      exists wpu, wpu_off, wpd, wpd_on, ctl0, wpd2, wpd_off
  end.
  split; [reflexivity|]. split; [reflexivity|].
  split; [intros i Hi; apply clear_bit17; assumption|].
  split; [intros i Hi; apply set_bit17; assumption|].
  split; [intros i Hi; apply clear_bit17; assumption|].
  split; [|reflexivity].
  rewrite land_2_bit1. destruct (Z.testbit _ 1); reflexivity.
Qed.

End StartFacts.

(** *** The sample platform *)



(** ** More of the theorems at work on the sample configuration *)

(** A read-pin command for pin 5. *)
Lemma plain_command_handled_iff_success_witness :
  let s := Usb.decode (vendor_setup0 ADI_READ_PIN 0) (Usb.pack1 5 0) in
  let out := exec (handler false env_ok (vendor_setup0 ADI_READ_PIN 0)
                           (Usb.pack1 5 0)) idle in
  exists pre o,
    trace (snd out) = pre ++ [o]
    /\ call o = AdiPinRead 5
    /\ actions pre
       = (if drains_ep0_first ADI_READ_PIN
          then [CyU3PUsbGetEP0Data (Usb.wLength s)] else [])
    /\ fst out
       = Some (if answer o =? CY_U3P_SUCCESS then CyTrue else CyFalse).
Proof.
  apply (plain_command_handled_iff_success code sub_code false build_date
           build_time env_ok ADI_READ_PIN (AdiPinRead 5)
           (vendor_setup0 ADI_READ_PIN 0) (Usb.pack1 5 0) idle);
    reflexivity.
Defined.

(** A write of value 0x1234 to register 0x10: the low byte goes out. *)
Lemma register_access_ignores_status_witness :
  let out := exec (handler false env_ok (vendor_setup0 ADI_WRITE_BYTE 0x1234)
                           (Usb.pack1 0x10 0)) idle in
  fst out = Some CyTrue
  /\ actions (trace (snd out)) = [AdiWriteRegByte 0x10 0x34].
Proof.
  apply (register_access_ignores_status code sub_code false build_date
           build_time env_ok ADI_WRITE_BYTE (AdiWriteRegByte 0x10 0x34)
           (vendor_setup0 ADI_WRITE_BYTE 0x1234) (Usb.pack1 0x10 0) idle);
    reflexivity.
Defined.

(** An SPI configuration command: index 2, value 7, length 4. *)
Lemma spi_config_result_is_AdiSpiUpdate_witness :
  let out := exec (handler false env_ok (vendor_setup0 ADI_SET_SPI_CONFIG 7)
                           (Usb.pack1 2 4)) idle in
  exists pre o,
    trace (snd out) = pre ++ [o]
    /\ actions pre = []
    /\ call o = AdiSpiUpdate 2 7 4
    /\ fst out = Some (answer o).
Proof.
  apply (spi_config_result_is_AdiSpiUpdate code sub_code false build_date
           build_time env_ok (vendor_setup0 ADI_SET_SPI_CONFIG 7)
           (Usb.pack1 2 4) idle); reflexivity.
Defined.

(** A firmware-ID check. *)
Lemma id_command_sends_32_bytes_witness :
  let out := exec (handler false env_ok
                           (vendor_setup0 ADI_FIRMWARE_ID_CHECK 0)
                           (Usb.pack1 0 32)) idle in
  exists o,
    List.filter (fun o => negb (is_print (call o))) (trace (snd out)) = [o]
    /\ call o = CyU3PUsbSendEP0Data 32 ptr_FirmwareID
    /\ fst out
       = Some (if answer o =? CY_U3P_SUCCESS then CyTrue else CyFalse)
    /\ globals (snd out) = idle.
Proof.
  apply (id_command_sends_32_bytes code sub_code false build_date build_time
           env_ok ADI_FIRMWARE_ID_CHECK ptr_FirmwareID
           (vendor_setup0 ADI_FIRMWARE_ID_CHECK 0) (Usb.pack1 0 32) idle);
    reflexivity.
Defined.

(** A build-date request of 20 bytes. *)
Lemma info_commands_always_handled_witness :
  let out := exec (handler false env_failing
                           (vendor_setup0 ADI_GET_BUILD_DATE 0)
                           (Usb.pack1 0 20)) idle in
  fst out = Some CyTrue
  /\ actions (trace (snd out)) = [CyU3PUsbSendEP0Data 20 ptr_USBBuffer]
  /\ with_USBBuffer (fun _ => USBBuffer idle) (globals (snd out)) = idle.
Proof.
  apply (info_commands_always_handled code sub_code false build_date
           build_time env_failing ADI_GET_BUILD_DATE
           (vendor_setup0 ADI_GET_BUILD_DATE 0) (Usb.pack1 0 20) idle);
    reflexivity.
Defined.

(** A set-boot-time command carrying four bytes. *)
Lemma boot_time_is_little_endian_witness :
  let out := exec (handler false env_ok (vendor_setup0 ADI_SET_BOOT_TIME 0)
                           (Usb.pack1 0 4)) idle in
  exists o,
    In o (trace (snd out))
    /\ call o = CyU3PUsbGetEP0Data 4
    /\ actions (trace (snd out)) = [call o]
    /\ BootTime (FX3State (globals (snd out)))
       = status_word (USBBuffer (globals (snd out)))
    /\ set_BootTime (BootTime (FX3State idle)) (FX3State (globals (snd out)))
       = FX3State idle
    /\ fst out
       = Some (if answer o =? CY_U3P_SUCCESS then CyTrue else CyFalse).
Proof.
  apply (boot_time_is_little_endian code sub_code false build_date build_time
           env_ok (vendor_setup0 ADI_SET_BOOT_TIME 0) (Usb.pack1 0 4) idle);
    reflexivity.
Defined.

(** A pulse-drive command with eight bytes of configuration. *)
Lemma pulse_drive_reports_over_bulk_witness :
  let out := exec (handler false env_ok (vendor_setup0 ADI_PULSE_DRIVE 0)
                           (Usb.pack1 0 8)) idle in
  exists pre o1 o2 o3,
    trace (snd out) = pre ++ [o1; o2; o3]
    /\ actions pre = []
    /\ call o1 = CyU3PUsbGetEP0Data 8
    /\ call o2 = AdiPulseDrive
    /\ call o3 = CyU3PDmaChannelSetupSendBuffer ChannelToPC
    /\ ManualDMABuffer (seen o3)
       = {| dma_buffer := Some ptr_USBBuffer; dma_size := 4096;
            dma_count := 4 |}
    /\ status_word (USBBuffer (seen o3)) = answer o2
    /\ fst out
       = Some (if answer o2 =? CY_U3P_SUCCESS then CyTrue else CyFalse).
Proof.
  apply (pulse_drive_reports_over_bulk code sub_code false build_date
           build_time env_ok (vendor_setup0 ADI_PULSE_DRIVE 0)
           (Usb.pack1 0 8) idle); reflexivity.
Defined.

(** A burst-stream Done with six bytes to drain. *)
Lemma stream_done_and_stop_witness :
  let s := Usb.decode (vendor_setup0 ADI_STREAM_BURST_DATA 0)
                      (Usb.pack1 1 6) in
  let out := exec (handler false env_ok
                           (vendor_setup0 ADI_STREAM_BURST_DATA 0)
                           (Usb.pack1 1 6)) idle in
  actions (trace (snd out)) = stream_end_actions Burst ADI_STREAM_DONE_CMD s
  /\ StreamThreadState (globals (snd out)) = StreamThreadState idle
  /\ FX3State (globals (snd out)) = FX3State idle
  /\ (ADI_STREAM_DONE_CMD = ADI_STREAM_STOP_CMD -> globals (snd out) = idle).
Proof.
  apply (stream_done_and_stop code sub_code false build_date build_time
           env_ok Burst ADI_STREAM_DONE_CMD
           (vendor_setup0 ADI_STREAM_BURST_DATA 0) (Usb.pack1 1 6) idle);
    try reflexivity.
  discriminate.
Defined.

(** A real-time-stream Start with pin exit enabled. *)
Lemma stream_start_records_one_parameter_witness :
  let s := Usb.decode (vendor_setup0 ADI_STREAM_REALTIME 1)
                      (Usb.pack1 0 0) in
  let out := exec (handler false env_ok
                           (vendor_setup0 ADI_STREAM_REALTIME 1)
                           (Usb.pack1 0 0)) idle in
  StreamThreadState (globals (snd out))
  = family_store RealTime s (StreamThreadState idle)
  /\ FX3State (globals (snd out)) = FX3State idle
  /\ actions (trace (snd out))
     = [] ++ [CyU3PEventSet EventHandler
                (family_event RealTime ADI_STREAM_START_CMD)].
Proof.
  apply (stream_start_records_one_parameter code sub_code false build_date
           build_time env_ok RealTime (vendor_setup0 ADI_STREAM_REALTIME 1)
           (Usb.pack1 0 0) idle); reflexivity.
Defined.

(** The sample device has counted 7 ticks. *)
Lemma watchdog_callback_flips_low_bit_witness :
  let st := Wd.sample CyTrue 20000 in
  let r := Wd.WatchDogTimerCb 0 st in
  WatchDogTicks (fst r) = snd r
  /\ 0 <= snd r < 2 ^ 32
  /\ snd r / 2 = WatchDogTicks st / 2
  /\ snd r mod 2 = 1 - WatchDogTicks st mod 2
  /\ fst (Wd.WatchDogTimerCb 0 (fst r)) = st.
Proof.
  apply (watchdog_callback_flips_low_bit 0 0 (Wd.sample CyTrue 20000)).
  simpl. lia.
Defined.

(** A watchdog of 20 seconds whose clearing timer cannot be created. *)
Lemma watchdog_enable_outcome_witness :
  let st := Wd.sample CyTrue 20000 in
  let r := Wd.AdiConfigureWatchdog false 0x45 0 st in
  fst r = set_WatchDogTicks ((20000 * 33) mod 2 ^ 32) st
  /\ Wd.actions (snd r)
     = [ Wd.CyU3PSysWatchDogConfigure CyTrue 20000; Wd.CyU3PTimerDestroy;
         Wd.CyU3PTimerCreate (20000 - 5000) (20000 - 5000) ]
       ++ (if u32 0x45 =? CY_U3P_SUCCESS then []
           else [Wd.CyU3PSysWatchDogConfigure CyFalse 20000])
  /\ Wd.watchdog_running (snd r) = (u32 0x45 =? CY_U3P_SUCCESS)
  /\ Wd.clear_timer (snd r) = Some (20000 - 5000).
Proof.
  apply (watchdog_enable_outcome false 0x45 0 (Wd.sample CyTrue 20000)).
  - vm_compute. discriminate.
  - simpl. lia.
Defined.

(** A watchdog of 2 seconds. *)
Lemma watchdog_clear_period_underflow_witness :
  let st := Wd.sample CyTrue 2000 in
  let r := Wd.AdiConfigureWatchdog false 0 0 st in
  Wd.clear_timer (snd r) = Some (2 ^ 32 - 5000 + 2000)
  /\ 2000 < 2 ^ 32 - 5000 + 2000.
Proof.
  apply (watchdog_clear_period_underflow false 0 0 (Wd.sample CyTrue 2000)).
  - vm_compute. discriminate.
  - simpl. lia.
Defined.

(** Switching the watchdog off while the timer cannot be destroyed. *)
Lemma watchdog_disable_outcome_witness :
  let st := Wd.sample CyFalse 20000 in
  let r := Wd.AdiConfigureWatchdog false 0 0x11 st in
  Wd.actions (snd r)
  = [ Wd.CyU3PSysWatchDogConfigure CyFalse 20000; Wd.CyU3PTimerDestroy ]
  /\ Wd.watchdog_running (snd r) = false
  /\ Wd.clear_timer (snd r) = None
  /\ (In (Wd.CyU3PDebugPrint "ERROR: Failed to destroy watchdog timer" [])
         (snd r)
      <-> u32 0x11 <> CY_U3P_SUCCESS).
Proof.
  apply (watchdog_disable_outcome false 0 0x11 (Wd.sample CyFalse 20000)).
  reflexivity.
Defined.

(** An interrupt on pin 4 of the iSensor board, which is DIO2. *)
Lemma installed_pin_maps_raise_one_flag_witness :
  (forall f, 4 mod 2 ^ 8 = Gpio.pin_of Gpio.iSensor_pin_map f ->
             Gpio.AdiGPIOEventHandler 0 Gpio.iSensor_pin_map 4 = [f])
  /\ ((forall f, 4 mod 2 ^ 8 <> Gpio.pin_of Gpio.iSensor_pin_map f) ->
      Gpio.AdiGPIOEventHandler 0 Gpio.iSensor_pin_map 4 = []).
Proof.
  apply (installed_pin_maps_raise_one_flag Gpio.iSensor_pin_map 0 4).
  - left. reflexivity.
  - reflexivity.
Defined.
